(** * CitiEnGov exporter: the translation of a CitiEnGov GML document to
      INSPIRE Buildings or CityGML Energy ADE ([citiengov_export_gml.py]).

    The development embeds the Python program shallowly.  Strings are
    [string], the bytes of the text in UTF-8: splitting and searching at an
    ASCII character, comparing and sorting are the same on the bytes as on
    the characters, [strip] knows the white space beyond ASCII, and [lower]
    and [int] are modelled on ASCII text.  An XML element is a tree
    carrying a tag, an attribute
    dictionary, an optional text and its children, Python exceptions are the
    [Raise] outcomes of a small error monad, and the iterator protocol of
    the source document is a step function on its explicit state. *)

From Stdlib Require Import String Ascii List ZArith Lia Bool Arith PeanoNat.
From Stdlib Require Import Sorted Permutation.
From Stdlib Require DecimalString.
Import ListNotations.
Open Scope list_scope.
Open Scope string_scope.

(** ** Exceptions and fallible computations *)

(** The two uses of [UnboundLocalError] in [make_demand]: the message of the
    first is built from the energy source read from the document, the
    message of the second from the sorted list of years. *)
Inductive message : Type :=
| ExpectedSource (expected got : string)
| YearsNotConsecutive (sorted_years : list (option string)).

Inductive exn : Type :=
| IndexError
| AttributeError
| TypeError
| ValueError
| KeyError (key : option string)   (* the key, which is a text *)
| UnboundLocalError (msg : message).

Inductive result (A : Type) : Type :=
| Ok (a : A)
| Raise (e : exn).
Arguments Ok {A} a.
Arguments Raise {A} e.

Definition bind {A B : Type} (m : result A) (k : A -> result B) : result B :=
  match m with
  | Ok a => k a
  | Raise e => Raise e
  end.

Notation "x <- m ;; k" := (bind m (fun x => k))
  (at level 61, m at next level, right associativity).

(** ** Python strings *)

Module Py.

(** The white space of [str.isspace]: among the ASCII characters, 9 to 13
    and 28 to 32. *)
Definition is_space (c : ascii) : bool :=
  let n := nat_of_ascii c in
  ((9 <=? n) && (n <=? 13) || (28 <=? n) && (n <=? 32))%nat.

(** Beyond ASCII, in UTF-8: U+0085 and U+00A0 on two bytes; U+1680, U+2000
    to U+200A, U+2028, U+2029, U+202F, U+205F and U+3000 on three. *)
Definition is_space2 (a b : ascii) : bool :=
  let m := nat_of_ascii a in
  let n := nat_of_ascii b in
  ((m =? 194) && ((n =? 133) || (n =? 160)))%nat.

Definition is_space3 (a b c : ascii) : bool :=
  let l := nat_of_ascii a in
  let m := nat_of_ascii b in
  let n := nat_of_ascii c in
  ((l =? 225) && (m =? 154) && (n =? 128)
   || (l =? 226) && (m =? 128)
      && ((128 <=? n) && (n <=? 138) || (n =? 168) || (n =? 169) || (n =? 175))
   || (l =? 226) && (m =? 129) && (n =? 159)
   || (l =? 227) && (m =? 128) && (n =? 128))%nat.

(** [s] is one white-space character. *)
Definition is_space_char (s : string) : bool :=
  match s with
  | String a EmptyString => is_space a
  | String a (String b EmptyString) => is_space2 a b
  | String a (String b (String c EmptyString)) => is_space3 a b c
  | _ => false
  end.

(** The white space [int] skips around a numeral: of the ASCII characters,
    those of C's [isspace]. *)
Definition is_c_space (c : ascii) : bool :=
  let n := nat_of_ascii c in
  ((9 <=? n) && (n <=? 13) || (n =? 32))%nat.

Definition is_digit (c : ascii) : bool :=
  let n := nat_of_ascii c in ((48 <=? n) && (n <=? 57))%nat.

Definition is_upper (c : ascii) : bool :=
  let n := nat_of_ascii c in ((65 <=? n) && (n <=? 90))%nat.

Definition lower_char (c : ascii) : ascii :=
  if is_upper c then ascii_of_nat (nat_of_ascii c + 32) else c.

(** [str.lower()], on ASCII letters *)
Fixpoint lower (s : string) : string :=
  match s with
  | EmptyString => EmptyString
  | String c s' => String (lower_char c) (lower s')
  end.

Fixpoint lstrip (p : ascii -> bool) (s : string) : string :=
  match s with
  | EmptyString => EmptyString
  | String c s' => if p c then lstrip p s' else s
  end.

Fixpoint rstrip (p : ascii -> bool) (s : string) : string :=
  match s with
  | EmptyString => EmptyString
  | String c s' =>
      match rstrip p s' with
      | EmptyString => if p c then EmptyString else String c EmptyString
      | r => String c r
      end
  end.

Fixpoint mem_char (c : ascii) (chars : string) : bool :=
  match chars with
  | EmptyString => false
  | String d r => Ascii.eqb c d || mem_char c r
  end.

(** [s.strip(chars)] and [s.rstrip(chars)], for ASCII [chars] *)
Definition strip_chars (chars s : string) : string :=
  lstrip (fun c => mem_char c chars) (rstrip (fun c => mem_char c chars) s).

Definition rstrip_chars (chars s : string) : string :=
  rstrip (fun c => mem_char c chars) s.

(** [s.strip()] strips the white space of [str.isspace], character by
    character: from the left while the text begins with a white-space
    character, from the right while what is left ends with one. *)
Fixpoint lstrip_space (s : string) : string :=
  match s with
  | EmptyString => EmptyString
  | String a r =>
      if is_space a then lstrip_space r
      else match r with
           | EmptyString => s
           | String b r2 =>
               if is_space2 a b then lstrip_space r2
               else match r2 with
                    | EmptyString => s
                    | String c r3 => if is_space3 a b c then lstrip_space r3 else s
                    end
           end
  end.

Fixpoint rstrip_space (s : string) : string :=
  match s with
  | EmptyString => EmptyString
  | String a s' =>
      let r := rstrip_space s' in
      if is_space_char (String a r) then EmptyString else String a r
  end.

Definition strip (s : string) : string := lstrip_space (rstrip_space s).

(** [s.split(sep)] for a separator of one character *)
Fixpoint split (sep : ascii) (s : string) : list string :=
  match s with
  | EmptyString => [EmptyString]
  | String c s' =>
      if Ascii.eqb c sep then EmptyString :: split sep s'
      else match split sep s' with
           | h :: t => String c h :: t
           | [] => [String c EmptyString]
           end
  end.

(** [s.partition(sep)]: around the first occurrence of [sep] *)
Fixpoint partition (sep : ascii) (s : string) : string * string * string :=
  match s with
  | EmptyString => (EmptyString, EmptyString, EmptyString)
  | String c s' =>
      if Ascii.eqb c sep then (EmptyString, String sep EmptyString, s')
      else let '(a, m, b) := partition sep s' in (String c a, m, b)
  end.

(** [s.rpartition(sep)]: around the last occurrence of [sep] *)
Fixpoint rpartition (sep : ascii) (s : string) : string * string * string :=
  match s with
  | EmptyString => (EmptyString, EmptyString, EmptyString)
  | String c s' =>
      let '(a, m, b) := rpartition sep s' in
      match m with
      | EmptyString =>
          if Ascii.eqb c sep then (EmptyString, String sep EmptyString, s')
          else (EmptyString, EmptyString, String c b)
      | _ => (String c a, m, b)
      end
  end.

(** [''.join(l)] *)
Definition join (l : list string) : string := String.concat EmptyString l.

(** [str(x)] and [format] of a value that may be [None] *)
Definition str (x : option string) : string :=
  match x with
  | Some s => s
  | None => "None"
  end.

(** [str(n)] of a natural number *)
Definition str_of_nat (n : nat) : string := DecimalString.NilEmpty.string_of_uint (Nat.to_uint n).

Definition digit_value (c : ascii) : Z := Z.of_nat (nat_of_ascii c - 48).

(** [int(s)] in base ten, for ASCII text: surrounding white space, an
    optional sign and digits, where single underscores may separate digits.
    [None] stands for the [ValueError] of a string that is no numeral.
    A text that the model reads as a numeral is ASCII and [int] reads the
    same number; a text with characters beyond ASCII is no numeral here,
    while [int] also reads the decimal digits of other scripts and skips
    the white space beyond ASCII, so what is stated of a text that is no
    numeral is stated of ASCII text. *)
Fixpoint digits (after_digit : bool) (acc : Z) (s : string) : option Z :=
  match s with
  | EmptyString => if after_digit then Some acc else None
  | String c s' =>
      if is_digit c then digits true (10 * acc + digit_value c) s'
      else if Ascii.eqb c "_" && after_digit then digits false acc s'
      else None
  end.

Definition int_of_string (s : string) : option Z :=
  match lstrip is_c_space (rstrip is_c_space s) with
  | String c r =>
      if Ascii.eqb c "+" then digits false 0 r
      else if Ascii.eqb c "-" then option_map Z.opp (digits false 0 r)
      else digits false 0 (String c r)
  | EmptyString => None
  end.

(** [int(x)]: a [TypeError] on [None], a [ValueError] on a non-numeral *)
Definition int (x : option string) : result Z :=
  match x with
  | None => Raise TypeError
  | Some s => match int_of_string s with
              | Some z => Ok z
              | None => Raise ValueError
              end
  end.

(** [sorted(l)] on strings: ascending in the order of [str], which compares
    character by character. *)
Fixpoint insert (x : string) (l : list string) : list string :=
  match l with
  | [] => [x]
  | y :: r => if String.leb x y then x :: l else y :: insert x r
  end.

Fixpoint sort (l : list string) : list string :=
  match l with
  | [] => []
  | x :: r => insert x (sort r)
  end.

Fixpoint all_some (l : list (option string)) : option (list string) :=
  match l with
  | [] => Some []
  | Some s :: r => option_map (cons s) (all_some r)
  | None :: _ => None
  end.

(** [sorted(l)] on texts that may be [None]: a list of at most one element
    is returned as it is, without any comparison; otherwise every element
    takes part in a comparison, and one with [None] is a [TypeError]. *)
Definition sorted (l : list (option string)) : result (list (option string)) :=
  match l with
  | [] | [_] => Ok l
  | _ => match all_some l with
         | Some ss => Ok (map Some (sort ss))
         | None => Raise TypeError
         end
  end.

(** [l[0]] and [l[-1]] *)
Definition first {A : Type} (l : list A) : result A :=
  match l with
  | [] => Raise IndexError
  | x :: _ => Ok x
  end.

Definition last {A : Type} (l : list A) : result A :=
  match List.rev l with
  | [] => Raise IndexError
  | x :: _ => Ok x
  end.

(** [a == b] on texts *)
Definition eqb (a b : option string) : bool :=
  match a, b with
  | Some x, Some y => String.eqb x y
  | None, None => true
  | _, _ => false
  end.

(** A [dict], in insertion order, over keys compared by [eqb]. *)
Section Dict.
Context {K V : Type} (eqb : K -> K -> bool).

Fixpoint assoc_set (k : K) (v : V) (d : list (K * V)) : list (K * V) :=
match d with
| [] => [(k, v)]
| (k', v') :: r => if eqb k k' then (k', v) :: r else (k', v') :: assoc_set k v r
end.

Fixpoint assoc_get (k : K) (d : list (K * V)) : option V :=
match d with
| [] => None
| (k', v') :: r => if eqb k k' then Some v' else assoc_get k r
end.

(** A dict display [{k1: v1, ...}] or a dict comprehension: the items are
  stored from left to right, a later item replaces the value of an
  earlier one of the same key. *)
Definition assoc_of_items (items : list (K * V)) : list (K * V) :=
fold_left (fun d kv => assoc_set (fst kv) (snd kv) d) items [].
End Dict.

(** The dicts of the program whose keys are strings. *)
Definition dict (V : Type) : Type := list (string * V).

Definition get {V : Type} (k : string) (d : dict V) : option V :=
assoc_get String.eqb k d.

Definition of_items {V : Type} (items : list (string * V)) : dict V :=
assoc_of_items String.eqb items.

(** [d[k]] *)
Definition getitem {V : Type} (d : dict V) (k : string) : result V :=
match get k d with
| Some v => Ok v
| None => Raise (KeyError (Some k))
end.

End Py.

(** ** ElementTree *)

#[warning="-register-all"] Inductive Element : Type :=
| mkElement (tag : string) (attrib : Py.dict string) (text : option string)
            (children : list Element).

Definition tag (e : Element) : string := let '(mkElement t _ _ _) := e in t.
Definition attrib (e : Element) : Py.dict string := let '(mkElement _ a _ _) := e in a.
Definition text (e : Element) : option string := let '(mkElement _ _ x _) := e in x.
Definition children (e : Element) : list Element := let '(mkElement _ _ _ c) := e in c.

Module ET.

(** A prefixed name of a path, [prefix:local], becomes [{uri}local] by the
    prefix map; a name without a colon is kept.  ElementPath reports an
    unknown prefix as a syntax error: the paths of this program use the
    prefixes of the map they are given, and the name is kept here. *)
Definition qualify (namespaces : Py.dict string) (token : string) : string :=
  match Py.partition ":" token with
  | (prefix, String _ _, local) =>
      match Py.get prefix namespaces with
      | Some uri => "{" ++ uri ++ "}" ++ local
      | None => token
      end
  | _ => token
  end.

(** The steps of a path [./a/b/c]: the qualified names of its child steps. *)
Definition steps (namespaces : Py.dict string) (path : string) : list string :=
  map (qualify namespaces)
      (filter (fun t => negb (String.eqb t ".")) (Py.split "/" path)).

(** [elem.iterfind(path)]: all matches, in document order. *)
Fixpoint select (names : list string) (e : Element) : list Element :=
  match names with
  | [] => [e]
  | n :: rest =>
      flat_map (select rest) (filter (fun c => String.eqb (tag c) n) (children e))
  end.

Definition findall (path : string) (namespaces : Py.dict string) (e : Element)
  : list Element :=
  select (steps namespaces path) e.

(** [elem.find(path)]: the first match or [None]. *)
Definition find (path : string) (namespaces : Py.dict string) (e : Element)
  : option Element :=
  hd_error (findall path namespaces e).

End ET.

(** [x.text] where [x] may be [None]: the attribute access fails on [None]. *)
Definition text_of (x : option Element) : result (option string) :=
  match x with
  | Some e => Ok (text e)
  | None => Raise AttributeError
  end.

(** [x.text.lower()], [x.text.split(...)]: a method of the text, which fails
    on an absent element and on an element without text. *)
Definition str_text_of (x : option Element) : result string :=
  match x with
  | Some e => match text e with
              | Some s => Ok s
              | None => Raise AttributeError
              end
  | None => Raise AttributeError
  end.

(** ** NameSpaceSolver *)

Module NameSpaceSolver.

Record t : Type := { dict : Py.dict string }.

Definition solve (self : t) (full_tag : string) : result string :=
  let '(prefix, _, tag) := Py.rpartition ":" full_tag in
  uri <- Py.getitem (dict self) prefix ;;
  Ok ("{" ++ uri ++ "}" ++ tag).

End NameSpaceSolver.

(** The order in which [list(set(l))] lists the distinct elements of [l]
    depends on the hashes of the run.  It is kept abstract: any listing
    without repetition of the elements of [l]. *)
Record SetOrder : Type := {
  list_set : list (option string) -> list (option string);
  list_set_NoDup : forall l, NoDup (list_set l);
  list_set_In : forall l x, In x (list_set l) <-> In x l
}.

Definition text_eq_dec (a b : option string) : {a = b} + {a <> b}.
Proof. decide equality. apply string_dec. Defined.

(** One such order: the elements as [nodup] keeps them. *)
Definition nodup_order : SetOrder := {|
  list_set := nodup text_eq_dec;
  list_set_NoDup := NoDup_nodup text_eq_dec;
  list_set_In := fun l x => nodup_In text_eq_dec l x
|}.

(** ** The source document: [Building] and [CitiEnGov] *)

Module Building.

Record t : Type := {
  UUID : option string;
  feature_list : list Element;
  namespaces : Py.dict string
}.

Definition path (attribute : string) : string :=
  "./CitiEnGov_01_1:GML_BUILDINGS_CEG/CitiEnGov_01_1:" ++ attribute.

(** [find(attribute, _all=True)]: the match of every feature that has one. *)
Definition find_all (self : t) (attribute : string) : list Element :=
  flat_map (fun element =>
              match ET.find (path attribute) (namespaces self) element with
              | Some x => [x]
              | None => []
              end)
           (feature_list self).

(** [find(attribute)]: the match of the first feature that has one. *)
Fixpoint first_match (p : string) (ns : Py.dict string) (features : list Element)
  : option Element :=
  match features with
  | [] => None
  | feature :: rest =>
      match ET.find p ns feature with
      | Some feature_attrib => Some feature_attrib
      | None => first_match p ns rest
      end
  end.

Definition find (self : t) (attribute : string) : option Element :=
  first_match (path attribute) (namespaces self) (feature_list self).

End Building.

Module CitiEnGov.

Record t : Type := {
  root : Element;
  namespaces : Py.dict string;
  feature_members : list Element;
  building_UUIDs : list (option string);
  UUID_index : nat;
  UUID : option string;
  building : Building.t
}.

Definition the_namespaces : Py.dict string :=
  Py.of_items
    [("CitiEnGov_01_1", "http://maps.dedagroup.it/energy/geoserver/CitiEnGov_01_1");
     ("gml", "http://www.opengis.net/gml")].

Definition uuid_path : string :=
  "./gml:featureMember/CitiEnGov_01_1:GML_BUILDINGS_CEG/CitiEnGov_01_1:UUID".

Definition feature_uuid_path : string :=
  "./CitiEnGov_01_1:GML_BUILDINGS_CEG/CitiEnGov_01_1:UUID".

(** The texts of all [UUID] elements of the document, in document order. *)
Definition list_of_uuids (ns : Py.dict string) (root : Element) : list (option string) :=
  map text (ET.findall uuid_path ns root).

(** The list comprehension of [get_building]: the text of the first [UUID]
    of every feature member is read, which fails on a member without one. *)
Fixpoint select_features (ns : Py.dict string) (uuid : option string)
  (features : list Element) : result (list Element) :=
  match features with
  | [] => Ok []
  | feature :: rest =>
      u <- text_of (ET.find feature_uuid_path ns feature) ;;
      l <- select_features ns uuid rest ;;
      Ok (if Py.eqb u uuid then feature :: l else l)
  end.

Definition get_building_of (ns : Py.dict string) (features : list Element)
  (uuid : option string) : result Building.t :=
  feature_list <- select_features ns uuid features ;;
  Ok {| Building.UUID := uuid;
        Building.feature_list := feature_list;
        Building.namespaces := ns |}.

Definition get_building (self : t) (uuid : option string) : result Building.t :=
  get_building_of (namespaces self) (feature_members self) uuid.

(** The unique identifiers of the document: [list(set(list_of_uuids))].
    Nothing in it can raise. *)
Definition building_identifiers (order : SetOrder) (ns : Py.dict string) (root : Element)
  : result (list (option string)) :=
  Ok (list_set order (list_of_uuids ns root)).

(** [__init__], from the parsed document on: reading the file or the URL
    and parsing it come before. *)
Definition init (order : SetOrder) (root : Element) : result t :=
  let namespaces := the_namespaces in
  let feature_members := ET.findall "./gml:featureMember" namespaces root in
  building_UUIDs <- building_identifiers order namespaces root ;;
  uuid <- Py.first building_UUIDs ;;
  building <- get_building_of namespaces feature_members uuid ;;
  Ok {| root := root;
        namespaces := namespaces;
        feature_members := feature_members;
        building_UUIDs := building_UUIDs;
        UUID_index := 0;
        UUID := uuid;
        building := building |}.

(** The outcome of one call of [__next__]. *)
Inductive step : Type :=
| Yield (b : Building.t)
| StopIteration
| Throw (e : exn).

(** [__next__]: the index is advanced in the [finally] clause, whatever the
    outcome; an [IndexError] ends the iteration, another exception of
    [get_building] is passed on, after [self.UUID] was assigned. *)
Definition next (self : t) : step * t :=
  match nth_error (building_UUIDs self) (UUID_index self) with
  | None =>
      (StopIteration,
       {| root := root self; namespaces := namespaces self;
          feature_members := feature_members self;
          building_UUIDs := building_UUIDs self;
          UUID_index := S (UUID_index self);
          UUID := UUID self; building := building self |})
  | Some uuid =>
      match get_building self uuid with
      | Ok b =>
          (Yield b,
           {| root := root self; namespaces := namespaces self;
              feature_members := feature_members self;
              building_UUIDs := building_UUIDs self;
              UUID_index := S (UUID_index self);
              UUID := uuid; building := b |})
      | Raise e =>
          (Throw e,
           {| root := root self; namespaces := namespaces self;
              feature_members := feature_members self;
              building_UUIDs := building_UUIDs self;
              UUID_index := S (UUID_index self);
              UUID := uuid; building := building self |})
      end
  end.

(** [for bu in citi_en_gov: body]: [__next__] is called until it stops; the
    body works on a state [S] and may raise.  [fuel] bounds the number of
    calls of [__next__]; [None] is a run that needs more. *)
Fixpoint for_each {S : Type} (fuel : nat) (self : t)
  (body : Building.t -> S -> result S) (s : S) : option (result S * t) :=
  match fuel with
  | O => None
  | Datatypes.S fuel' =>
      match next self with
      | (Yield bu, self') =>
          match body bu s with
          | Ok s' => for_each fuel' self' body s'
          | Raise e => Some (Raise e, self')
          end
      | (StopIteration, self') => Some (Ok s, self')
      | (Throw e, self') => Some (Raise e, self')
      end
  end.

(** The calls of [__next__] a loop makes from [self] on: one per identifier
    left, and the one that stops. *)
Definition calls (self : t) : nat :=
  Datatypes.S (length (building_UUIDs self) - UUID_index self).

(** The buildings a loop over the document is given. *)
Definition buildings (self : t) : option (result (list Building.t) * t) :=
  for_each (calls self) self (fun bu l => Ok (l ++ [bu])%list) [].

End CitiEnGov.

(** [eT.SubElement(parent, self.nss.solve(full_tag))] together with the
    attributes, the text and the children the element has once the
    translation of the building is over. *)
Definition SubElement (nss : NameSpaceSolver.t) (full_tag : string)
  (attributes : Py.dict string) (txt : option string) (kids : list Element)
  : result Element :=
  name <- NameSpaceSolver.solve nss full_tag ;;
  Ok (mkElement name attributes txt kids).

(** [{self.nss.solve('xlink:href'): value}] *)
Definition href (nss : NameSpaceSolver.t) (value : string) : result (Py.dict string) :=
  key <- NameSpaceSolver.solve nss "xlink:href" ;;
  Ok (Py.of_items [(key, value)]).

(** What [eT.SubElement(parent, ...)] does to [parent]. *)
Definition append (parent child : Element) : Element :=
  mkElement (tag parent) (attrib parent) (text parent) (children parent ++ [child])%list.

Definition geometry_path : string :=
  "GEOMETRY2D/gml:Polygon/gml:outerBoundaryIs/gml:LinearRing/gml:coordinates".

(** ** The INSPIRE translator *)

Module Inspire.

Record t : Type := {
  nss : NameSpaceSolver.t;
  condition_of_construction_dict : Py.dict string;
  elevation_reference_dict : Py.dict string;
  height_status_dict : Py.dict string;
  building_nature_dict : Py.dict string;
  current_use_dict : Py.dict string;
  horizontal_geometry_reference_dict : Py.dict string;
  root : Element
}.

Definition inspire_ns : Py.dict string :=
  Py.of_items
    [("xmlns", "http://www.opengis.net/wfs");
     ("wfs", "http://www.opengis.net/wfs/2.0");
     ("xsi", "http://www.w3.org/2001/XMLSchema-instance");
     ("xlink", "http://www.w3.org/1999/xlink");
     ("gml", "http://www.opengis.net/gml/3.2");
     ("gmd", "http://www.isotc211.org/2005/gmd");
     ("base", "http://inspire.ec.europa.eu/schemas/base/3.3");
     ("bu-base", "http://inspire.ec.europa.eu/schemas/bu-base/4.0");
     ("bu-core2d", "http://inspire.ec.europa.eu/schemas/bu-core2d/4.0")].

Definition solver : NameSpaceSolver.t := {| NameSpaceSolver.dict := inspire_ns |}.

Definition schema_location : string :=
  "http://www.opengis.net/wfs/2.0 "
  ++ "http://schemas.opengis.net/wfs/2.0/wfs.xsd "
  ++ "http://www.opengis.net/gml/3.2 "
  ++ "http://schemas.opengis.net/gml/3.2.1/gml.xsd "
  ++ "http://inspire.ec.europa.eu/schemas/bu-core2d/4.0 "
  ++ "https://inspire.ec.europa.eu/schemas/bu-core2d/4.0/BuildingsCore2D.xsd".

(** [__init__]; [timestamp] is the formatted time of the call. *)
Definition init (timestamp : string) : result t :=
  let nss := solver in
  loc <- NameSpaceSolver.solve nss "xsi:schemaLocation" ;;
  let root_attrib :=
    Py.of_items
      [("xmlns", "http://www.opengis.net/wfs");
       ("numberMatched", "unknown");
       ("numberReturned", "1000");
       ("timeStamp", timestamp);
       (loc, schema_location)] in
  root <- SubElement nss "wfs:FeatureCollection" root_attrib None [] ;;
  Ok {| nss := nss;
        condition_of_construction_dict :=
          Py.of_items
            [("functional",
              "http://inspire.ec.europa.eu/codelist/ConditionOfConstructionValue/functional")];
        elevation_reference_dict :=
          Py.of_items
            [("generalroof",
              "http://inspire.ec.europa.eu/codelist/ElevationReferenceValue/generalRoof")];
        height_status_dict :=
          Py.of_items
            [("stimata",
              "http://inspire.ec.europa.eu/codelist/HeightStatusValue/estimated")];
        building_nature_dict := Py.of_items [];
        current_use_dict :=
          Py.of_items
            [("ausiliario", "http://inspire.ec.europa.eu/codelist/CurrentUseValue/ancillary");
             ("negozio", "http://inspire.ec.europa.eu/codelist/CurrentUseValue/trade");
             ("residenziale", "http://inspire.ec.europa.eu/codelist/CurrentUseValue/residential");
             ("magazzino", "http://inspire.ec.europa.eu/codelist/CurrentUseValue/trade");
             ("laboratorio", "http://inspire.ec.europa.eu/codelist/CurrentUseValue/industrial");
             ("ausiliario", "http://inspire.ec.europa.eu/codelist/CurrentUseValue/ancillary")];
        horizontal_geometry_reference_dict := Py.of_items [];
        root := root |}.

(** ['{y}-01-01T00:00:00'.format(y=year)] *)
Definition timestamp_of (year : option string) : string :=
  Py.str year ++ "-01-01T00:00:00".

(** The translation of one building is written block by block, in the order
    of the source; each block gives the children it appends to the building
    element. *)

(** LIFESPAN_BEGINNING *)
Definition begin_lifespan_version (self : t) (bu : Building.t) : result (list Element) :=
  l_year <- text_of (Building.find bu "LIFESPAN_BEGINNING") ;;
  e <- SubElement (nss self) "bu-base:beginLifespanVersion" [] (Some (timestamp_of l_year)) [] ;;
  Ok [e].

(** CONDITION_OF_CONSTRUCTION: the element is appended before the test. *)
Definition condition_of_construction (self : t) (bu : Building.t) : result (list Element) :=
  attributes <-
    match Building.find bu "CONDITION" with
    | Some _ =>
        cond <- str_text_of (Building.find bu "CONDITION") ;;
        uri <- Py.getitem (condition_of_construction_dict self) (Py.lower cond) ;;
        href (nss self) uri
    | None => Ok []
    end ;;
  e <- SubElement (nss self) "bu-base:conditionOfConstruction" attributes None [] ;;
  Ok [e].

(** DATE_OF_CONSTRUCTION *)
Definition date_of_construction (self : t) (bu : Building.t) : result (list Element) :=
  match Building.find bu "DATE_C_BEGINNING" with
  | Some _ =>
      c_year_b <- text_of (Building.find bu "DATE_C_BEGINNING") ;;
      beginning <- SubElement (nss self) "bu-base:beginning" []
                     (Some (timestamp_of c_year_b)) [] ;;
      ends <-
        match Building.find bu "DATE_C_END" with
        | Some _ =>
            c_year_e <- text_of (Building.find bu "DATE_C_BEGINNING") ;;
            e <- SubElement (nss self) "bu-base:end" [] (Some (timestamp_of c_year_e)) [] ;;
            Ok [e]
        | None => Ok []
        end ;;
      date_of_event <- SubElement (nss self) "bu-base:DateOfEvent" [] None
                         (beginning :: ends) ;;
      e <- SubElement (nss self) "bu-base:dateOfConstruction" [] None [date_of_event] ;;
      Ok [e]
  | None => Ok []
  end.

(** DATE_OF_RENOVATION *)
Definition date_of_renovation (self : t) (bu : Building.t) : result (list Element) :=
  match Building.find bu "DATE_R_BEGINNING" with
  | Some _ =>
      r_year_b <- text_of (Building.find bu "DATE_R_BEGINNING") ;;
      beginning_r <- SubElement (nss self) "bu-base:beginning" []
                       (Some (timestamp_of r_year_b)) [] ;;
      ends <-
        match Building.find bu "DATE_R_END" with
        | Some _ =>
            r_year_e <- text_of (Building.find bu "DATE_R_BEGINNING") ;;
            e <- SubElement (nss self) "bu-base:end" [] (Some (timestamp_of r_year_e)) [] ;;
            Ok [e]
        | None => Ok []
        end ;;
      date_of_event_r <- SubElement (nss self) "bu-base:DateOfEvent" [] None
                           (beginning_r :: ends) ;;
      e <- SubElement (nss self) "bu-base:dateOfConstruction" [] None [date_of_event_r] ;;
      Ok [e]
  | None => Ok []
  end.

(** EXTERNAL_REFERENCE *)
Definition external_reference (self : t) (bu : Building.t) : result (list Element) :=
  match Building.find bu "EXT_REF_REFERENCE" with
  | Some _ =>
      identifier <- text_of (Building.find bu "EXT_REF_IDENTIFIER") ;;
      info_system <- SubElement (nss self) "bu-base:informationSystem" [] identifier [] ;;
      name <- text_of (Building.find bu "EXT_REF_INF_SYS_NAME") ;;
      loc_char_str <- SubElement (nss self) "gmd:LocalisedCharacterString" [] name [] ;;
      info_system_name <- SubElement (nss self) "bu-base:informationSystemName" [] None
                            [loc_char_str] ;;
      reference <- text_of (Building.find bu "EXT_REF_REFERENCE") ;;
      external_ref_ref <- SubElement (nss self) "bu-base:reference" [] reference [] ;;
      external_ref <- SubElement (nss self) "bu-base:ExternalReference" [] None
                        [info_system; info_system_name; external_ref_ref] ;;
      e <- SubElement (nss self) "bu-base:externalReference" [] None [external_ref] ;;
      Ok [e]
  | None => Ok []
  end.

(** HEIGHT_ABOVE_GROUND *)
Definition height_above_ground (self : t) (bu : Building.t) : result (list Element) :=
  match Building.find bu "HEIGHT_HEIGHT_VAL" with
  | Some _ =>
      height_ref <-
        match Building.find bu "HEIGHT_HEIGHT_REF" with
        | Some _ =>
            r <- str_text_of (Building.find bu "HEIGHT_HEIGHT_REF") ;;
            Ok (Py.lower r)
        | None => Ok "generalroof"
        end ;;
      ref_uri <- Py.getitem (elevation_reference_dict self) height_ref ;;
      ref_attrib <- href (nss self) ref_uri ;;
      height_reference <- SubElement (nss self) "bu-base:heightReference" ref_attrib None [] ;;
      low_reference <- SubElement (nss self) "bu-base:lowReference" [] None [] ;;
      stat <- str_text_of (Building.find bu "HEIGHT_HEIGHT_STAT") ;;
      stat_uri <- Py.getitem (height_status_dict self) (Py.lower stat) ;;
      stat_attrib <- href (nss self) stat_uri ;;
      height_status <- SubElement (nss self) "bu-base:status" stat_attrib None [] ;;
      value <- text_of (Building.find bu "HEIGHT_HEIGHT_VAL") ;;
      height_value <- SubElement (nss self) "bu-base:value" (Py.of_items [("uom", "m")])
                        value [] ;;
      height_ab_gr <- SubElement (nss self) "bu-base:HeightAboveGround" [] None
                        [height_reference; low_reference; height_status; height_value] ;;
      e <- SubElement (nss self) "bu-base:heightAboveGround" [] None [height_ab_gr] ;;
      Ok [e]
  | None => Ok []
  end.

(** ID *)
Definition inspire_id (self : t) (bu : Building.t) : result (list Element) :=
  loc <- text_of (Building.find bu "IDENTIFIER_ID_LOC") ;;
  local_id <- SubElement (nss self) "base:localId" [] loc [] ;;
  name <- text_of (Building.find bu "IDENTIFIER_ID_NAME") ;;
  namespace <- SubElement (nss self) "base:namespace" [] name [] ;;
  identifier <- SubElement (nss self) "base:Identifier" [] None [local_id; namespace] ;;
  e <- SubElement (nss self) "bu-base:inspireId" [] None [identifier] ;;
  Ok [e].

(** BUILDING_NATURE *)
Definition building_nature (self : t) (bu : Building.t) : result (list Element) :=
  match Building.find bu "BUILDINGTYPE" with
  | Some _ =>
      building_nat <- str_text_of (Building.find bu "BUILDINGTYPE") ;;
      uri <- Py.getitem (building_nature_dict self) (Py.lower building_nat) ;;
      attributes <- href (nss self) uri ;;
      e <- SubElement (nss self) "bu-base:buildingNature" attributes None [] ;;
      Ok [e]
  | None => Ok []
  end.

(** CURRENT_USE: the body of [for use in uses], and the loop. *)
Definition current_use_block (self : t) (use : string) : result Element :=
  let '(curr_use, _, percent) := Py.partition "(" use in
  let percent := Py.strip_chars "%)" percent in
  uri <- Py.getitem (current_use_dict self) curr_use ;;
  attributes <- href (nss self) uri ;;
  current_u <- SubElement (nss self) "bu-base:currentUse" attributes None [] ;;
  percentage <- SubElement (nss self) "bu-base:percentage" [] (Some percent) [] ;;
  current_us <- SubElement (nss self) "bu-base:CurrentUse" [] None [current_u; percentage] ;;
  SubElement (nss self) "bu-base:currentUse" [] None [current_us].

Fixpoint current_use_blocks (self : t) (uses : list string) : result (list Element) :=
  match uses with
  | [] => Ok []
  | use :: rest =>
      e <- current_use_block self use ;;
      l <- current_use_blocks self rest ;;
      Ok (e :: l)
  end.

Definition current_use (self : t) (bu : Building.t) : result (list Element) :=
  match Building.find bu "USE_M" with
  | Some _ =>
      use_m <- str_text_of (Building.find bu "USE_M") ;;
      current_use_blocks self (Py.split "," use_m)
  | None => Ok []
  end.

(** NUMBER_OF_BUILDING_UNITS *)
Definition number_of_building_units (self : t) (bu : Building.t) : result (list Element) :=
  match Building.find bu "UNITS" with
  | Some _ =>
      units <- text_of (Building.find bu "UNITS") ;;
      e <- SubElement (nss self) "bu-base:numberOfBuildingUnits" [] units [] ;;
      Ok [e]
  | None => Ok []
  end.

(** NUMBER_OF_FLOORS_ABOVE_GROUND *)
Definition number_of_floors (self : t) (bu : Building.t) : result (list Element) :=
  match Building.find bu "FLOORS" with
  | Some _ =>
      floors <- text_of (Building.find bu "FLOORS") ;;
      e <- SubElement (nss self) "bu-base:numberOfFloorsAboveGround" [] floors [] ;;
      Ok [e]
  | None => Ok []
  end.

(** GEOMETRY *)
Definition geometry_2d (self : t) (bu : Building.t) : result (list Element) :=
  match Building.find bu geometry_path with
  | Some co =>
      coordinates <- SubElement (nss self) "gml:coordinates" (attrib co) (text co) [] ;;
      linear_ring <- SubElement (nss self) "gml:LinearRing" [] None [coordinates] ;;
      exterior <- SubElement (nss self) "gml:exterior" [] None [linear_ring] ;;
      polygon <- SubElement (nss self) "gml:Polygon" [] None [exterior] ;;
      geometry <- SubElement (nss self) "bu-base:geometry" [] None [polygon] ;;
      reference_geometry <- SubElement (nss self) "bu-base:referenceGeometry" []
                              (Some "false") [] ;;
      horizontal_geom_ref <- SubElement (nss self) "bu-base:horizontalGeometryReference"
                               [] None [] ;;
      horizontal_geom_est_acc <-
        SubElement (nss self) "bu-base:horizontalGeometryEstimatedAccuracy"
          (Py.of_items [("uom", "!")]) (Some "0") [] ;;
      building_geometry_2d <-
        SubElement (nss self) "bu-base:BuildingGeometry2D" [] None
          [geometry; reference_geometry; horizontal_geom_ref; horizontal_geom_est_acc] ;;
      e <- SubElement (nss self) "bu-core2d:geometry2D" [] None [building_geometry_2d] ;;
      Ok [e]
  | None => Raise AttributeError
  end.

(** The body of the loop of [translate], for one building: the member that
    is appended to the root. *)
Definition translate_building (self : t) (bu : Building.t) : result Element :=
  b1 <- begin_lifespan_version self bu ;;
  b2 <- condition_of_construction self bu ;;
  b3 <- date_of_construction self bu ;;
  b4 <- date_of_renovation self bu ;;
  b5 <- external_reference self bu ;;
  b6 <- height_above_ground self bu ;;
  b7 <- inspire_id self bu ;;
  b8 <- building_nature self bu ;;
  b9 <- current_use self bu ;;
  b10 <- number_of_building_units self bu ;;
  b11 <- number_of_floors self bu ;;
  b12 <- geometry_2d self bu ;;
  bu_core2d_building <-
    SubElement (nss self) "bu-core2d:Building" [] None
      (b1 ++ b2 ++ b3 ++ b4 ++ b5 ++ b6 ++ b7 ++ b8 ++ b9 ++ b10 ++ b11 ++ b12)%list ;;
  SubElement (nss self) "wfs:member" [] None [bu_core2d_building].

Definition with_root (self : t) (r : Element) : t :=
  {| nss := nss self;
     condition_of_construction_dict := condition_of_construction_dict self;
     elevation_reference_dict := elevation_reference_dict self;
     height_status_dict := height_status_dict self;
     building_nature_dict := building_nature_dict self;
     current_use_dict := current_use_dict self;
     horizontal_geometry_reference_dict := horizontal_geometry_reference_dict self;
     root := r |}.

(** One turn of the loop.  An exception ends the run, so what was appended
    to the tree before it is not kept. *)
Definition translate_step (bu : Building.t) (self : t) : result t :=
  member <- translate_building self bu ;;
  Ok (with_root self (append (root self) member)).

(** [translate]: the translator and the document after the loop. *)
Definition translate (self : t) (citi_en_gov : CitiEnGov.t)
  : option (result t * CitiEnGov.t) :=
  CitiEnGov.for_each (CitiEnGov.calls citi_en_gov) citi_en_gov translate_step self.

End Inspire.

(** ** The CityGML translator *)

Module CityGML.

Record t : Type := {
  nss : NameSpaceSolver.t;
  usage_dict : Py.dict string;
  roof_type_dict : Py.dict string;
  height_reference_dict : Py.dict string;
  building_type_dict : Py.dict string;
  root : Element
}.

Definition city_gml_ns : Py.dict string :=
  Py.of_items
    [("wfs", "http://www.opengis.net/wfs");
     ("xsi", "http://www.w3.org/2001/XMLSchema-instance");
     ("xlink", "http://www.w3.org/1999/xlink");
     ("gml", "http://www.opengis.net/gml");
     ("core", "http://www.opengis.net/citygml/2.0");
     ("energy", "http://www.sig3d.org/citygml/2.0/energy/1.0");
     ("bldg", "http://www.opengis.net/citygml/building/2.0")].

Definition solver : NameSpaceSolver.t := {| NameSpaceSolver.dict := city_gml_ns |}.

Definition init : result t :=
  let nss := solver in
  loc <- NameSpaceSolver.solve nss "xsi:schemaLocation" ;;
  let root_attrib :=
    Py.of_items
      [(loc, "http://www.sig3d.org/citygml/2.0/energy/1.0 "
             ++ "http://www.citygmlwiki.org/images/a/ac/EnergyADE.xsd")] in
  root <- SubElement nss "core:CityModel" root_attrib None [] ;;
  Ok {| nss := nss;
        usage_dict :=
          Py.of_items
            [("school", "2070"); ("residential", "1000"); ("residenziale", "1000");
             ("commercio", "1150"); ("ausiliario", "2700")];
        roof_type_dict := Py.of_items [];
        height_reference_dict :=
          Py.of_items
            [("bottomOfConstruction", "bottomOfConstruction");
             ("entrancePoint", "entrancePoint");
             ("generalEave", "generalEave");
             ("generalroof", "generalRoof");
             ("generalRoofEdge", "generalRoofEdge");
             ("highestEave", "highestEave");
             ("highestPoint", "highestPoint");
             ("highestRoofEdge", "highestRoofEdge");
             ("lowestEave", "lowestEave");
             ("lowestFloorAboveGround", "lowestFloorAboveGround");
             ("lowestRoofEdge", "lowestRoofEdge");
             ("topOfConstruction", "topOfConstruction");
             ("topThermalBoundary", "topThermalBoundary");
             ("bottomThermalBoundary", "topThermalBoundary")];
        building_type_dict :=
          Py.of_items
            [("ApartmentBlock", "ApartmentBlock");
             ("MultiFamilyHouse", "MultiFamilyHouse");
             ("RowHouse", "RowHouse");
             ("SingleFamilyHouse", "SingleFamilyHouse")];
        root := root |}.

(** ['{y}-01-01'.format(y=year)] *)
Definition date_of (year : option string) : string := Py.str year ++ "-01-01".

(** NAME *)
Definition name (self : t) (bu : Building.t) : result (list Element) :=
  match Building.find bu "NAME" with
  | Some _ =>
      n <- text_of (Building.find bu "NAME") ;;
      e <- SubElement (nss self) "gml:name" [] n [] ;;
      Ok [e]
  | None => Ok []
  end.

(** LIFESPAN_BEGINNING *)
Definition creation_date (self : t) (bu : Building.t) : result (list Element) :=
  match Building.find bu "LIFESPAN_BEGINNING" with
  | Some _ =>
      year <- text_of (Building.find bu "LIFESPAN_BEGINNING") ;;
      e <- SubElement (nss self) "core:creationDate" [] (Some (date_of year)) [] ;;
      Ok [e]
  | None => Ok []
  end.

(** LIFESPAN_END *)
Definition termination_date (self : t) (bu : Building.t) : result (list Element) :=
  match Building.find bu "LIFESPAN_END" with
  | Some _ =>
      year <- text_of (Building.find bu "LIFESPAN_END") ;;
      e <- SubElement (nss self) "core:terminationDate" [] (Some (date_of year)) [] ;;
      Ok [e]
  | None => Ok []
  end.

(** The shape shared by the two external references. *)
Definition reference_block (self : t) (system object : option string) : result Element :=
  information_system <- SubElement (nss self) "core:informationSystem" [] system [] ;;
  ext_name <- SubElement (nss self) "core:name" [] object [] ;;
  external_object <- SubElement (nss self) "core:externalObject" [] None [ext_name] ;;
  SubElement (nss self) "core:externalReference" [] None
    [information_system; external_object].

(** EXTERNAL_REFERENCE *)
Definition external_reference (self : t) (bu : Building.t) : result (list Element) :=
  match Building.find bu "EXT_REF_REFERENCE" with
  | Some _ =>
      system <- text_of (Building.find bu "EXT_REF_IDENTIFIER") ;;
      object <- text_of (Building.find bu "EXT_REF_REFERENCE") ;;
      e <- reference_block self system object ;;
      Ok [e]
  | None => Ok []
  end.

(** ID *)
Definition external_reference_id (self : t) (bu : Building.t) : result (list Element) :=
  match Building.find bu "IDENTIFIER_ID_LOC" with
  | Some _ =>
      system <- text_of (Building.find bu "IDENTIFIER_ID_NAME") ;;
      object <- text_of (Building.find bu "IDENTIFIER_ID_LOC") ;;
      e <- reference_block self system object ;;
      Ok [e]
  | None => Ok []
  end.

(** ENERGY_DEMAND.  [year_values[y] for y in sorted(years)], each value
    formatted by ['{v} '.format(v=...)]. *)
Fixpoint formatted_values (year_values : list (option string * option string))
  (sorted_years : list (option string)) : result (list string) :=
  match sorted_years with
  | [] => Ok []
  | y :: rest =>
      v <- match Py.assoc_get Py.eqb y year_values with
           | Some v => Ok v
           | None => Raise (KeyError y)
           end ;;
      l <- formatted_values year_values rest ;;
      Ok ((Py.str v ++ " ") :: l)
  end.

(** The second half of [make_demand]: the demand element built from the
    years, the unit, the values and the carrier type that the first half
    read from the building. *)
Definition demand_element (self : t) (years : list (option string)) (uom : string)
  (energy_values : list (option string)) (energy_carrier_t : string) : result Element :=
  aqu_method <- SubElement (nss self) "energy:acquisitionMethod" [] (Some "measurement") [] ;;
  interp_type <- SubElement (nss self) "energy:interpolationType" []
                   (Some "instantaneousTotal") [] ;;
  time_val_prop <- SubElement (nss self) "energy:TimeValuesProperties" [] None
                     [aqu_method; interp_type] ;;
  var_prop <- SubElement (nss self) "energy:variableProperties" [] None [time_val_prop] ;;
  sorted_years <- Py.sorted years ;;
  start_year <- Py.first sorted_years ;;
  end_year <- Py.last sorted_years ;;
  begin_pos <- SubElement (nss self) "gml:beginPosition" [] start_year [] ;;
  end_pos <- SubElement (nss self) "gml:endPosition" [] end_year [] ;;
  time_period <- SubElement (nss self) "gml:TimePeriod" [] None [begin_pos; end_pos] ;;
  temp_ext <- SubElement (nss self) "energy:temporalExtent" [] None [time_period] ;;
  last_year <- Py.int end_year ;;
  first_year <- Py.int start_year ;;
  if negb (Z.eqb (Z.of_nat (length years)) (last_year - first_year + 1))
  then Raise (UnboundLocalError (YearsNotConsecutive sorted_years))
  else
    time_interval <- SubElement (nss self) "energy:timeInterval"
                       (Py.of_items [("unit", "year")])
                       (Some (Py.str_of_nat (length years))) [] ;;
    let year_values := Py.assoc_of_items Py.eqb (combine years energy_values) in
    texts <- formatted_values year_values sorted_years ;;
    values <- SubElement (nss self) "energy:values" (Py.of_items [("uom", uom)])
                (Some (Py.strip (Py.join texts))) [] ;;
    time_series <- SubElement (nss self) "energy:RegularTimeSeries" [] None
                     [var_prop; temp_ext; time_interval; values] ;;
    amount <- SubElement (nss self) "energy:energyAmount" [] None [time_series] ;;
    end_use <- SubElement (nss self) "energy:endUse" [] (Some "otherOrCombination") [] ;;
    energy_carrier_type <-
      SubElement (nss self) "energy:energyCarrierType"
        (Py.of_items
           [("codeSpace",
             "https://www.sig3d.org/codelists/citygml/2.0/energy/0.6.0/energy_EnergyCarrierType.xml")])
        (Some energy_carrier_t) [] ;;
    dem <- SubElement (nss self) "energy:EnergyDemand" [] None
             [amount; end_use; energy_carrier_type] ;;
    SubElement (nss self) "energy:demands" [] None [dem].

(** The first half of [make_demand]: the branch of one carrier, which reads
    the source, the years, the unit and the values of that carrier. *)
Definition demand_of (self : t) (bu : Building.t)
  (expected source_attr year_attr uom_attr value_attr energy_carrier_t : string)
  : result Element :=
  source <- str_text_of (Building.find bu source_attr) ;;
  let energy_source := Py.lower source in
  if negb (String.eqb energy_source expected)
  then Raise (UnboundLocalError (ExpectedSource expected energy_source))
  else
    let years := map text (Building.find_all bu year_attr) in
    u <- str_text_of (Building.find bu uom_attr) ;;
    let uom := Py.lower u in
    let energy_values := map text (Building.find_all bu value_attr) in
    demand_element self years uom energy_values energy_carrier_t.

Definition make_demand (self : t) (bu : Building.t) (energy_carrier : string)
  : result Element :=
  if String.eqb energy_carrier "electricity"
  then demand_of self bu "electricity" "ENERGYAMOUNT_E_SOURCE_E"
         "ENERGYAMOUNT_E_YEAR_ONLY_E" "CONSUMONORM_UOM_E" "CONSUMONORM_VALORE_E"
         "Electricity"
  else if String.eqb energy_carrier "thermal"
  then demand_of self bu "thermal" "ENERGYAMOUNT_E_SOURCE_T"
         "ENERGYAMOUNT_E_YEAR_ONLY_T" "CONSUMONORM_UOM_T" "CONSUMONORM_VALORE_T"
         "HotWater"
  else Raise (KeyError (Some ("energy_carrier can be either 'electricity' or 'thermal' instead of '"
                              ++ energy_carrier ++ "'"))).

(** [if not all(i is None for i in bu.find(..., _all=True)): make_demand(...)];
    an element of that list is never [None]. *)
Definition is_none (x : Element) : bool := false.

Definition demand (self : t) (bu : Building.t) (attribute energy_carrier : string)
  : result (list Element) :=
  if negb (forallb is_none (Building.find_all bu attribute))
  then e <- make_demand self bu energy_carrier ;; Ok [e]
  else Ok [].

(** USAGE *)
Definition usage (self : t) (bu : Building.t) : result (list Element) :=
  match Building.find bu "USE_S" with
  | Some _ =>
      use_s <- str_text_of (Building.find bu "USE_S") ;;
      code <- Py.getitem (usage_dict self) (Py.lower use_s) ;;
      e <- SubElement (nss self) "bldg:usage"
             (Py.of_items
                [("codeSpace",
                  "https://www.sig3d.org/codelists/citygml/2.0/building/2.0/_AbstractBuilding_usage.xml")])
             (Some code) [] ;;
      Ok [e]
  | None => Ok []
  end.

(** YEAR_OF_CONSTRUCTION *)
Definition year_of_construction (self : t) (bu : Building.t) : result (list Element) :=
  match Building.find bu "DATE_C_BEGINNING" with
  | Some _ =>
      year <- text_of (Building.find bu "DATE_C_BEGINNING") ;;
      e <- SubElement (nss self) "bldg:yearOfConstruction" [] year [] ;;
      Ok [e]
  | None => Ok []
  end.

(** ROOF_TYPE *)
Definition roof_type (self : t) (bu : Building.t) : result (list Element) :=
  match Building.find bu "ROOF_TYPE" with
  | Some _ =>
      roof_t <- str_text_of (Building.find bu "ROOF_TYPE") ;;
      code <- Py.getitem (roof_type_dict self) (Py.lower roof_t) ;;
      e <- SubElement (nss self) "bldg:roofType"
             (Py.of_items
                [("codeSpace",
                  "https://www.sig3d.org/codelists/citygml/2.0/building/2.0/_AbstractBuilding_roofType.xml")])
             (Some code) [] ;;
      Ok [e]
  | None => Ok []
  end.

(** STOREYES_ABOVE_GROUND and STORY_HEIGHTS_ABOVE_GROUND *)
Definition storey_heights_text (hei : option string) (floors : Z) : string :=
  Py.rstrip_chars "," (Py.join (repeat (Py.str hei ++ ",") (Z.to_nat floors))).

Definition storeys_above_ground (self : t) (bu : Building.t) : result (list Element) :=
  match Building.find bu "FLOORS" with
  | Some _ =>
      floors <- text_of (Building.find bu "FLOORS") ;;
      storeys <- SubElement (nss self) "bldg:storeysAboveGround" [] floors [] ;;
      match Building.find bu "H_FLOOR" with
      | Some _ =>
          hei <- text_of (Building.find bu "H_FLOOR") ;;
          n <- Py.int floors ;;
          storey_heights <-
            SubElement (nss self) "bldg:storeyHeightsAboveGround"
              (Py.of_items [("uom", "m")]) (Some (storey_heights_text hei n)) [] ;;
          Ok [storeys; storey_heights]
      | None => Ok [storeys]
      end
  | None => Ok []
  end.

(** GEOMETRY *)
Definition lod_0_foot_print (self : t) (bu : Building.t) : result (list Element) :=
  match Building.find bu geometry_path with
  | Some co =>
      coordinates <- SubElement (nss self) "gml:coordinates" (attrib co) (text co) [] ;;
      linear_ring <- SubElement (nss self) "gml:LinearRing" [] None [coordinates] ;;
      outer_boundary_is <- SubElement (nss self) "gml:outerBoundaryIs" [] None [linear_ring] ;;
      polygon <- SubElement (nss self) "gml:Polygon" [] None [outer_boundary_is] ;;
      surface_member <- SubElement (nss self) "gml:surfaceMember" [] None [polygon] ;;
      multi_surface <- SubElement (nss self) "gml:MultiSurface" [] None [surface_member] ;;
      e <- SubElement (nss self) "bldg:lod0FootPrint" [] None [multi_surface] ;;
      Ok [e]
  | None => Raise AttributeError
  end.

(** REFURBISHMENT_MEASURE *)
Definition refurbishment_measure (self : t) (bu : Building.t) : result (list Element) :=
  match Building.find bu "DATE_R_BEGINNING" with
  | Some _ =>
      b <- text_of (Building.find bu "DATE_R_BEGINNING") ;;
      r_begin_position <- SubElement (nss self) "gml:beginPosition" [] b [] ;;
      e <- text_of (Building.find bu "DATE_R_END") ;;
      r_end_position <- SubElement (nss self) "gml:beginPosition" [] e [] ;;
      r_time_period <- SubElement (nss self) "gml:TimePeriod" [] None
                         [r_begin_position; r_end_position] ;;
      r_period <- SubElement (nss self) "energy:period" [] None [r_time_period] ;;
      r_date_of_event <- SubElement (nss self) "energy:DateOfEvent" [] None [r_period] ;;
      r_date <- SubElement (nss self) "energy:date" [] None [r_date_of_event] ;;
      r_level <- SubElement (nss self) "energy:level" [] (Some "unknown") [] ;;
      refurbishment_mea <- SubElement (nss self) "energy:RefurbishmentMeasure" [] None
                             [r_date; r_level] ;;
      m <- SubElement (nss self) "energy:refurbishmentMeasure" [] None [refurbishment_mea] ;;
      Ok [m]
  | None => Ok []
  end.

(** ENERGY_PERFORMANCE_CERTIFICATION *)
Definition energy_certification (self : t) (bu : Building.t) : result (list Element) :=
  match Building.find bu "ENERGYPERFORMANCE_PERF_CLASS" with
  | Some _ =>
      rating <- text_of (Building.find bu "ENERGYPERFORMANCE_PERF_CLASS") ;;
      cert_rating <- SubElement (nss self) "energy:rating" [] rating [] ;;
      method <- text_of (Building.find bu "ENERGYPERFORMANCE_PERF_METHOD") ;;
      cert_name <- SubElement (nss self) "energy:name" [] method [] ;;
      cert_id <- SubElement (nss self) "energy:certificationId" [] None [] ;;
      energy_cert <- SubElement (nss self) "energy:EnergyPerformanceCertification" [] None
                       [cert_rating; cert_name; cert_id] ;;
      e <- SubElement (nss self) "energy:energyPerformanceCertification" [] None
             [energy_cert] ;;
      Ok [e]
  | None => Ok []
  end.

(** HEIGHT_ABOVE_GROUND *)
Definition height_above_ground (self : t) (bu : Building.t) : result (list Element) :=
  match Building.find bu "HEIGHT_HEIGHT_VAL" with
  | Some _ =>
      r <- str_text_of (Building.find bu "HEIGHT_HEIGHT_REF") ;;
      reference <- Py.getitem (height_reference_dict self) (Py.lower r) ;;
      height_reference <- SubElement (nss self) "energy:heightReference" []
                            (Some reference) [] ;;
      value <- text_of (Building.find bu "HEIGHT_HEIGHT_VAL") ;;
      height_value <- SubElement (nss self) "energy:value" (Py.of_items [("uom", "m")])
                        value [] ;;
      height_above_gr <- SubElement (nss self) "energy:HeightAboveGround" [] None
                           [height_reference; height_value] ;;
      e <- SubElement (nss self) "energy:heightAboveGround" [] None [height_above_gr] ;;
      Ok [e]
  | None => Ok []
  end.

(** VOLUME and FLOOR_AREA: a typed value with its unit. *)
Definition typed_value (self : t) (bu : Building.t)
  (attribute outer inner kind unit : string) : result (list Element) :=
  match Building.find bu attribute with
  | Some _ =>
      typ <- SubElement (nss self) "energy:type" [] (Some kind) [] ;;
      v <- text_of (Building.find bu attribute) ;;
      value <- SubElement (nss self) "energy:value" (Py.of_items [("uom", unit)]) v [] ;;
      i <- SubElement (nss self) inner [] None [typ; value] ;;
      e <- SubElement (nss self) outer [] None [i] ;;
      Ok [e]
  | None => Ok []
  end.

(** BUILDING_TYPE *)
Definition building_type (self : t) (bu : Building.t) : result (list Element) :=
  match Building.find bu "BUILDINGTYPE" with
  | Some _ =>
      building_typ <- str_text_of (Building.find bu "BUILDINGTYPE") ;;
      code <- Py.getitem (building_type_dict self) (Py.lower building_typ) ;;
      e <- SubElement (nss self) "energy:buildingType"
             (Py.of_items
                [("codeSpace",
                  "https://www.sig3d.org/codelists/citygml/2.0/energy/0.6.0/energy_BuildingType.xml")])
             (Some code) [] ;;
      Ok [e]
  | None => Ok []
  end.

(** The body of the loop of [translate], for one building. *)
Definition translate_building (self : t) (bu : Building.t) : result Element :=
  b1 <- name self bu ;;
  b2 <- creation_date self bu ;;
  b3 <- termination_date self bu ;;
  b4 <- external_reference self bu ;;
  b5 <- external_reference_id self bu ;;
  b6 <- demand self bu "CONSUMONORM_VALORE_E" "electricity" ;;
  b7 <- demand self bu "CONSUMONORM_VALORE_T" "thermal" ;;
  b8 <- usage self bu ;;
  b9 <- year_of_construction self bu ;;
  b10 <- roof_type self bu ;;
  b11 <- storeys_above_ground self bu ;;
  b12 <- lod_0_foot_print self bu ;;
  b13 <- refurbishment_measure self bu ;;
  b14 <- energy_certification self bu ;;
  b15 <- height_above_ground self bu ;;
  b16 <- typed_value self bu "VOLUME_VALUE" "energy:volume" "energy:VolumeType"
           "grossVolume" "m3" ;;
  b17 <- typed_value self bu "ENERGYPERF_VOLUME_VALUE" "energy:volume" "energy:VolumeType"
           "energyReferenceVolume" "m3" ;;
  b18 <- typed_value self bu "SURFACE_VALUE" "energy:floorArea" "energy:FloorArea"
           "grossFloorArea" "m2" ;;
  b19 <- building_type self bu ;;
  bldg_building <-
    SubElement (nss self) "bldg:Building" [] None
      (b1 ++ b2 ++ b3 ++ b4 ++ b5 ++ b6 ++ b7 ++ b8 ++ b9 ++ b10 ++ b11 ++ b12 ++ b13
       ++ b14 ++ b15 ++ b16 ++ b17 ++ b18 ++ b19)%list ;;
  SubElement (nss self) "core:cityObjectMember" [] None [bldg_building].

Definition with_root (self : t) (r : Element) : t :=
  {| nss := nss self;
     usage_dict := usage_dict self;
     roof_type_dict := roof_type_dict self;
     height_reference_dict := height_reference_dict self;
     building_type_dict := building_type_dict self;
     root := r |}.

Definition translate_step (bu : Building.t) (self : t) : result t :=
  member <- translate_building self bu ;;
  Ok (with_root self (append (root self) member)).

Definition translate (self : t) (citi_en_gov : CitiEnGov.t)
  : option (result t * CitiEnGov.t) :=
  CitiEnGov.for_each (CitiEnGov.calls citi_en_gov) citi_en_gov translate_step self.

End CityGML.

(** ** Sample documents

    Small source documents, used to run the translators on concrete inputs. *)

Module Sample.

Definition ceg_name (local : string) : string :=
  "{http://maps.dedagroup.it/energy/geoserver/CitiEnGov_01_1}" ++ local.

Definition gml_name (local : string) : string :=
  "{http://www.opengis.net/gml}" ++ local.

Definition field (attribute value : string) : Element :=
  mkElement (ceg_name attribute) [] (Some value) [].

Definition geometry (coordinates : string) : Element :=
  mkElement (ceg_name "GEOMETRY2D") [] None
    [mkElement (gml_name "Polygon") [("srsName", "EPSG:4326")] None
       [mkElement (gml_name "outerBoundaryIs") [] None
          [mkElement (gml_name "LinearRing") [] None
             [mkElement (gml_name "coordinates")
                [("decimal", "."); ("cs", ","); ("ts", " ")]
                (Some coordinates) []]]]].

Definition feature_member (fields : list Element) : Element :=
  mkElement (gml_name "featureMember") [] None
    [mkElement (ceg_name "GML_BUILDINGS_CEG") [] None fields].

Definition document (members : list Element) : Element :=
  mkElement "{http://www.opengis.net/wfs}FeatureCollection" [] None members.

Definition building_of (features : list Element) : Building.t :=
  {| Building.UUID := None;
     Building.feature_list := features;
     Building.namespaces := CitiEnGov.the_namespaces |}.

(** The attributes both translators need, for a building [uuid]. *)
Definition mandatory (uuid : string) : list Element :=
  [field "UUID" uuid;
   field "LIFESPAN_BEGINNING" "2012";
   field "IDENTIFIER_ID_LOC" uuid;
   field "IDENTIFIER_ID_NAME" "CitiEnGov";
   geometry "11.61,44.83 11.62,44.83 11.62,44.84 11.61,44.83"].

(** Two buildings; the first is spread over three feature members, one per
    year of electricity consumption. *)
Definition two_buildings : Element :=
  document
    [feature_member
       (mandatory "b-1"
        ++ [field "ENERGYAMOUNT_E_SOURCE_E" "Electricity";
            field "ENERGYAMOUNT_E_YEAR_ONLY_E" "2016";
            field "CONSUMONORM_UOM_E" "kWh";
            field "CONSUMONORM_VALORE_E" "12"])%list;
     feature_member (mandatory "b-2" ++ [field "USE_M" "residenziale(80%),negozio(20%)"])%list;
     feature_member
       [field "UUID" "b-1";
        field "ENERGYAMOUNT_E_SOURCE_E" "Electricity";
        field "ENERGYAMOUNT_E_YEAR_ONLY_E" "2015";
        field "CONSUMONORM_UOM_E" "kWh";
        field "CONSUMONORM_VALORE_E" "10"];
     feature_member
       [field "UUID" "b-1";
        field "ENERGYAMOUNT_E_SOURCE_E" "Electricity";
        field "ENERGYAMOUNT_E_YEAR_ONLY_E" "2017";
        field "CONSUMONORM_UOM_E" "kWh";
        field "CONSUMONORM_VALORE_E" "11"]].

(** A document without feature members. *)
Definition empty : Element := document [].

(** A document whose second feature member has no [UUID] element. *)
Definition missing_uuid : Element :=
  document
    [feature_member (mandatory "b-1");
     feature_member [field "LIFESPAN_BEGINNING" "2012"]].

(** A document whose only feature member has two [UUID] elements. *)
Definition two_uuids : Element :=
  document [feature_member (mandatory "a" ++ [field "UUID" "b"])%list].

(** A building constructed from 1950 to 1955 and renovated from 1990 to 1995. *)
Definition dated : Building.t :=
  building_of
    [feature_member
       (mandatory "b-1"
        ++ [field "DATE_C_BEGINNING" "1950"; field "DATE_C_END" "1955";
            field "DATE_R_BEGINNING" "1990"; field "DATE_R_END" "1995"])%list].

(** A building with the mandatory attributes only. *)
Definition plain : Building.t := building_of [feature_member (mandatory "b-1")].

(** Buildings with a height: without a reference and with an estimated
    status; without a reference and with a status that is not in the
    code-list; with a reference that is not in the code-list. *)
Definition high : Building.t :=
  building_of
    [feature_member
       (mandatory "b-1"
        ++ [field "HEIGHT_HEIGHT_VAL" "12.5"; field "HEIGHT_HEIGHT_STAT" "Stimata"])%list].



(** A building used as dwelling and as shop. *)
Definition mixed_use : Building.t :=
  building_of
    [feature_member
       (mandatory "b-1" ++ [field "USE_M" "residenziale(80%),negozio(20%)"])%list].

(** The electricity of a building, one feature member for each year: 12 in
    2016, 10 in 2015 and 11 in 2017. *)
Definition metered_year (year value : string) : list Element :=
  [field "UUID" "b-1";
   field "ENERGYAMOUNT_E_SOURCE_E" "Electricity";
   field "ENERGYAMOUNT_E_YEAR_ONLY_E" year;
   field "CONSUMONORM_UOM_E" "kWh";
   field "CONSUMONORM_VALORE_E" value].

Definition metered : Building.t :=
  building_of
    [feature_member (mandatory "b-1" ++ metered_year "2016" "12")%list;
     feature_member (metered_year "2015" "10");
     feature_member (metered_year "2017" "11")].

(** Two buildings, the second without LIFESPAN_BEGINNING. *)
Definition second_undated : Element :=
  document
    [feature_member (mandatory "b-1");
     feature_member
       [field "UUID" "b-2";
        field "IDENTIFIER_ID_LOC" "b-2";
        field "IDENTIFIER_ID_NAME" "CitiEnGov";
        geometry "11.61,44.83 11.62,44.83 11.62,44.84 11.61,44.83"]].

(** A building with a building type, and one with a roof type. *)
Definition typed : Building.t :=
  building_of [feature_member (mandatory "b-1" ++ [field "BUILDINGTYPE" "RowHouse"])%list].

Definition roofed : Building.t :=
  building_of [feature_member (mandatory "b-1" ++ [field "ROOF_TYPE" "Flat"])%list].

(** Buildings with a height for CityGML: with the reference of the general
    roof, with another reference of the code-list, and without reference. *)
Definition high_roof : Building.t :=
  building_of
    [feature_member
       (mandatory "b-1"
        ++ [field "HEIGHT_HEIGHT_VAL" "12.5"; field "HEIGHT_HEIGHT_REF" "generalRoof"])%list].

Definition high_point : Building.t :=
  building_of
    [feature_member
       (mandatory "b-1"
        ++ [field "HEIGHT_HEIGHT_VAL" "12.5"; field "HEIGHT_HEIGHT_REF" "highestPoint"])%list].

(** A building of which only the geometry is known. *)
Definition bare : Building.t :=
  building_of
    [feature_member
       [field "UUID" "b-1"; geometry "11.61,44.83 11.62,44.83 11.62,44.84 11.61,44.83"]].

(** A building of three floors of 2.7 m, and one whose number of floors is
    no numeral. *)
Definition storeyed : Building.t :=
  building_of
    [feature_member (mandatory "b-1" ++ [field "FLOORS" "3"; field "H_FLOOR" "2.7"])%list].

Definition storeyed_in_words : Building.t :=
  building_of
    [feature_member (mandatory "b-1" ++ [field "FLOORS" "three"; field "H_FLOOR" "2.7"])%list].

(** A building whose renovation has no end. *)
Definition renovating : Building.t :=
  building_of [feature_member (mandatory "b-1" ++ [field "DATE_R_BEGINNING" "1990"])%list].

(** A building whose electricity is recorded under the source of heat. *)
Definition mislabelled : Building.t :=
  building_of
    [feature_member
       (mandatory "b-1"
        ++ [field "ENERGYAMOUNT_E_SOURCE_E" "Thermal";
            field "ENERGYAMOUNT_E_YEAR_ONLY_E" "2016";
            field "CONSUMONORM_UOM_E" "kWh";
            field "CONSUMONORM_VALORE_E" "12"])%list].

(** A building whose uses are written with a capital and with a blank after
    the comma. *)
Definition capital_use : Building.t :=
  building_of
    [feature_member (mandatory "b-1" ++ [field "USE_M" "Residenziale(100%)"])%list].

Definition spaced_use : Building.t :=
  building_of
    [feature_member
       (mandatory "b-1" ++ [field "USE_M" "residenziale(80%), negozio(20%)"])%list].

(** A building whose beginning of lifespan is an element without text. *)
Definition undated_lifespan : Building.t :=
  building_of
    [feature_member
       [field "UUID" "b-1";
        mkElement (ceg_name "LIFESPAN_BEGINNING") [] None [];
        field "IDENTIFIER_ID_LOC" "b-1";
        field "IDENTIFIER_ID_NAME" "CitiEnGov";
        geometry "11.61,44.83 11.62,44.83 11.62,44.84 11.61,44.83"]].

(** Buildings in function, and in ruins. *)
Definition functional : Building.t :=
  building_of [feature_member (mandatory "b-1" ++ [field "CONDITION" "Functional"])%list].

Definition ruin : Building.t :=
  building_of [feature_member (mandatory "b-1" ++ [field "CONDITION" "ruin"])%list].

(** The electricity of a building of which the year 2015 is recorded twice
    and the year 2016 not at all: 10 in 2015, 11 in 2017, 13 in 2015. *)
Definition metered_twice : Building.t :=
  building_of
    [feature_member (mandatory "b-1" ++ metered_year "2015" "10")%list;
     feature_member (metered_year "2017" "11");
     feature_member (metered_year "2015" "13")].

End Sample.

(** ** Notions used in the statements *)

(** A feature member has a [UUID] element at the fixed path. *)
Definition has_uuid (ns : Py.dict string) (feature : Element) : Prop :=
  ET.find CitiEnGov.feature_uuid_path ns feature <> None.

(** The identifier of a feature member, as [get_building] reads it: the text
    of its first [UUID] element. *)
Definition feature_uuid (ns : Py.dict string) (feature : Element) : option string :=
  match ET.find CitiEnGov.feature_uuid_path ns feature with
  | Some u => text u
  | None => None
  end.

(** The feature members [get_building] selects for an identifier. *)
Definition features_of (ns : Py.dict string) (uuid : option string)
  (features : list Element) : list Element :=
  filter (fun feature => Py.eqb (feature_uuid ns feature) uuid) features.

(** The record of an identifier, and the records of the identifiers that are
    left from the cursor of the document on. *)
Definition record_of (self : CitiEnGov.t) (uuid : option string) : Building.t :=
  {| Building.UUID := uuid;
     Building.feature_list :=
       features_of (CitiEnGov.namespaces self) uuid (CitiEnGov.feature_members self);
     Building.namespaces := CitiEnGov.namespaces self |}.

Definition records (self : CitiEnGov.t) : list Building.t :=
  map (record_of self) (skipn (CitiEnGov.UUID_index self) (CitiEnGov.building_UUIDs self)).

(** A loop body run over a list of buildings, up to its first exception. *)
Fixpoint run_body {S : Type} (body : Building.t -> S -> result S)
  (bs : list Building.t) (s : S) : result S :=
  match bs with
  | [] => Ok s
  | b :: rest => s' <- body b s ;; run_body body rest s'
  end.

(** Every element of a list of children has the name [name]. *)
Definition all_tagged (name : string) (l : list Element) : Prop :=
  Forall (fun e => tag e = name) l.

(** The names of the output elements, as [solve] gives them. *)
Definition bu_base (local : string) : string :=
  "{http://inspire.ec.europa.eu/schemas/bu-base/4.0}" ++ local.

Definition bu_core2d (local : string) : string :=
  "{http://inspire.ec.europa.eu/schemas/bu-core2d/4.0}" ++ local.

Definition gml32 (local : string) : string := "{http://www.opengis.net/gml/3.2}" ++ local.

Definition xlink_href : string := "{http://www.w3.org/1999/xlink}href".

(** The geometry block of INSPIRE around the source coordinates [co]. *)
Definition inspire_geometry (co : Element) : Element :=
  mkElement (bu_core2d "geometry2D") [] None
    [mkElement (bu_base "BuildingGeometry2D") [] None
       [mkElement (bu_base "geometry") [] None
          [mkElement (gml32 "Polygon") [] None
             [mkElement (gml32 "exterior") [] None
                [mkElement (gml32 "LinearRing") [] None
                   [mkElement (gml32 "coordinates") (attrib co) (text co) []]]]];
        mkElement (bu_base "referenceGeometry") [] (Some "false") [];
        mkElement (bu_base "horizontalGeometryReference") [] None [];
        mkElement (bu_base "horizontalGeometryEstimatedAccuracy") [("uom", "!")]
          (Some "0") []]].

(** The path from an INSPIRE member to the coordinates of its building. *)
Definition inspire_coordinates_path : string :=
  "./bu-core2d:Building/bu-core2d:geometry2D/bu-base:BuildingGeometry2D/bu-base:geometry"
  ++ "/gml:Polygon/gml:exterior/gml:LinearRing/gml:coordinates".

(** No element of a list of children has the name [name]. *)
Definition none_tagged (name : string) (l : list Element) : Prop :=
  filter (fun c => String.eqb (tag c) name) l = [].

Definition gml (local : string) : string := "{http://www.opengis.net/gml}" ++ local.

Definition bldg (local : string) : string :=
  "{http://www.opengis.net/citygml/building/2.0}" ++ local.

Definition energy (local : string) : string :=
  "{http://www.sig3d.org/citygml/2.0/energy/1.0}" ++ local.

(** The geometry block of CityGML around the source coordinates [co]. *)
Definition citygml_geometry (co : Element) : Element :=
  mkElement (bldg "lod0FootPrint") [] None
    [mkElement (gml "MultiSurface") [] None
       [mkElement (gml "surfaceMember") [] None
          [mkElement (gml "Polygon") [] None
             [mkElement (gml "outerBoundaryIs") [] None
                [mkElement (gml "LinearRing") [] None
                   [mkElement (gml "coordinates") (attrib co) (text co) []]]]]]].

(** The path from a CityGML member to the coordinates of its building. *)
Definition citygml_coordinates_path : string :=
  "./bldg:Building/bldg:lod0FootPrint/gml:MultiSurface/gml:surfaceMember"
  ++ "/gml:Polygon/gml:outerBoundaryIs/gml:LinearRing/gml:coordinates".

(** A member of the output collection: an element [member] whose only child
    is a building element [building]. *)
Definition member_of (member building : string) (m : Element) : Prop :=
  exists kids, m = mkElement member [] None [mkElement building [] None kids].

(** A feature member has at most one [UUID] element at the fixed path. *)
Definition single_uuid (ns : Py.dict string) (feature : Element) : Prop :=
  length (ET.findall CitiEnGov.feature_uuid_path ns feature) <= 1.

(** The date block of INSPIRE with the texts of its beginning and, when
    there is one, of its end. *)
Definition inspire_date (beginning : string) (ending : option string) : Element :=
  mkElement (bu_base "dateOfConstruction") [] None
    [mkElement (bu_base "DateOfEvent") [] None
       (mkElement (bu_base "beginning") [] (Some beginning) []
        :: match ending with
           | Some t => [mkElement (bu_base "end") [] (Some t) []]
           | None => []
           end)].

(** The children [bu-base:name] of the building element of an INSPIRE
    member. *)
Definition inspire_items (name : string) (m : Element) : list Element :=
  ET.findall ("./bu-core2d:Building/bu-base:" ++ name) Inspire.inspire_ns m.


(** No character of [s] is one of [chars]. *)
Fixpoint free_of (chars s : string) : bool :=
  match s with
  | EmptyString => true
  | String c r => negb (Py.mem_char c chars) && free_of chars r
  end.

(** An entry of the multi-use attribute: [term(percent%)]. *)
Definition use_entry (term percent : string) : string :=
  term ++ "(" ++ percent ++ "%)".

(** A term and a percentage that can be read back from their entry. *)
Definition plain_entry (e : string * string) : Prop :=
  free_of ",(" (fst e) = true /\ free_of ",%)" (snd e) = true.

(** The use block of INSPIRE with the resolved use and the percentage. *)
Definition inspire_use (uri percent : string) : Element :=
  mkElement (bu_base "currentUse") [] None
    [mkElement (bu_base "CurrentUse") [] None
       [mkElement (bu_base "currentUse") [(xlink_href, uri)] None [];
        mkElement (bu_base "percentage") [] (Some percent) []]].

(** The term and the percentage text the code reads from an entry. *)
Definition use_term (entry : string) : string := fst (fst (Py.partition "(" entry)).

Definition use_percent (entry : string) : string :=
  Py.strip_chars "%)" (snd (Py.partition "(" entry)).

(** The (year, value) pairs of a carrier in ascending order of the year
    texts, by insertion as in [Py.sort]. *)
Fixpoint insert_by_year (p : string * option string)
  (l : list (string * option string)) : list (string * option string) :=
  match l with
  | [] => [p]
  | q :: r => if String.leb (fst p) (fst q) then p :: l else q :: insert_by_year p r
  end.

Fixpoint sort_by_year (l : list (string * option string))
  : list (string * option string) :=
  match l with
  | [] => []
  | p :: r => insert_by_year p (sort_by_year r)
  end.

(** The order of the texts [Py.sort] sorts by. *)
Definition text_le (s t : string) : Prop := String.leb s t = true.

(** A year written with four digits, and the number it stands for. *)
Definition is_year (s : string) : bool :=
  match s with
  | String a (String b (String c (String d EmptyString))) =>
      Py.is_digit a && Py.is_digit b && Py.is_digit c && Py.is_digit d
  | _ => false
  end.

Definition year_number (s : string) : Z :=
  match s with
  | String a (String b (String c (String d EmptyString))) =>
      1000 * Py.digit_value a + 100 * Py.digit_value b + 10 * Py.digit_value c
      + Py.digit_value d
  | _ => 0
  end.

(** No character of [s] satisfies [p]. *)
Fixpoint none_of (p : ascii -> bool) (s : string) : bool :=
  match s with
  | EmptyString => true
  | String c r => negb (p c) && none_of p r
  end.

(** ASCII text: every byte is below 128. *)
Definition is_ascii (s : string) : bool :=
  none_of (fun c => (128 <=? nat_of_ascii c)%nat) s.

(** A value text that [strip] leaves as it is: not empty, ASCII, no white
    space. *)
Definition no_space (s : string) : bool := none_of Py.is_space s.

Definition clean_value (v : option string) : Prop :=
  Py.str v <> EmptyString /\ no_space (Py.str v) = true /\ is_ascii (Py.str v) = true.

(** The demand element of CityGML: the temporal extent from [start] to
    [stop], the number of years, the unit and the text of the values, and
    the carrier type. *)
Definition citygml_demand (start stop : option string) (count uom values carrier : string)
  : Element :=
  mkElement (energy "demands") [] None
    [mkElement (energy "EnergyDemand") [] None
       [mkElement (energy "energyAmount") [] None
          [mkElement (energy "RegularTimeSeries") [] None
             [mkElement (energy "variableProperties") [] None
                [mkElement (energy "TimeValuesProperties") [] None
                   [mkElement (energy "acquisitionMethod") [] (Some "measurement") [];
                    mkElement (energy "interpolationType") [] (Some "instantaneousTotal") []]];
              mkElement (energy "temporalExtent") [] None
                [mkElement (gml "TimePeriod") [] None
                   [mkElement (gml "beginPosition") [] start [];
                    mkElement (gml "endPosition") [] stop []]];
              mkElement (energy "timeInterval") [("unit", "year")] (Some count) [];
              mkElement (energy "values") [("uom", uom)] (Some values) []]];
        mkElement (energy "endUse") [] (Some "otherOrCombination") [];
        mkElement (energy "energyCarrierType")
          [("codeSpace",
            "https://www.sig3d.org/codelists/citygml/2.0/energy/0.6.0/energy_EnergyCarrierType.xml")]
          (Some carrier) []]].

(** An element with more children at its end. *)
Definition extend (parent : Element) (more : list Element) : Element :=
  mkElement (tag parent) (attrib parent) (text parent) (children parent ++ more)%list.

(** The height block of CityGML. *)
Definition citygml_height (reference : string) (value : option string) : Element :=
  mkElement (energy "heightAboveGround") [] None
    [mkElement (energy "HeightAboveGround") [] None
       [mkElement (energy "heightReference") [] (Some reference) [];
        mkElement (energy "value") [("uom", "m")] value []]].

(** A lower-case letter of ASCII. *)
Definition is_lower_letter (c : ascii) : bool :=
  let n := nat_of_ascii c in ((97 <=? n) && (n <=? 122))%nat.

(** The attributes that the INSPIRE translator reads without a test, the
    pairs of attributes of which it reads the second whenever the first is
    there, and the same pairs for CityGML, which reads no attribute but the
    geometry without a test. *)
Definition inspire_required : list string :=
  ["LIFESPAN_BEGINNING"; "IDENTIFIER_ID_LOC"; "IDENTIFIER_ID_NAME"; geometry_path].

Definition inspire_dependent : list (string * string) :=
  [("EXT_REF_REFERENCE", "EXT_REF_IDENTIFIER");
   ("EXT_REF_REFERENCE", "EXT_REF_INF_SYS_NAME");
   ("HEIGHT_HEIGHT_VAL", "HEIGHT_HEIGHT_STAT")].

Definition citygml_dependent : list (string * string) :=
  [("EXT_REF_REFERENCE", "EXT_REF_IDENTIFIER");
   ("IDENTIFIER_ID_LOC", "IDENTIFIER_ID_NAME");
   ("CONSUMONORM_VALORE_E", "ENERGYAMOUNT_E_SOURCE_E");
   ("CONSUMONORM_VALORE_E", "ENERGYAMOUNT_E_YEAR_ONLY_E");
   ("CONSUMONORM_VALORE_E", "CONSUMONORM_UOM_E");
   ("CONSUMONORM_VALORE_T", "ENERGYAMOUNT_E_SOURCE_T");
   ("CONSUMONORM_VALORE_T", "ENERGYAMOUNT_E_YEAR_ONLY_T");
   ("CONSUMONORM_VALORE_T", "CONSUMONORM_UOM_T");
   ("DATE_R_BEGINNING", "DATE_R_END");
   ("ENERGYPERFORMANCE_PERF_CLASS", "ENERGYPERFORMANCE_PERF_METHOD");
   ("HEIGHT_HEIGHT_VAL", "HEIGHT_HEIGHT_REF")].

(** The attributes whose presence the CityGML translator tests. *)
Definition citygml_optional : list string :=
  ["NAME"; "LIFESPAN_BEGINNING"; "LIFESPAN_END"; "EXT_REF_REFERENCE"; "IDENTIFIER_ID_LOC";
   "CONSUMONORM_VALORE_E"; "CONSUMONORM_VALORE_T"; "USE_S"; "DATE_C_BEGINNING";
   "ROOF_TYPE"; "FLOORS"; "DATE_R_BEGINNING"; "ENERGYPERFORMANCE_PERF_CLASS";
   "HEIGHT_HEIGHT_VAL"; "VOLUME_VALUE"; "ENERGYPERF_VOLUME_VALUE"; "SURFACE_VALUE";
   "BUILDINGTYPE"].

(** The two storey elements of CityGML. *)
Definition citygml_storeys (floors : option string) : Element :=
  mkElement (bldg "storeysAboveGround") [] floors [].

Definition citygml_storey_heights (heights : string) : Element :=
  mkElement (bldg "storeyHeightsAboveGround") [("uom", "m")] (Some heights) [].

(** The refurbishment block of CityGML, from the texts of the beginning and
    of the end of the renovation. *)
Definition citygml_refurbishment (beginning ending : option string) : Element :=
  mkElement (energy "refurbishmentMeasure") [] None
    [mkElement (energy "RefurbishmentMeasure") [] None
       [mkElement (energy "date") [] None
          [mkElement (energy "DateOfEvent") [] None
             [mkElement (energy "period") [] None
                [mkElement (gml "TimePeriod") [] None
                   [mkElement (gml "beginPosition") [] beginning [];
                    mkElement (gml "beginPosition") [] ending []]]]];
        mkElement (energy "level") [] (Some "unknown") []]].

(** The year of an attribute as the date formats read it: the text of the
    element, or [None] written out for an element without text. *)
Definition year_text (e : Element) : string := Py.str (text e).

(** * Properties *)

(** ** The error monad *)

Lemma bind_Ok {A B : Type} (m : result A) (k : A -> result B) (b : B) :
  bind m k = Ok b -> exists a, m = Ok a /\ k a = Ok b.
Proof.
  destruct m as [a|e]; cbn; intros H; [exists a; auto | discriminate].
Qed.

(** Turns a hypothesis [x <- m ;; k = Ok b] into [m = Ok x] and [k x = Ok b]. *)
Ltac bind_inv H :=
  let a := fresh "a" in
  let Ha := fresh "Ha" in
  apply bind_Ok in H; destruct H as (a & Ha & H).

(** ** Element paths *)

Lemma flat_map_singleton {A : Type} (l : list A) : flat_map (fun x => [x]) l = l.
Proof. induction l as [|x l IH]; cbn; [reflexivity | now rewrite IH]. Qed.

Lemma select_one (n : string) (e : Element) :
  ET.select [n] e = filter (fun c => String.eqb (tag c) n) (children e).
Proof. cbn. apply flat_map_singleton. Qed.

Lemma select_cons (n : string) (rest : list string) (e : Element) :
  ET.select (n :: rest) e = flat_map (ET.select rest) (ET.select [n] e).
Proof. rewrite select_one. reflexivity. Qed.

(** The identifiers of the document are read from the feature members. *)
Lemma findall_uuid_path (doc : Element) :
  ET.findall CitiEnGov.uuid_path CitiEnGov.the_namespaces doc
  = flat_map (ET.findall CitiEnGov.feature_uuid_path CitiEnGov.the_namespaces)
      (ET.findall "./gml:featureMember" CitiEnGov.the_namespaces doc).
Proof.
  unfold ET.findall.
  change (ET.steps CitiEnGov.the_namespaces CitiEnGov.uuid_path)
    with (ET.steps CitiEnGov.the_namespaces "./gml:featureMember"
          ++ ET.steps CitiEnGov.the_namespaces CitiEnGov.feature_uuid_path)%list.
  change (ET.steps CitiEnGov.the_namespaces "./gml:featureMember")
    with ["{http://www.opengis.net/gml}featureMember"].
  cbn [app]. apply select_cons.
Qed.

(** ** The source document *)

Lemma select_features_Ok ns uuid features l :
  CitiEnGov.select_features ns uuid features = Ok l ->
  Forall (has_uuid ns) features /\ l = features_of ns uuid features.
Proof.
  revert l. induction features as [|f fs IH]; cbn; intros l H.
  - injection H as <-. split; [constructor | reflexivity].
  - bind_inv H. bind_inv H. injection H as <-.
    destruct (IH _ Ha0) as [Hall ->].
    assert (Hf : has_uuid ns f /\ a = feature_uuid ns f).
    { unfold has_uuid, feature_uuid.
      destruct (ET.find CitiEnGov.feature_uuid_path ns f) as [u|]; [|discriminate].
      cbn in Ha. injection Ha as <-. split; [discriminate | reflexivity]. }
    destruct Hf as [Hf ->].
    split; [constructor; assumption | reflexivity].
Qed.

Lemma select_features_total ns uuid features :
  Forall (has_uuid ns) features ->
  CitiEnGov.select_features ns uuid features = Ok (features_of ns uuid features).
Proof.
  induction 1 as [|f fs Hf _ IH]; cbn; [reflexivity|].
  unfold has_uuid in Hf. unfold feature_uuid.
  destruct (ET.find CitiEnGov.feature_uuid_path ns f) as [u|]; [|contradiction].
  cbn. rewrite IH. reflexivity.
Qed.

Lemma select_features_missing ns uuid features :
  ~ Forall (has_uuid ns) features ->
  CitiEnGov.select_features ns uuid features = Raise AttributeError.
Proof.
  induction features as [|f fs IH]; intros H.
  - destruct H. constructor.
  - cbn. destruct (ET.find CitiEnGov.feature_uuid_path ns f) as [u|] eqn:E; cbn.
    + rewrite IH; [reflexivity|].
      intros Hall. apply H. constructor; [unfold has_uuid; congruence | exact Hall].
    + reflexivity.
Qed.

(** What a successful [__init__] establishes. *)
Lemma init_Ok order doc self :
  CitiEnGov.init order doc = Ok self ->
  CitiEnGov.namespaces self = CitiEnGov.the_namespaces
  /\ CitiEnGov.feature_members self
     = ET.findall "./gml:featureMember" CitiEnGov.the_namespaces doc
  /\ CitiEnGov.building_UUIDs self
     = list_set order (CitiEnGov.list_of_uuids CitiEnGov.the_namespaces doc)
  /\ CitiEnGov.UUID_index self = 0
  /\ Forall (has_uuid (CitiEnGov.namespaces self)) (CitiEnGov.feature_members self).
Proof.
  unfold CitiEnGov.init, CitiEnGov.building_identifiers, CitiEnGov.get_building_of.
  cbn [bind]. intros H.
  bind_inv H. bind_inv H. bind_inv Ha0. injection Ha0 as <-. injection H as <-.
  cbn. apply select_features_Ok in Ha1. destruct Ha1 as [Hall _].
  repeat split; assumption.
Qed.

Lemma skipn_nth_error {A : Type} (l : list A) (n : nat) (x : A) :
  nth_error l n = Some x -> skipn n l = x :: skipn (S n) l.
Proof.
  revert n. induction l as [|y l IH]; intros [|n]; cbn; try discriminate.
  - now intros [= ->].
  - intros H. now rewrite (IH _ H).
Qed.

(** The loop over the document: with fuel for its calls of [__next__] it
    ends, and it has run the body on the records of the identifiers left. *)
Lemma for_each_run {S : Type} (body : Building.t -> S -> result S) fuel :
  forall (self : CitiEnGov.t) (s : S),
    Forall (has_uuid (CitiEnGov.namespaces self)) (CitiEnGov.feature_members self) ->
    CitiEnGov.calls self <= fuel ->
    exists self', CitiEnGov.for_each fuel self body s
                  = Some (run_body body (records self) s, self').
Proof.
  induction fuel as [|fuel IH]; intros self s Hall Hfuel.
  - unfold CitiEnGov.calls in Hfuel. lia.
  - cbn [CitiEnGov.for_each]. unfold CitiEnGov.next, records.
    destruct (nth_error (CitiEnGov.building_UUIDs self) (CitiEnGov.UUID_index self))
      as [uuid|] eqn:E.
    + rewrite (skipn_nth_error _ _ _ E). cbn [map run_body].
      unfold CitiEnGov.get_building, CitiEnGov.get_building_of.
      rewrite (select_features_total _ _ _ Hall). cbn [bind].
      fold (record_of self uuid).
      destruct (body (record_of self uuid) s) as [s'|e]; cbn [bind].
      * match goal with
        | |- context [CitiEnGov.for_each fuel ?st body s'] =>
            destruct (IH st s') as [self' Hrun]; [exact Hall | |]
        end.
        { unfold CitiEnGov.calls in *. cbn.
          assert (CitiEnGov.UUID_index self < length (CitiEnGov.building_UUIDs self))
            by (apply nth_error_Some; congruence).
          lia. }
        exists self'. rewrite Hrun. reflexivity.
      * eexists. reflexivity.
    + apply nth_error_None in E. rewrite (skipn_all2 _ E). cbn.
      eexists. reflexivity.
Qed.

Lemma run_body_collect (bs l : list Building.t) :
  run_body (fun bu l => Ok (l ++ [bu])%list) bs l = Ok (l ++ bs)%list.
Proof.
  revert l. induction bs as [|b bs IH]; intros l; cbn.
  - now rewrite app_nil_r.
  - rewrite IH, <- app_assoc. reflexivity.
Qed.

Lemma map_UUID_records (self : CitiEnGov.t) :
  map Building.UUID (records self)
  = skipn (CitiEnGov.UUID_index self) (CitiEnGov.building_UUIDs self).
Proof.
  unfold records. rewrite map_map. cbn. apply map_id.
Qed.

(** ** Building the output tree *)

(** Replaces every [solve] of a literal name by its value. *)
Ltac tags :=
  repeat match goal with
    | |- context [NameSpaceSolver.solve ?n ?t] =>
        let r := eval vm_compute in (NameSpaceSolver.solve n t) in
        change (NameSpaceSolver.solve n t) with r
    end.

Ltac tags_in H :=
  repeat match type of H with
    | context [NameSpaceSolver.solve ?n ?t] =>
        let r := eval vm_compute in (NameSpaceSolver.solve n t) in
        change (NameSpaceSolver.solve n t) with r in H
    end.

(** Runs a block forward in a hypothesis [H : block = Ok l]: the names are
    solved, the lookups of the building and the texts are split into their
    cases, and the cases that raise are closed. *)
Ltac crunch H :=
  unfold SubElement, href in H; tags_in H;
  repeat (cbn [bind text_of str_text_of] in H;
          match type of H with
          | context [Building.find ?b ?a] => destruct (Building.find b a) eqn:?
          | context [match text ?e with _ => _ end] => destruct (text e) eqn:?
          | context [bind (Py.getitem ?d ?k) _] => destruct (Py.getitem d k) eqn:?
          | Raise _ = Ok _ => discriminate H
          end);
  cbn [bind text_of str_text_of] in H.

Lemma filter_all_tagged (name other : string) (l : list Element) :
  all_tagged name l -> String.eqb name other = false ->
  filter (fun c => String.eqb (tag c) other) l = [].
Proof.
  intros Hall Hne. induction Hall as [|e l He _ IH]; cbn; [reflexivity|].
  rewrite He, Hne. exact IH.
Qed.

Lemma filter_all_tagged_same (name : string) (l : list Element) :
  all_tagged name l -> filter (fun c => String.eqb (tag c) name) l = l.
Proof.
  intros Hall. induction Hall as [|e l He _ IH]; cbn; [reflexivity|].
  rewrite He, String.eqb_refl, IH. reflexivity.
Qed.

Lemma all_tagged_nil (name : string) : all_tagged name [].
Proof. constructor. Qed.

Lemma all_tagged_one (name : string) (e : Element) :
  tag e = name -> all_tagged name [e].
Proof. intros H. constructor; [exact H | constructor]. Qed.

Create HintDb tagged.
#[local] Hint Resolve all_tagged_nil all_tagged_one : tagged.

(** Closes [all_tagged name l] once [H : Ok ... = Ok l] gives [l]. *)
Ltac tagged H :=
  crunch H; injection H as <-; auto with tagged.

Module InspireFacts.

Section Blocks.
Variable self : Inspire.t.
Variable bu : Building.t.
Hypothesis Hnss : Inspire.nss self = Inspire.solver.

Lemma begin_lifespan_version_tagged l :
  Inspire.begin_lifespan_version self bu = Ok l ->
  all_tagged "{http://inspire.ec.europa.eu/schemas/bu-base/4.0}beginLifespanVersion" l.
Proof. unfold Inspire.begin_lifespan_version. rewrite Hnss. intros H. tagged H. Qed.

Lemma condition_of_construction_tagged l :
  Inspire.condition_of_construction self bu = Ok l ->
  all_tagged "{http://inspire.ec.europa.eu/schemas/bu-base/4.0}conditionOfConstruction" l.
Proof. unfold Inspire.condition_of_construction. rewrite Hnss. intros H. tagged H. Qed.

Lemma date_of_construction_tagged l :
  Inspire.date_of_construction self bu = Ok l ->
  all_tagged "{http://inspire.ec.europa.eu/schemas/bu-base/4.0}dateOfConstruction" l.
Proof. unfold Inspire.date_of_construction. rewrite Hnss. intros H. tagged H. Qed.

Lemma date_of_renovation_tagged l :
  Inspire.date_of_renovation self bu = Ok l ->
  all_tagged "{http://inspire.ec.europa.eu/schemas/bu-base/4.0}dateOfConstruction" l.
Proof. unfold Inspire.date_of_renovation. rewrite Hnss. intros H. tagged H. Qed.

Lemma external_reference_tagged l :
  Inspire.external_reference self bu = Ok l ->
  all_tagged "{http://inspire.ec.europa.eu/schemas/bu-base/4.0}externalReference" l.
Proof. unfold Inspire.external_reference. rewrite Hnss. intros H. tagged H. Qed.

Lemma height_above_ground_tagged l :
  Inspire.height_above_ground self bu = Ok l ->
  all_tagged "{http://inspire.ec.europa.eu/schemas/bu-base/4.0}heightAboveGround" l.
Proof. unfold Inspire.height_above_ground. rewrite Hnss. intros H. tagged H. Qed.

Lemma inspire_id_tagged l :
  Inspire.inspire_id self bu = Ok l ->
  all_tagged "{http://inspire.ec.europa.eu/schemas/bu-base/4.0}inspireId" l.
Proof. unfold Inspire.inspire_id. rewrite Hnss. intros H. tagged H. Qed.

Lemma building_nature_tagged l :
  Inspire.building_nature self bu = Ok l ->
  all_tagged "{http://inspire.ec.europa.eu/schemas/bu-base/4.0}buildingNature" l.
Proof. unfold Inspire.building_nature. rewrite Hnss. intros H. tagged H. Qed.

Lemma number_of_building_units_tagged l :
  Inspire.number_of_building_units self bu = Ok l ->
  all_tagged "{http://inspire.ec.europa.eu/schemas/bu-base/4.0}numberOfBuildingUnits" l.
Proof. unfold Inspire.number_of_building_units. rewrite Hnss. intros H. tagged H. Qed.

Lemma number_of_floors_tagged l :
  Inspire.number_of_floors self bu = Ok l ->
  all_tagged "{http://inspire.ec.europa.eu/schemas/bu-base/4.0}numberOfFloorsAboveGround" l.
Proof. unfold Inspire.number_of_floors. rewrite Hnss. intros H. tagged H. Qed.

End Blocks.

End InspireFacts.

Module InspireBuilding.

Lemma current_use_blocks_tagged self uses l :
  Inspire.nss self = Inspire.solver ->
  Inspire.current_use_blocks self uses = Ok l ->
  all_tagged (bu_base "currentUse") l.
Proof.
  intros Hnss. revert l. induction uses as [|use uses IH]; cbn; intros l H.
  - injection H as <-. constructor.
  - bind_inv H. bind_inv H. injection H as <-.
    constructor; [|exact (IH _ Ha0)].
    unfold Inspire.current_use_block in Ha.
    destruct (Py.partition "(" use) as [[curr_use sep] percent].
    rewrite Hnss in Ha. crunch Ha. injection Ha as <-. reflexivity.
Qed.

Lemma current_use_tagged self bu l :
  Inspire.nss self = Inspire.solver ->
  Inspire.current_use self bu = Ok l ->
  all_tagged (bu_base "currentUse") l.
Proof.
  intros Hnss H. unfold Inspire.current_use in H.
  destruct (Building.find bu "USE_M"); [|injection H as <-; constructor].
  bind_inv H. eapply current_use_blocks_tagged; eauto.
Qed.

Lemma geometry_2d_Ok self bu l :
  Inspire.nss self = Inspire.solver ->
  Inspire.geometry_2d self bu = Ok l ->
  exists co, Building.find bu geometry_path = Some co /\ l = [inspire_geometry co].
Proof.
  intros Hnss H. unfold Inspire.geometry_2d in H. rewrite Hnss in H.
  destruct (Building.find bu geometry_path) as [co|]; [|discriminate].
  crunch H. injection H as <-. exists co. split; reflexivity.
Qed.

(** The member of a building: its blocks, in the order of the source. *)
Lemma inspire_member_blocks self bu m :
  Inspire.nss self = Inspire.solver ->
  Inspire.translate_building self bu = Ok m ->
  exists b1 b2 b3 b4 b5 b6 b7 b8 b9 b10 b11 b12,
    Inspire.begin_lifespan_version self bu = Ok b1
    /\ Inspire.condition_of_construction self bu = Ok b2
    /\ Inspire.date_of_construction self bu = Ok b3
    /\ Inspire.date_of_renovation self bu = Ok b4
    /\ Inspire.external_reference self bu = Ok b5
    /\ Inspire.height_above_ground self bu = Ok b6
    /\ Inspire.inspire_id self bu = Ok b7
    /\ Inspire.building_nature self bu = Ok b8
    /\ Inspire.current_use self bu = Ok b9
    /\ Inspire.number_of_building_units self bu = Ok b10
    /\ Inspire.number_of_floors self bu = Ok b11
    /\ Inspire.geometry_2d self bu = Ok b12
    /\ m = mkElement "{http://www.opengis.net/wfs/2.0}member" [] None
             [mkElement (bu_core2d "Building") [] None
                (b1 ++ b2 ++ b3 ++ b4 ++ b5 ++ b6 ++ b7 ++ b8 ++ b9 ++ b10 ++ b11 ++ b12)%list].
Proof.
  intros Hnss H. unfold Inspire.translate_building in H.
  do 12 bind_inv H. rewrite Hnss in H. crunch H. injection H as <-.
  do 12 eexists. repeat (split; [eassumption|]). reflexivity.
Qed.

End InspireBuilding.

Module CityGMLBuilding.

Ltac untagged H := crunch H; injection H as <-; reflexivity.

Lemma demand_element_tag self years uom energy_values carrier e :
  CityGML.nss self = CityGML.solver ->
  CityGML.demand_element self years uom energy_values carrier = Ok e ->
  tag e = energy "demands".
Proof.
  intros Hnss H. unfold CityGML.demand_element in H. rewrite Hnss in H.
  crunch H. do 5 bind_inv H.
  destruct (negb _) in H; [discriminate|].
  crunch H. bind_inv H. injection H as <-. reflexivity.
Qed.

Section Blocks.
Variable self : CityGML.t.
Variable bu : Building.t.
Hypothesis Hnss : CityGML.nss self = CityGML.solver.

Lemma name_untagged l :
  CityGML.name self bu = Ok l -> none_tagged (bldg "lod0FootPrint") l.
Proof. unfold CityGML.name. rewrite Hnss. intros H. untagged H. Qed.

Lemma creation_date_untagged l :
  CityGML.creation_date self bu = Ok l -> none_tagged (bldg "lod0FootPrint") l.
Proof. unfold CityGML.creation_date. rewrite Hnss. intros H. untagged H. Qed.

Lemma termination_date_untagged l :
  CityGML.termination_date self bu = Ok l -> none_tagged (bldg "lod0FootPrint") l.
Proof. unfold CityGML.termination_date. rewrite Hnss. intros H. untagged H. Qed.

Lemma external_reference_untagged l :
  CityGML.external_reference self bu = Ok l -> none_tagged (bldg "lod0FootPrint") l.
Proof.
  unfold CityGML.external_reference, CityGML.reference_block. rewrite Hnss.
  intros H. untagged H.
Qed.

Lemma external_reference_id_untagged l :
  CityGML.external_reference_id self bu = Ok l -> none_tagged (bldg "lod0FootPrint") l.
Proof.
  unfold CityGML.external_reference_id, CityGML.reference_block. rewrite Hnss.
  intros H. untagged H.
Qed.

Lemma demand_untagged attribute carrier l :
  CityGML.demand self bu attribute carrier = Ok l ->
  none_tagged (bldg "lod0FootPrint") l.
Proof.
  unfold CityGML.demand. intros H.
  destruct (negb _) in H; [|injection H as <-; reflexivity].
  bind_inv H. injection H as <-.
  assert (Htag : tag a = energy "demands").
  { unfold CityGML.make_demand, CityGML.demand_of in Ha.
    destruct (String.eqb carrier "electricity");
      [|destruct (String.eqb carrier "thermal"); [|discriminate]];
      bind_inv Ha; (destruct (negb _) in Ha; [discriminate|]);
      bind_inv Ha; eapply demand_element_tag; eauto. }
  unfold none_tagged. cbn [filter]. rewrite Htag. reflexivity.
Qed.

Lemma usage_untagged l :
  CityGML.usage self bu = Ok l -> none_tagged (bldg "lod0FootPrint") l.
Proof. unfold CityGML.usage. rewrite Hnss. intros H. untagged H. Qed.

Lemma year_of_construction_untagged l :
  CityGML.year_of_construction self bu = Ok l -> none_tagged (bldg "lod0FootPrint") l.
Proof. unfold CityGML.year_of_construction. rewrite Hnss. intros H. untagged H. Qed.

Lemma roof_type_untagged l :
  CityGML.roof_type self bu = Ok l -> none_tagged (bldg "lod0FootPrint") l.
Proof. unfold CityGML.roof_type. rewrite Hnss. intros H. untagged H. Qed.

Lemma storeys_above_ground_untagged l :
  CityGML.storeys_above_ground self bu = Ok l -> none_tagged (bldg "lod0FootPrint") l.
Proof.
  unfold CityGML.storeys_above_ground. rewrite Hnss. intros H. crunch H.
  - bind_inv H. crunch H. injection H as <-. reflexivity.
  - injection H as <-. reflexivity.
  - injection H as <-. reflexivity.
Qed.

Lemma refurbishment_measure_untagged l :
  CityGML.refurbishment_measure self bu = Ok l -> none_tagged (bldg "lod0FootPrint") l.
Proof. unfold CityGML.refurbishment_measure. rewrite Hnss. intros H. untagged H. Qed.

Lemma energy_certification_untagged l :
  CityGML.energy_certification self bu = Ok l -> none_tagged (bldg "lod0FootPrint") l.
Proof. unfold CityGML.energy_certification. rewrite Hnss. intros H. untagged H. Qed.

Lemma height_above_ground_untagged l :
  CityGML.height_above_ground self bu = Ok l -> none_tagged (bldg "lod0FootPrint") l.
Proof. unfold CityGML.height_above_ground. rewrite Hnss. intros H. untagged H. Qed.

Lemma volume_untagged attribute kind unit l :
  CityGML.typed_value self bu attribute "energy:volume" "energy:VolumeType" kind unit = Ok l ->
  none_tagged (bldg "lod0FootPrint") l.
Proof. unfold CityGML.typed_value. rewrite Hnss. intros H. untagged H. Qed.

Lemma floor_area_untagged attribute kind unit l :
  CityGML.typed_value self bu attribute "energy:floorArea" "energy:FloorArea" kind unit = Ok l ->
  none_tagged (bldg "lod0FootPrint") l.
Proof. unfold CityGML.typed_value. rewrite Hnss. intros H. untagged H. Qed.

Lemma building_type_untagged l :
  CityGML.building_type self bu = Ok l -> none_tagged (bldg "lod0FootPrint") l.
Proof. unfold CityGML.building_type. rewrite Hnss. intros H. untagged H. Qed.

Lemma lod_0_foot_print_Ok l :
  CityGML.lod_0_foot_print self bu = Ok l ->
  exists co, Building.find bu geometry_path = Some co /\ l = [citygml_geometry co].
Proof.
  intros H. unfold CityGML.lod_0_foot_print in H. rewrite Hnss in H.
  destruct (Building.find bu geometry_path) as [co|]; [|discriminate].
  crunch H. injection H as <-. exists co. split; reflexivity.
Qed.

End Blocks.

End CityGMLBuilding.

Module CityGMLMember.

(** The member of a building: its blocks, in the order of the source. *)
Lemma citygml_member_blocks self bu m :
  CityGML.nss self = CityGML.solver ->
  CityGML.translate_building self bu = Ok m ->
  exists before after co,
    Building.find bu geometry_path = Some co
    /\ none_tagged (bldg "lod0FootPrint") before
    /\ none_tagged (bldg "lod0FootPrint") after
    /\ m = mkElement "{http://www.opengis.net/citygml/2.0}cityObjectMember" [] None
             [mkElement (bldg "Building") [] None
                (before ++ citygml_geometry co :: after)%list].
Proof.
  intros Hnss H. unfold CityGML.translate_building in H.
  do 19 bind_inv H. rewrite Hnss in H. crunch H. injection H as <-.
  destruct (CityGMLBuilding.lod_0_foot_print_Ok self bu Hnss _ Ha10) as (co & Hco & ->).
  exists (a ++ a0 ++ a1 ++ a2 ++ a3 ++ a4 ++ a5 ++ a6 ++ a7 ++ a8 ++ a9)%list,
    (a11 ++ a12 ++ a13 ++ a14 ++ a15 ++ a16 ++ a17)%list, co.
  split; [exact Hco|].
  pose proof (CityGMLBuilding.name_untagged self bu Hnss _ Ha) as T0.
  pose proof (CityGMLBuilding.creation_date_untagged self bu Hnss _ Ha0) as T1.
  pose proof (CityGMLBuilding.termination_date_untagged self bu Hnss _ Ha1) as T2.
  pose proof (CityGMLBuilding.external_reference_untagged self bu Hnss _ Ha2) as T3.
  pose proof (CityGMLBuilding.external_reference_id_untagged self bu Hnss _ Ha3) as T4.
  pose proof (CityGMLBuilding.demand_untagged self bu Hnss _ _ _ Ha4) as T5.
  pose proof (CityGMLBuilding.demand_untagged self bu Hnss _ _ _ Ha5) as T6.
  pose proof (CityGMLBuilding.usage_untagged self bu Hnss _ Ha6) as T7.
  pose proof (CityGMLBuilding.year_of_construction_untagged self bu Hnss _ Ha7) as T8.
  pose proof (CityGMLBuilding.roof_type_untagged self bu Hnss _ Ha8) as T9.
  pose proof (CityGMLBuilding.storeys_above_ground_untagged self bu Hnss _ Ha9) as T10.
  pose proof (CityGMLBuilding.refurbishment_measure_untagged self bu Hnss _ Ha11) as T11.
  pose proof (CityGMLBuilding.energy_certification_untagged self bu Hnss _ Ha12) as T12.
  pose proof (CityGMLBuilding.height_above_ground_untagged self bu Hnss _ Ha13) as T13.
  pose proof (CityGMLBuilding.volume_untagged self bu Hnss _ _ _ _ Ha14) as T14.
  pose proof (CityGMLBuilding.volume_untagged self bu Hnss _ _ _ _ Ha15) as T15.
  pose proof (CityGMLBuilding.floor_area_untagged self bu Hnss _ _ _ _ Ha16) as T16.
  pose proof (CityGMLBuilding.building_type_untagged self bu Hnss _ Ha17) as T17.
  unfold none_tagged in *.
  repeat split.
  - rewrite !filter_app, T0, T1, T2, T3, T4, T5, T6, T7, T8, T9, T10. reflexivity.
  - rewrite !filter_app, T11, T12, T13, T14, T15, T16, T17. reflexivity.
  - cbn [app]. rewrite <- !app_assoc. reflexivity.
Qed.

Lemma citygml_member_shape self bu m :
  CityGML.nss self = CityGML.solver ->
  CityGML.translate_building self bu = Ok m ->
  member_of "{http://www.opengis.net/citygml/2.0}cityObjectMember" (bldg "Building") m.
Proof.
  intros Hnss H.
  destruct (citygml_member_blocks _ _ _ Hnss H) as (b & a & co & _ & _ & _ & ->).
  eexists. reflexivity.
Qed.

End CityGMLMember.

Module InspireMember.

Lemma inspire_member_shape self bu m :
  Inspire.nss self = Inspire.solver ->
  Inspire.translate_building self bu = Ok m ->
  member_of "{http://www.opengis.net/wfs/2.0}member" (bu_core2d "Building") m.
Proof.
  intros Hnss H.
  destruct (InspireBuilding.inspire_member_blocks _ _ _ Hnss H)
    as (b1 & b2 & b3 & b4 & b5 & b6 & b7 & b8 & b9 & b10 & b11 & b12 & H').
  decompose [and] H'. subst m. eexists. reflexivity.
Qed.

End InspireMember.

(** ** The members of the output collection *)

Lemma select_members (member building : string) (ms : list Element) :
  Forall (member_of member building) ms ->
  length (flat_map (ET.select [building])
            (filter (fun c => String.eqb (tag c) member) ms)) = length ms.
Proof.
  induction 1 as [|m ms [kids ->] _ IH]; [reflexivity|].
  cbn [filter tag]. rewrite String.eqb_refl. cbn [flat_map].
  rewrite length_app, IH, select_one. cbn [children filter tag].
  rewrite String.eqb_refl. reflexivity.
Qed.

Lemma count_members (member building : string) (root : Element) :
  Forall (member_of member building) (children root) ->
  length (ET.select [member; building] root) = length (children root).
Proof. intros H. cbn [ET.select]. now apply select_members. Qed.

Lemma Inspire_init_Ok ts insp :
  Inspire.init ts = Ok insp ->
  Inspire.nss insp = Inspire.solver /\ children (Inspire.root insp) = [].
Proof.
  unfold Inspire.init. intros H. crunch H. injection H as <-. split; reflexivity.
Qed.

Lemma CityGML_init_Ok cgml :
  CityGML.init = Ok cgml ->
  CityGML.nss cgml = CityGML.solver /\ children (CityGML.root cgml) = [].
Proof.
  unfold CityGML.init. intros H. crunch H. injection H as <-. split; reflexivity.
Qed.

(** The loop of [Inspire.translate] appends one member for each building. *)
Lemma Inspire_run bs :
  forall self self',
    Inspire.nss self = Inspire.solver ->
    run_body Inspire.translate_step bs self = Ok self' ->
    exists ms,
      children (Inspire.root self') = (children (Inspire.root self) ++ ms)%list
      /\ length ms = length bs
      /\ Forall (member_of "{http://www.opengis.net/wfs/2.0}member" (bu_core2d "Building")) ms.
Proof.
  induction bs as [|b bs IH]; cbn [run_body]; intros self self' Hnss H.
  - injection H as <-. exists []. rewrite app_nil_r. repeat split. constructor.
  - bind_inv H. unfold Inspire.translate_step in Ha. bind_inv Ha. injection Ha as <-.
    destruct (IH (Inspire.with_root self (append (Inspire.root self) a0)) self' Hnss H) as (ms & Hkids & Hlen & Hms).
    exists (a0 :: ms). cbn in Hkids. rewrite Hkids, <- app_assoc. cbn.
    repeat split; [now rewrite Hlen|].
    constructor; [|exact Hms].
    eapply InspireMember.inspire_member_shape; eauto.
Qed.

(** The loop of [CityGML.translate] appends one member for each building. *)
Lemma CityGML_run bs :
  forall self self',
    CityGML.nss self = CityGML.solver ->
    run_body CityGML.translate_step bs self = Ok self' ->
    exists ms,
      children (CityGML.root self') = (children (CityGML.root self) ++ ms)%list
      /\ length ms = length bs
      /\ Forall (member_of "{http://www.opengis.net/citygml/2.0}cityObjectMember"
                   (bldg "Building")) ms.
Proof.
  induction bs as [|b bs IH]; cbn [run_body]; intros self self' Hnss H.
  - injection H as <-. exists []. rewrite app_nil_r. repeat split. constructor.
  - bind_inv H. unfold CityGML.translate_step in Ha. bind_inv Ha. injection Ha as <-.
    destruct (IH (CityGML.with_root self (append (CityGML.root self) a0)) self' Hnss H) as (ms & Hkids & Hlen & Hms).
    exists (a0 :: ms). cbn in Hkids. rewrite Hkids, <- app_assoc. cbn.
    repeat split; [now rewrite Hlen|].
    constructor; [|exact Hms].
    eapply CityGMLMember.citygml_member_shape; eauto.
Qed.

Lemma records_init order doc ceg :
  CitiEnGov.init order doc = Ok ceg ->
  records ceg = map (record_of ceg) (CitiEnGov.building_UUIDs ceg).
Proof.
  intros H. destruct (init_Ok _ _ _ H) as (_ & _ & _ & Hidx & _).
  unfold records. rewrite Hidx. reflexivity.
Qed.

Lemma NoDup_same_length {A : Type} (l1 l2 : list A) :
  NoDup l1 -> NoDup l2 -> (forall x, In x l1 <-> In x l2) -> length l1 = length l2.
Proof.
  intros N1 N2 H. apply Nat.le_antisymm; apply NoDup_incl_length; auto;
    intros x Hx; apply H; exact Hx.
Qed.

(** A loop over a constructed document is given the records of its
    identifiers. *)
Lemma loop_yields_records order doc ceg :
  CitiEnGov.init order doc = Ok ceg ->
  exists ceg',
    CitiEnGov.buildings ceg
    = Some (Ok (map (record_of ceg) (CitiEnGov.building_UUIDs ceg)), ceg').
Proof.
  intros Hinit.
  pose proof (records_init _ _ _ Hinit) as Hrec.
  destruct (init_Ok _ _ _ Hinit) as (_ & _ & _ & _ & Hall).
  unfold CitiEnGov.buildings.
  destruct (for_each_run (fun bu l => Ok (l ++ [bu])%list) (CitiEnGov.calls ceg)
              ceg [] Hall (le_n _)) as [ceg' Hrun].
  exists ceg'. rewrite Hrun, run_body_collect, Hrec. reflexivity.
Qed.

(** C1.  After a successful construction of the source document, a loop over
    it ends and is given exactly the records of the identifiers of
    [building_UUIDs], one for each and in that order; these identifiers are
    the distinct texts of the [UUID] elements of the document.  Either
    translation ends, and when it succeeds, the output collection holds as
    many building elements ([wfs:member/bu-core2d:Building], respectively
    [core:cityObjectMember/bldg:Building]) as there are distinct
    identifiers. *)
Theorem one_building_per_identifier :
  forall (order : SetOrder) (doc : Element) (ceg : CitiEnGov.t),
    CitiEnGov.init order doc = Ok ceg ->
    let ids := CitiEnGov.building_UUIDs ceg in
    (exists ceg', CitiEnGov.buildings ceg = Some (Ok (map (record_of ceg) ids), ceg'))
    /\ map Building.UUID (map (record_of ceg) ids) = ids
    /\ NoDup ids
    /\ (forall u, In u ids <-> In u (CitiEnGov.list_of_uuids CitiEnGov.the_namespaces doc))
    /\ length ids
       = length (nodup text_eq_dec (CitiEnGov.list_of_uuids CitiEnGov.the_namespaces doc))
    /\ (forall ts insp,
          Inspire.init ts = Ok insp ->
          (exists r ceg', Inspire.translate insp ceg = Some (r, ceg'))
          /\ forall insp' ceg',
              Inspire.translate insp ceg = Some (Ok insp', ceg') ->
              length (ET.findall "./wfs:member/bu-core2d:Building" Inspire.inspire_ns
                        (Inspire.root insp'))
              = length ids)
    /\ (forall cgml,
          CityGML.init = Ok cgml ->
          (exists r ceg', CityGML.translate cgml ceg = Some (r, ceg'))
          /\ forall cgml' ceg',
              CityGML.translate cgml ceg = Some (Ok cgml', ceg') ->
              length (ET.findall "./core:cityObjectMember/bldg:Building" CityGML.city_gml_ns
                        (CityGML.root cgml'))
              = length ids).
Proof.
  intros order doc ceg Hinit ids.
  pose proof (records_init _ _ _ Hinit) as Hrec.
  destruct (init_Ok _ _ _ Hinit) as (_ & _ & Hids & _ & Hall).
  repeat split.
  - exact (loop_yields_records _ _ _ Hinit).
  - rewrite map_map. cbn. apply map_id.
  - unfold ids. rewrite Hids. apply list_set_NoDup.
  - unfold ids. rewrite Hids. apply list_set_In.
  - unfold ids. rewrite Hids. apply list_set_In.
  - unfold ids. rewrite Hids. apply NoDup_same_length.
    + apply list_set_NoDup.
    + apply NoDup_nodup.
    + intros x. rewrite list_set_In, nodup_In. reflexivity.
  - destruct (for_each_run Inspire.translate_step (CitiEnGov.calls ceg) ceg insp Hall
                (le_n _)) as [ceg' Hrun].
    unfold Inspire.translate. rewrite Hrun. eauto.
  - intros insp' ceg1 Htr.
    destruct (Inspire_init_Ok _ _ H) as [Hnss Hroot].
    destruct (for_each_run Inspire.translate_step (CitiEnGov.calls ceg) ceg insp Hall
                (le_n _)) as [ceg' Hrun].
    unfold Inspire.translate in Htr. rewrite Hrun in Htr.
    injection Htr as Hbody _.
    destruct (Inspire_run _ _ _ Hnss Hbody) as (ms & Hkids & Hlen & Hms).
    rewrite Hroot in Hkids. cbn in Hkids.
    unfold ET.findall.
    change (ET.steps Inspire.inspire_ns "./wfs:member/bu-core2d:Building")
      with ["{http://www.opengis.net/wfs/2.0}member"; bu_core2d "Building"].
    rewrite count_members; rewrite Hkids; [|exact Hms].
    rewrite Hlen, Hrec. apply length_map.
  - destruct (for_each_run CityGML.translate_step (CitiEnGov.calls ceg) ceg cgml Hall
                (le_n _)) as [ceg' Hrun].
    unfold CityGML.translate. rewrite Hrun. eauto.
  - intros cgml' ceg1 Htr.
    destruct (CityGML_init_Ok _ H) as [Hnss Hroot].
    destruct (for_each_run CityGML.translate_step (CitiEnGov.calls ceg) ceg cgml Hall
                (le_n _)) as [ceg' Hrun].
    unfold CityGML.translate in Htr. rewrite Hrun in Htr.
    injection Htr as Hbody _.
    destruct (CityGML_run _ _ _ Hnss Hbody) as (ms & Hkids & Hlen & Hms).
    rewrite Hroot in Hkids. cbn in Hkids.
    unfold ET.findall.
    change (ET.steps CityGML.city_gml_ns "./core:cityObjectMember/bldg:Building")
      with ["{http://www.opengis.net/citygml/2.0}cityObjectMember"; bldg "Building"].
    rewrite count_members; rewrite Hkids; [|exact Hms].
    rewrite Hlen, Hrec. apply length_map.
Qed.

Lemma one_building_per_identifier_witness :
  exists ceg insp insp' ceg1 cgml cgml' ceg2,
    CitiEnGov.init nodup_order Sample.two_buildings = Ok ceg
    /\ CitiEnGov.building_UUIDs ceg = [Some "b-2"; Some "b-1"]
    /\ Inspire.init "2024-05-01T12:00:00" = Ok insp
    /\ Inspire.translate insp ceg = Some (Ok insp', ceg1)
    /\ length (ET.findall "./wfs:member/bu-core2d:Building" Inspire.inspire_ns
                 (Inspire.root insp')) = 2
    /\ CityGML.init = Ok cgml
    /\ CityGML.translate cgml ceg = Some (Ok cgml', ceg2)
    /\ length (ET.findall "./core:cityObjectMember/bldg:Building" CityGML.city_gml_ns
                 (CityGML.root cgml')) = 2.
Proof.
  assert (exists ceg, CitiEnGov.init nodup_order Sample.two_buildings = Ok ceg) as [ceg Hceg]
    by (eexists; vm_compute; reflexivity).
  assert (exists insp, Inspire.init "2024-05-01T12:00:00" = Ok insp) as [insp Hinsp]
    by (eexists; vm_compute; reflexivity).
  assert (exists cgml, CityGML.init = Ok cgml) as [cgml Hcgml]
    by (eexists; vm_compute; reflexivity).
  assert (Hids : CitiEnGov.building_UUIDs ceg = [Some "b-2"; Some "b-1"])
    by (vm_compute in Hceg; injection Hceg as <-; reflexivity).
  assert (exists insp' ceg1, Inspire.translate insp ceg = Some (Ok insp', ceg1))
    as (insp' & ceg1 & HI).
  { vm_compute in Hceg, Hinsp. injection Hceg as <-. injection Hinsp as <-.
    do 2 eexists. vm_compute. reflexivity. }
  assert (exists cgml' ceg2, CityGML.translate cgml ceg = Some (Ok cgml', ceg2))
    as (cgml' & ceg2 & HC).
  { vm_compute in Hceg, Hcgml. injection Hceg as <-. injection Hcgml as <-.
    do 2 eexists. vm_compute. reflexivity. }
  destruct (one_building_per_identifier nodup_order Sample.two_buildings ceg Hceg)
    as (_ & _ & _ & _ & _ & TI & TC).
  exists ceg, insp, insp', ceg1, cgml, cgml', ceg2.
  rewrite (proj2 (TI _ _ Hinsp) _ _ HI), (proj2 (TC _ Hcgml) _ _ HC), Hids.
  repeat split; assumption.
Defined.

(** ** The identifiers and the records of the source document *)

Lemma list_set_nil (order : SetOrder) : list_set order [] = [].
Proof.
  destruct (list_set order []) as [|x l] eqn:E; [reflexivity|].
  assert (H : In x []) by (apply (list_set_In order); rewrite E; left; reflexivity).
  destruct H.
Qed.

Lemma list_set_not_nil (order : SetOrder) (l : list (option string)) :
  l <> [] -> list_set order l <> [].
Proof.
  destruct l as [|x l]; [congruence|]. intros _ E.
  assert (H : In x (list_set order (x :: l))) by (apply list_set_In; left; reflexivity).
  rewrite E in H. destruct H.
Qed.

Lemma map_of_flat_map {A B C : Type} (f : B -> C) (g : A -> list B) (l : list A) :
  map f (flat_map g l) = flat_map (fun x => map f (g x)) l.
Proof.
  induction l as [|x l IH]; cbn; [reflexivity|]. rewrite map_app, IH. reflexivity.
Qed.

Lemma list_of_uuids_members (doc : Element) :
  CitiEnGov.list_of_uuids CitiEnGov.the_namespaces doc
  = flat_map (fun f => map text (ET.findall CitiEnGov.feature_uuid_path
                                   CitiEnGov.the_namespaces f))
      (ET.findall "./gml:featureMember" CitiEnGov.the_namespaces doc).
Proof.
  unfold CitiEnGov.list_of_uuids. rewrite findall_uuid_path. apply map_of_flat_map.
Qed.

Lemma eqb_eq (a b : option string) : Py.eqb a b = true <-> a = b.
Proof.
  destruct a as [x|], b as [y|]; cbn; try (split; congruence).
  rewrite String.eqb_eq. split; congruence.
Qed.

(** C10.  A document without feature members cannot be constructed: the list
    of identifiers is empty and [__init__] raises [IndexError] at
    [self.building_UUIDs[self.UUID_index]]. *)
Theorem init_of_empty_document :
  forall (order : SetOrder) (doc : Element),
    ET.findall "./gml:featureMember" CitiEnGov.the_namespaces doc = [] ->
    CitiEnGov.building_identifiers order CitiEnGov.the_namespaces doc = Ok []
    /\ CitiEnGov.init order doc = Raise IndexError.
Proof.
  intros order doc H.
  unfold CitiEnGov.init, CitiEnGov.building_identifiers.
  rewrite list_of_uuids_members, H. cbn [flat_map].
  rewrite list_set_nil. split; reflexivity.
Qed.

Lemma init_of_empty_document_witness :
  ET.findall "./gml:featureMember" CitiEnGov.the_namespaces Sample.empty = []
  /\ CitiEnGov.init nodup_order Sample.empty = Raise IndexError.
Proof.
  split; [reflexivity|].
  apply (init_of_empty_document nodup_order Sample.empty). reflexivity.
Defined.

(** C3, as the code has it: the extraction of the identifiers does not
    fail on a document with a feature member [f] that has no [UUID] element;
    it returns the identifiers of the [UUID] elements there are.  It is the
    constructor that fails then: with [IndexError] when no identifier was
    found at all, and otherwise with [AttributeError], when [get_building]
    reads the text of the missing element. *)
Theorem init_fails_without_uuid :
  forall (order : SetOrder) (doc f : Element),
    In f (ET.findall "./gml:featureMember" CitiEnGov.the_namespaces doc) ->
    ET.find CitiEnGov.feature_uuid_path CitiEnGov.the_namespaces f = None ->
    let uuids := CitiEnGov.list_of_uuids CitiEnGov.the_namespaces doc in
    CitiEnGov.building_identifiers order CitiEnGov.the_namespaces doc
    = Ok (list_set order uuids)
    /\ (uuids = [] -> CitiEnGov.init order doc = Raise IndexError)
    /\ (uuids <> [] -> CitiEnGov.init order doc = Raise AttributeError).
Proof.
  intros order doc f Hin Hf uuids. split; [reflexivity|].
  unfold CitiEnGov.init, CitiEnGov.building_identifiers. cbn [bind]. fold uuids.
  split; intros Hu.
  - rewrite Hu, list_set_nil. reflexivity.
  - destruct (list_set order uuids) as [|u l] eqn:E.
    + destruct (list_set_not_nil order uuids Hu E).
    + cbn [Py.first bind]. unfold CitiEnGov.get_building_of.
      rewrite select_features_missing; [reflexivity|].
      intros Hall. rewrite Forall_forall in Hall.
      apply (Hall f Hin). exact Hf.
Qed.

Lemma init_fails_without_uuid_witness :
  CitiEnGov.building_identifiers nodup_order CitiEnGov.the_namespaces Sample.missing_uuid
  = Ok [Some "b-1"]
  /\ CitiEnGov.init nodup_order Sample.missing_uuid = Raise AttributeError.
Proof.
  destruct (init_fails_without_uuid nodup_order Sample.missing_uuid
              (Sample.feature_member [Sample.field "LIFESPAN_BEGINNING" "2012"]))
    as (Hids & _ & Hinit).
  - right. left. reflexivity.
  - reflexivity.
  - split; [reflexivity|]. apply Hinit. discriminate.
Defined.

(** C3 as stated fails: on a document whose second feature
    member has no [UUID] element, the extraction of the identifiers returns
    the identifier of the first member and skips the second. *)
Lemma identifiers_skip_member_without_uuid :
  In (Sample.feature_member [Sample.field "LIFESPAN_BEGINNING" "2012"])
     (ET.findall "./gml:featureMember" CitiEnGov.the_namespaces Sample.missing_uuid)
  /\ ET.find CitiEnGov.feature_uuid_path CitiEnGov.the_namespaces
       (Sample.feature_member [Sample.field "LIFESPAN_BEGINNING" "2012"]) = None
  /\ CitiEnGov.building_identifiers nodup_order CitiEnGov.the_namespaces Sample.missing_uuid
     = Ok [Some "b-1"].
Proof.
  split; [right; left; reflexivity|]. split; reflexivity.
Qed.

(** C9, as the code has it.  Every record a loop over a constructed document
    is given carries an identifier of [building_UUIDs], and its fragments are
    the feature members whose identifier (the text of their first [UUID]
    element) equals it, in document order.  The fragment list is not empty
    when every feature member has at most one [UUID] element.  A record is a
    value: [find] and [find_all] return what they found and nothing else. *)
Theorem records_group_feature_members :
  forall (order : SetOrder) (doc : Element) (ceg ceg' : CitiEnGov.t)
         (bs : list Building.t) (b : Building.t),
    CitiEnGov.init order doc = Ok ceg ->
    CitiEnGov.buildings ceg = Some (Ok bs, ceg') ->
    In b bs ->
    let ns := CitiEnGov.namespaces ceg in
    In (Building.UUID b) (CitiEnGov.building_UUIDs ceg)
    /\ Building.feature_list b
       = features_of ns (Building.UUID b) (CitiEnGov.feature_members ceg)
    /\ (forall f, In f (Building.feature_list b)
                  <-> In f (CitiEnGov.feature_members ceg)
                      /\ feature_uuid ns f = Building.UUID b)
    /\ (Forall (single_uuid ns) (CitiEnGov.feature_members ceg) ->
        Building.feature_list b <> []).
Proof.
  intros order doc ceg ceg' bs b Hinit Hbs Hb ns.
  destruct (loop_yields_records order doc ceg Hinit) as [ceg1 Hrun].
  rewrite Hrun in Hbs. injection Hbs as <- _.
  apply in_map_iff in Hb. destruct Hb as (u & <- & Hu).
  cbn [record_of Building.UUID Building.feature_list]. fold ns.
  split; [exact Hu|]. split; [reflexivity|]. split.
  - intros f. unfold features_of. rewrite filter_In, eqb_eq. reflexivity.
  - intros Hsingle E.
    destruct (init_Ok _ _ _ Hinit) as (Hns & Hfm & Hids & _ & _).
    rewrite Hids in Hu. apply list_set_In in Hu.
    rewrite list_of_uuids_members, <- Hfm in Hu.
    apply in_flat_map in Hu. destruct Hu as (f & Hf & Hin).
    apply in_map_iff in Hin. destruct Hin as (e & He & Hin).
    rewrite Forall_forall in Hsingle. specialize (Hsingle f Hf).
    unfold single_uuid in Hsingle. unfold ns in Hsingle. rewrite Hns in Hsingle.
    assert (Hfind : ET.find CitiEnGov.feature_uuid_path CitiEnGov.the_namespaces f = Some e).
    { unfold ET.find.
      destruct (ET.findall CitiEnGov.feature_uuid_path CitiEnGov.the_namespaces f)
        as [|e1 [|e2 l]]; cbn in *; [contradiction | | lia].
      destruct Hin as [->|[]]. reflexivity. }
    assert (Hmem : In f (features_of ns u (CitiEnGov.feature_members ceg))).
    { unfold features_of. apply filter_In. split; [exact Hf|].
      apply eqb_eq. unfold feature_uuid, ns. rewrite Hns, Hfind. exact He. }
    rewrite E in Hmem. destruct Hmem.
Qed.

Lemma records_group_feature_members_witness :
  exists ceg ceg' b1 b2,
    CitiEnGov.init nodup_order Sample.two_buildings = Ok ceg
    /\ CitiEnGov.buildings ceg = Some (Ok [b1; b2], ceg')
    /\ Building.UUID b2 = Some "b-1"
    /\ length (Building.feature_list b2) = 3
    /\ Building.feature_list b2 <> [].
Proof.
  assert (exists ceg, CitiEnGov.init nodup_order Sample.two_buildings = Ok ceg) as [ceg Hceg]
    by (eexists; vm_compute; reflexivity).
  assert (exists ceg' b1 b2,
             CitiEnGov.buildings ceg = Some (Ok [b1; b2], ceg')
             /\ Building.UUID b2 = Some "b-1"
             /\ length (Building.feature_list b2) = 3) as (ceg' & b1 & b2 & Hbs & Hid & Hlen).
  { vm_compute in Hceg. injection Hceg as <-.
    do 3 eexists. split; [vm_compute; reflexivity|]. split; reflexivity. }
  exists ceg, ceg', b1, b2. repeat split; try assumption.
  apply (records_group_feature_members nodup_order Sample.two_buildings ceg ceg'
           [b1; b2] b2 Hceg Hbs).
  - right. left. reflexivity.
  - vm_compute in Hceg. injection Hceg as <-.
    repeat constructor.
Defined.

(** C9 as stated fails: a feature member with the two [UUID]
    elements [a] and [b] gives the identifiers [a] and [b], and the record of
    [b] has no fragment, since the identifier of the member is [a]. *)
Lemma record_without_fragments :
  exists ceg ceg' b1 b2,
    CitiEnGov.init nodup_order Sample.two_uuids = Ok ceg
    /\ CitiEnGov.buildings ceg = Some (Ok [b1; b2], ceg')
    /\ Building.UUID b2 = Some "b"
    /\ Building.feature_list b2 = [].
Proof.
  do 4 eexists.
  split; [vm_compute; reflexivity|].
  split; [vm_compute; reflexivity|].
  split; reflexivity.
Qed.

(** ** The INSPIRE blocks *)

(** C2, on the code: when the beginning and the end of the construction
    are present, the end that is emitted is the timestamp of the beginning,
    whatever the end year is; and so for the renovation. *)
Theorem end_timestamp_repeats_beginning :
  forall (ts : string) (insp : Inspire.t) (bu : Building.t),
    Inspire.init ts = Ok insp ->
    (forall b e,
        Building.find bu "DATE_C_BEGINNING" = Some b ->
        Building.find bu "DATE_C_END" = Some e ->
        Inspire.date_of_construction insp bu
        = Ok [inspire_date (Inspire.timestamp_of (text b))
                (Some (Inspire.timestamp_of (text b)))])
    /\ (forall b e,
           Building.find bu "DATE_R_BEGINNING" = Some b ->
           Building.find bu "DATE_R_END" = Some e ->
           Inspire.date_of_renovation insp bu
           = Ok [inspire_date (Inspire.timestamp_of (text b))
                   (Some (Inspire.timestamp_of (text b)))]).
Proof.
  intros ts insp bu Hinit.
  destruct (Inspire_init_Ok _ _ Hinit) as [Hnss _].
  split; intros b e Hb He.
  - unfold Inspire.date_of_construction. rewrite Hnss, Hb, He.
    unfold SubElement. tags. reflexivity.
  - unfold Inspire.date_of_renovation. rewrite Hnss, Hb, He.
    unfold SubElement. tags. reflexivity.
Qed.

Lemma end_timestamp_repeats_beginning_witness :
  exists insp,
    Inspire.init "2024-05-01T12:00:00" = Ok insp
    /\ option_map text (Building.find Sample.dated "DATE_C_END") = Some (Some "1955")
    /\ Inspire.date_of_construction insp Sample.dated
       = Ok [inspire_date "1950-01-01T00:00:00" (Some "1950-01-01T00:00:00")]
    /\ option_map text (Building.find Sample.dated "DATE_R_END") = Some (Some "1995")
    /\ Inspire.date_of_renovation insp Sample.dated
       = Ok [inspire_date "1990-01-01T00:00:00" (Some "1990-01-01T00:00:00")].
Proof.
  assert (exists insp, Inspire.init "2024-05-01T12:00:00" = Ok insp) as [insp Hinsp]
    by (eexists; vm_compute; reflexivity).
  exists insp.
  destruct (end_timestamp_repeats_beginning _ insp Sample.dated Hinsp) as [HC HR].
  split; [exact Hinsp|].
  split; [reflexivity|].
  split; [exact (HC (Sample.field "DATE_C_BEGINNING" "1950")
                    (Sample.field "DATE_C_END" "1955") eq_refl eq_refl)|].
  split; [reflexivity|].
  exact (HR (Sample.field "DATE_R_BEGINNING" "1990")
            (Sample.field "DATE_R_END" "1995") eq_refl eq_refl).
Defined.

(** ** The geometry *)

Lemma select_member (member building name : string) (rest : list string)
  (kids : list Element) :
  ET.select (building :: name :: rest)
    (mkElement member [] None [mkElement building [] None kids])
  = flat_map (ET.select rest) (filter (fun c => String.eqb (tag c) name) kids).
Proof.
  cbn [ET.select children filter tag flat_map]. rewrite String.eqb_refl.
  cbn [flat_map children]. apply app_nil_r.
Qed.

Lemma inspire_coordinates self bu m :
  Inspire.nss self = Inspire.solver ->
  Inspire.translate_building self bu = Ok m ->
  exists co,
    Building.find bu geometry_path = Some co
    /\ ET.findall inspire_coordinates_path Inspire.inspire_ns m
       = [mkElement (gml32 "coordinates") (attrib co) (text co) []].
Proof.
  intros Hnss H.
  destruct (InspireBuilding.inspire_member_blocks _ _ _ Hnss H)
    as (b1 & b2 & b3 & b4 & b5 & b6 & b7 & b8 & b9 & b10 & b11 & b12 & H').
  destruct H' as (H1 & H2 & H3 & H4 & H5 & H6 & H7 & H8 & H9 & H10 & H11 & H12 & ->).
  destruct (InspireBuilding.geometry_2d_Ok _ _ _ Hnss H12) as (co & Hco & ->).
  exists co. split; [exact Hco|].
  unfold ET.findall.
  change (ET.steps Inspire.inspire_ns inspire_coordinates_path)
    with [bu_core2d "Building"; bu_core2d "geometry2D"; bu_base "BuildingGeometry2D";
          bu_base "geometry"; gml32 "Polygon"; gml32 "exterior"; gml32 "LinearRing";
          gml32 "coordinates"].
  rewrite select_member, !filter_app.
  rewrite (filter_all_tagged _ (bu_core2d "geometry2D") _
             (InspireFacts.begin_lifespan_version_tagged _ _ Hnss _ H1) eq_refl).
  rewrite (filter_all_tagged _ (bu_core2d "geometry2D") _
             (InspireFacts.condition_of_construction_tagged _ _ Hnss _ H2) eq_refl).
  rewrite (filter_all_tagged _ (bu_core2d "geometry2D") _
             (InspireFacts.date_of_construction_tagged _ _ Hnss _ H3) eq_refl).
  rewrite (filter_all_tagged _ (bu_core2d "geometry2D") _
             (InspireFacts.date_of_renovation_tagged _ _ Hnss _ H4) eq_refl).
  rewrite (filter_all_tagged _ (bu_core2d "geometry2D") _
             (InspireFacts.external_reference_tagged _ _ Hnss _ H5) eq_refl).
  rewrite (filter_all_tagged _ (bu_core2d "geometry2D") _
             (InspireFacts.height_above_ground_tagged _ _ Hnss _ H6) eq_refl).
  rewrite (filter_all_tagged _ (bu_core2d "geometry2D") _
             (InspireFacts.inspire_id_tagged _ _ Hnss _ H7) eq_refl).
  rewrite (filter_all_tagged _ (bu_core2d "geometry2D") _
             (InspireFacts.building_nature_tagged _ _ Hnss _ H8) eq_refl).
  rewrite (filter_all_tagged _ (bu_core2d "geometry2D") _
             (InspireBuilding.current_use_tagged _ _ _ Hnss H9) eq_refl).
  rewrite (filter_all_tagged _ (bu_core2d "geometry2D") _
             (InspireFacts.number_of_building_units_tagged _ _ Hnss _ H10) eq_refl).
  rewrite (filter_all_tagged _ (bu_core2d "geometry2D") _
             (InspireFacts.number_of_floors_tagged _ _ Hnss _ H11) eq_refl).
  reflexivity.
Qed.

Lemma citygml_coordinates self bu m :
  CityGML.nss self = CityGML.solver ->
  CityGML.translate_building self bu = Ok m ->
  exists co,
    Building.find bu geometry_path = Some co
    /\ ET.findall citygml_coordinates_path CityGML.city_gml_ns m
       = [mkElement (gml "coordinates") (attrib co) (text co) []].
Proof.
  intros Hnss H.
  destruct (CityGMLMember.citygml_member_blocks _ _ _ Hnss H)
    as (before & after & co & Hco & Hb & Ha & ->).
  exists co. split; [exact Hco|].
  unfold ET.findall.
  change (ET.steps CityGML.city_gml_ns citygml_coordinates_path)
    with [bldg "Building"; bldg "lod0FootPrint"; gml "MultiSurface"; gml "surfaceMember";
          gml "Polygon"; gml "outerBoundaryIs"; gml "LinearRing"; gml "coordinates"].
  rewrite select_member, filter_app. unfold none_tagged in Hb, Ha.
  rewrite Hb. cbn [app filter tag citygml_geometry].
  change (String.eqb (bldg "lod0FootPrint") (bldg "lod0FootPrint")) with true.
  cbv iota. rewrite Ha. reflexivity.
Qed.

(** The translation of a building does not depend on the collection built
    so far. *)
Lemma current_use_blocks_with_root self r uses :
  Inspire.current_use_blocks (Inspire.with_root self r) uses
  = Inspire.current_use_blocks self uses.
Proof.
  induction uses as [|use uses IH]; cbn [Inspire.current_use_blocks]; [reflexivity|].
  rewrite IH. reflexivity.
Qed.

Lemma Inspire_translate_building_with_root self r bu :
  Inspire.translate_building (Inspire.with_root self r) bu
  = Inspire.translate_building self bu.
Proof.
  assert (Hcu : Inspire.current_use (Inspire.with_root self r) bu
                = Inspire.current_use self bu).
  { unfold Inspire.current_use. destruct (Building.find bu "USE_M"); [|reflexivity].
    destruct (str_text_of _); cbn [bind]; [|reflexivity].
    apply current_use_blocks_with_root. }
  unfold Inspire.translate_building. rewrite Hcu. reflexivity.
Qed.

Lemma CityGML_translate_building_with_root self r bu :
  CityGML.translate_building (CityGML.with_root self r) bu
  = CityGML.translate_building self bu.
Proof. reflexivity. Qed.

(** The members of the output collection are the translations of the
    records, in the order of the loop. *)
Lemma Inspire_run_members bs :
  forall self self',
    run_body Inspire.translate_step bs self = Ok self' ->
    exists ms,
      children (Inspire.root self') = (children (Inspire.root self) ++ ms)%list
      /\ Forall2 (fun b m => Inspire.translate_building self b = Ok m) bs ms.
Proof.
  induction bs as [|b bs IH]; cbn [run_body]; intros self self' H.
  - injection H as <-. exists []. rewrite app_nil_r. split; constructor.
  - bind_inv H. unfold Inspire.translate_step in Ha. bind_inv Ha. injection Ha as <-.
    destruct (IH _ _ H) as (ms & Hkids & Hms).
    exists (a0 :: ms). cbn in Hkids. rewrite Hkids, <- app_assoc.
    split; [reflexivity|]. constructor; [exact Ha0|].
    revert Hms. apply Forall2_impl. intros b' m Hm.
    rewrite Inspire_translate_building_with_root in Hm. exact Hm.
Qed.

Lemma CityGML_run_members bs :
  forall self self',
    run_body CityGML.translate_step bs self = Ok self' ->
    exists ms,
      children (CityGML.root self') = (children (CityGML.root self) ++ ms)%list
      /\ Forall2 (fun b m => CityGML.translate_building self b = Ok m) bs ms.
Proof.
  induction bs as [|b bs IH]; cbn [run_body]; intros self self' H.
  - injection H as <-. exists []. rewrite app_nil_r. split; constructor.
  - bind_inv H. unfold CityGML.translate_step in Ha. bind_inv Ha. injection Ha as <-.
    destruct (IH _ _ H) as (ms & Hkids & Hms).
    exists (a0 :: ms). cbn in Hkids. rewrite Hkids, <- app_assoc.
    split; [reflexivity|]. constructor; [exact Ha0|].
    revert Hms. apply Forall2_impl. intros b' m Hm.
    rewrite CityGML_translate_building_with_root in Hm. exact Hm.
Qed.

Lemma Forall2_map_left {A B C : Type} (P : B -> C -> Prop) (f : A -> B) l1 l2 :
  Forall2 P (map f l1) l2 -> Forall2 (fun a c => P (f a) c) l1 l2.
Proof.
  revert l2. induction l1 as [|a l1 IH]; intros l2 H; inversion H; subst; constructor; auto.
Qed.

(** C7.  In the member either translation builds for a building, the path
    to the coordinates of the geometry block leads to exactly one element,
    and that element carries the attributes and the text of the coordinates
    element of the source, as they are.  So it is for every member of the
    output collection of a translation that succeeds: the members are those
    of the records of the identifiers, in order. *)
Theorem coordinates_copied_verbatim :
  forall (ts : string),
    (forall insp bu m,
        Inspire.init ts = Ok insp ->
        Inspire.translate_building insp bu = Ok m ->
        exists co,
          Building.find bu geometry_path = Some co
          /\ ET.findall inspire_coordinates_path Inspire.inspire_ns m
             = [mkElement (gml32 "coordinates") (attrib co) (text co) []])
    /\ (forall cgml bu m,
           CityGML.init = Ok cgml ->
           CityGML.translate_building cgml bu = Ok m ->
           exists co,
             Building.find bu geometry_path = Some co
             /\ ET.findall citygml_coordinates_path CityGML.city_gml_ns m
                = [mkElement (gml "coordinates") (attrib co) (text co) []])
    /\ (forall order doc ceg ceg' insp insp',
           CitiEnGov.init order doc = Ok ceg ->
           Inspire.init ts = Ok insp ->
           Inspire.translate insp ceg = Some (Ok insp', ceg') ->
           Forall2 (fun uuid m =>
                      exists co,
                        Building.find (record_of ceg uuid) geometry_path = Some co
                        /\ ET.findall inspire_coordinates_path Inspire.inspire_ns m
                           = [mkElement (gml32 "coordinates") (attrib co) (text co) []])
                   (CitiEnGov.building_UUIDs ceg) (children (Inspire.root insp')))
    /\ (forall order doc ceg ceg' cgml cgml',
           CitiEnGov.init order doc = Ok ceg ->
           CityGML.init = Ok cgml ->
           CityGML.translate cgml ceg = Some (Ok cgml', ceg') ->
           Forall2 (fun uuid m =>
                      exists co,
                        Building.find (record_of ceg uuid) geometry_path = Some co
                        /\ ET.findall citygml_coordinates_path CityGML.city_gml_ns m
                           = [mkElement (gml "coordinates") (attrib co) (text co) []])
                   (CitiEnGov.building_UUIDs ceg) (children (CityGML.root cgml'))).
Proof.
  intros ts. split; [|split; [|split]].
  - intros insp bu m Hinit H. destruct (Inspire_init_Ok _ _ Hinit) as [Hnss _].
    eapply inspire_coordinates; eauto.
  - intros cgml bu m Hinit H. destruct (CityGML_init_Ok _ Hinit) as [Hnss _].
    eapply citygml_coordinates; eauto.
  - intros order doc ceg ceg' insp insp' Hceg Hinit Htr.
    destruct (Inspire_init_Ok _ _ Hinit) as [Hnss Hroot].
    destruct (init_Ok _ _ _ Hceg) as (_ & _ & _ & _ & Hall).
    destruct (for_each_run Inspire.translate_step (CitiEnGov.calls ceg) ceg insp Hall
                (le_n _)) as [ceg1 Hrun].
    unfold Inspire.translate in Htr. rewrite Hrun in Htr. injection Htr as Hbody _.
    destruct (Inspire_run_members _ _ _ Hbody) as (ms & Hkids & Hms).
    rewrite Hroot in Hkids. cbn in Hkids. rewrite Hkids.
    rewrite (records_init _ _ _ Hceg) in Hms. apply Forall2_map_left in Hms.
    revert Hms. apply Forall2_impl. intros uuid m Hm.
    eapply inspire_coordinates; eauto.
  - intros order doc ceg ceg' cgml cgml' Hceg Hinit Htr.
    destruct (CityGML_init_Ok _ Hinit) as [Hnss Hroot].
    destruct (init_Ok _ _ _ Hceg) as (_ & _ & _ & _ & Hall).
    destruct (for_each_run CityGML.translate_step (CitiEnGov.calls ceg) ceg cgml Hall
                (le_n _)) as [ceg1 Hrun].
    unfold CityGML.translate in Htr. rewrite Hrun in Htr. injection Htr as Hbody _.
    destruct (CityGML_run_members _ _ _ Hbody) as (ms & Hkids & Hms).
    rewrite Hroot in Hkids. cbn in Hkids. rewrite Hkids.
    rewrite (records_init _ _ _ Hceg) in Hms. apply Forall2_map_left in Hms.
    revert Hms. apply Forall2_impl. intros uuid m Hm.
    eapply citygml_coordinates; eauto.
Qed.

Lemma coordinates_copied_verbatim_witness :
  exists insp cgml m1 m2,
    Inspire.init "2024-05-01T12:00:00" = Ok insp
    /\ Inspire.translate_building insp Sample.plain = Ok m1
    /\ ET.findall inspire_coordinates_path Inspire.inspire_ns m1
       = [mkElement (gml32 "coordinates") [("decimal", "."); ("cs", ","); ("ts", " ")]
            (Some "11.61,44.83 11.62,44.83 11.62,44.84 11.61,44.83") []]
    /\ CityGML.init = Ok cgml
    /\ CityGML.translate_building cgml Sample.plain = Ok m2
    /\ ET.findall citygml_coordinates_path CityGML.city_gml_ns m2
       = [mkElement (gml "coordinates") [("decimal", "."); ("cs", ","); ("ts", " ")]
            (Some "11.61,44.83 11.62,44.83 11.62,44.84 11.61,44.83") []].
Proof.
  assert (exists insp, Inspire.init "2024-05-01T12:00:00" = Ok insp) as [insp Hinsp]
    by (eexists; vm_compute; reflexivity).
  assert (exists cgml, CityGML.init = Ok cgml) as [cgml Hcgml]
    by (eexists; vm_compute; reflexivity).
  assert (exists m1, Inspire.translate_building insp Sample.plain = Ok m1) as [m1 H1].
  { vm_compute in Hinsp. injection Hinsp as <-. eexists. vm_compute. reflexivity. }
  assert (exists m2, CityGML.translate_building cgml Sample.plain = Ok m2) as [m2 H2].
  { vm_compute in Hcgml. injection Hcgml as <-. eexists. vm_compute. reflexivity. }
  destruct (coordinates_copied_verbatim "2024-05-01T12:00:00") as (TI & TC & _ & _).
  destruct (TI insp Sample.plain m1 Hinsp H1) as (co1 & Hco1 & Hm1).
  destruct (TC cgml Sample.plain m2 Hcgml H2) as (co2 & Hco2 & Hm2).
  vm_compute in Hco1, Hco2. injection Hco1 as <-. injection Hco2 as <-.
  exists insp, cgml, m1, m2. repeat split; assumption.
Defined.

(** ** The optional items of INSPIRE *)

Lemma flat_map_select_nil (l : list Element) : flat_map (ET.select []) l = l.
Proof. apply flat_map_singleton. Qed.

(** The children of the building element of a member, with the names of the
    children each block contributes. *)
Lemma inspire_children self bu m :
  Inspire.nss self = Inspire.solver ->
  Inspire.translate_building self bu = Ok m ->
  exists b1 b2 b3 b4 b5 b6 b7 b8 b9 b10 b11 co,
    m = mkElement "{http://www.opengis.net/wfs/2.0}member" [] None
          [mkElement (bu_core2d "Building") [] None
             (b1 ++ b2 ++ b3 ++ b4 ++ b5 ++ b6 ++ b7 ++ b8 ++ b9 ++ b10 ++ b11
              ++ [inspire_geometry co])%list]
    /\ (Inspire.begin_lifespan_version self bu = Ok b1
        /\ all_tagged (bu_base "beginLifespanVersion") b1)
    /\ (Inspire.condition_of_construction self bu = Ok b2
        /\ all_tagged (bu_base "conditionOfConstruction") b2)
    /\ (Inspire.date_of_construction self bu = Ok b3
        /\ all_tagged (bu_base "dateOfConstruction") b3)
    /\ (Inspire.date_of_renovation self bu = Ok b4
        /\ all_tagged (bu_base "dateOfConstruction") b4)
    /\ (Inspire.external_reference self bu = Ok b5
        /\ all_tagged (bu_base "externalReference") b5)
    /\ (Inspire.height_above_ground self bu = Ok b6
        /\ all_tagged (bu_base "heightAboveGround") b6)
    /\ (Inspire.inspire_id self bu = Ok b7
        /\ all_tagged (bu_base "inspireId") b7)
    /\ (Inspire.building_nature self bu = Ok b8
        /\ all_tagged (bu_base "buildingNature") b8)
    /\ (Inspire.current_use self bu = Ok b9
        /\ all_tagged (bu_base "currentUse") b9)
    /\ (Inspire.number_of_building_units self bu = Ok b10
        /\ all_tagged (bu_base "numberOfBuildingUnits") b10)
    /\ (Inspire.number_of_floors self bu = Ok b11
        /\ all_tagged (bu_base "numberOfFloorsAboveGround") b11).
Proof.
  intros Hnss H.
  destruct (InspireBuilding.inspire_member_blocks _ _ _ Hnss H)
    as (b1 & b2 & b3 & b4 & b5 & b6 & b7 & b8 & b9 & b10 & b11 & b12 & H').
  destruct H' as (H1 & H2 & H3 & H4 & H5 & H6 & H7 & H8 & H9 & H10 & H11 & H12 & ->).
  destruct (InspireBuilding.geometry_2d_Ok _ _ _ Hnss H12) as (co & Hco & ->).
  exists b1, b2, b3, b4, b5, b6, b7, b8, b9, b10, b11, co.
  split; [reflexivity|].
  repeat split; try assumption.
  - exact (InspireFacts.begin_lifespan_version_tagged _ _ Hnss _ H1).
  - exact (InspireFacts.condition_of_construction_tagged _ _ Hnss _ H2).
  - exact (InspireFacts.date_of_construction_tagged _ _ Hnss _ H3).
  - exact (InspireFacts.date_of_renovation_tagged _ _ Hnss _ H4).
  - exact (InspireFacts.external_reference_tagged _ _ Hnss _ H5).
  - exact (InspireFacts.height_above_ground_tagged _ _ Hnss _ H6).
  - exact (InspireFacts.inspire_id_tagged _ _ Hnss _ H7).
  - exact (InspireFacts.building_nature_tagged _ _ Hnss _ H8).
  - exact (InspireBuilding.current_use_tagged _ _ _ Hnss H9).
  - exact (InspireFacts.number_of_building_units_tagged _ _ Hnss _ H10).
  - exact (InspireFacts.number_of_floors_tagged _ _ Hnss _ H11).
Qed.

(** Reduces [inspire_items name m], for a literal [name] and a member [m]
    given by its blocks, to the children of that name of each block; the
    blocks of another name contribute none. *)
Ltac items name :=
  unfold inspire_items, ET.findall;
  match goal with
  | |- context [ET.steps ?ns ?p] =>
      change (ET.steps ns p) with [bu_core2d "Building"; bu_base name]
  end;
  rewrite select_member, flat_map_select_nil, !filter_app;
  repeat match goal with
    | T : all_tagged ?n ?b |- context [filter _ ?b] =>
        rewrite (filter_all_tagged n (bu_base name) b T eq_refl)
    end;
  cbn [app filter tag inspire_geometry].

(** Which elements a block gives when its attribute is absent. *)
Lemma inspire_blocks_of_absent_attributes self bu :
  Inspire.nss self = Inspire.solver ->
  (Building.find bu "CONDITION" = None ->
   Inspire.condition_of_construction self bu
   = Ok [mkElement (bu_base "conditionOfConstruction") [] None []])
  /\ (Building.find bu "DATE_C_BEGINNING" = None ->
      Inspire.date_of_construction self bu = Ok [])
  /\ (Building.find bu "DATE_R_BEGINNING" = None ->
      Inspire.date_of_renovation self bu = Ok [])
  /\ (Building.find bu "EXT_REF_REFERENCE" = None ->
      Inspire.external_reference self bu = Ok [])
  /\ (Building.find bu "HEIGHT_HEIGHT_VAL" = None ->
      Inspire.height_above_ground self bu = Ok [])
  /\ (Building.find bu "BUILDINGTYPE" = None ->
      Inspire.building_nature self bu = Ok [])
  /\ (Building.find bu "USE_M" = None ->
      Inspire.current_use self bu = Ok [])
  /\ (Building.find bu "UNITS" = None ->
      Inspire.number_of_building_units self bu = Ok [])
  /\ (Building.find bu "FLOORS" = None ->
      Inspire.number_of_floors self bu = Ok []).
Proof.
  intros Hnss.
  unfold Inspire.condition_of_construction, Inspire.date_of_construction,
    Inspire.date_of_renovation, Inspire.external_reference,
    Inspire.height_above_ground, Inspire.building_nature, Inspire.current_use,
    Inspire.number_of_building_units, Inspire.number_of_floors.
  rewrite Hnss.
  repeat split; intros ->; reflexivity.
Qed.

(** C8, as the code has it.  In the member of a building, the element
    [conditionOfConstruction] is there also when the attribute CONDITION is
    absent, and is empty then: no attribute, no text, no child.  The other
    optional items have no element when their attribute is absent: the
    external reference, the height above ground, the building nature, the
    current use, the numbers of units and of floors.  The two dates are
    written under one name: the elements [dateOfConstruction] of the member
    are those of the construction block followed by those of the renovation
    block; the construction block gives one element when the building has
    DATE_C_BEGINNING and none otherwise, the renovation block one element
    when it has DATE_R_BEGINNING and none otherwise, so that there is no
    such element when both attributes are absent. *)
Theorem optional_items_follow_their_attribute :
  forall (ts : string) (insp : Inspire.t) (bu : Building.t) (m : Element),
    Inspire.init ts = Ok insp ->
    Inspire.translate_building insp bu = Ok m ->
    (Building.find bu "CONDITION" = None ->
     inspire_items "conditionOfConstruction" m
     = [mkElement (bu_base "conditionOfConstruction") [] None []])
    /\ (Building.find bu "DATE_C_BEGINNING" = None ->
        Building.find bu "DATE_R_BEGINNING" = None ->
        inspire_items "dateOfConstruction" m = [])
    /\ (Building.find bu "EXT_REF_REFERENCE" = None ->
        inspire_items "externalReference" m = [])
    /\ (Building.find bu "HEIGHT_HEIGHT_VAL" = None ->
        inspire_items "heightAboveGround" m = [])
    /\ (Building.find bu "BUILDINGTYPE" = None ->
        inspire_items "buildingNature" m = [])
    /\ (Building.find bu "USE_M" = None ->
        inspire_items "currentUse" m = [])
    /\ (Building.find bu "UNITS" = None ->
        inspire_items "numberOfBuildingUnits" m = [])
    /\ (Building.find bu "FLOORS" = None ->
        inspire_items "numberOfFloorsAboveGround" m = [])
    /\ (exists construction renovation,
           Inspire.date_of_construction insp bu = Ok construction
           /\ Inspire.date_of_renovation insp bu = Ok renovation
           /\ inspire_items "dateOfConstruction" m = (construction ++ renovation)%list
           /\ (Building.find bu "DATE_C_BEGINNING" = None -> construction = [])
           /\ (Building.find bu "DATE_R_BEGINNING" = None -> renovation = [])
           /\ (Building.find bu "DATE_C_BEGINNING" <> None -> length construction = 1)
           /\ (Building.find bu "DATE_R_BEGINNING" <> None -> length renovation = 1)).
Proof.
  intros ts insp bu m Hinit H.
  destruct (Inspire_init_Ok _ _ Hinit) as [Hnss _].
  destruct (inspire_children _ _ _ Hnss H)
    as (b1 & b2 & b3 & b4 & b5 & b6 & b7 & b8 & b9 & b10 & b11 & co & Hm & H').
  destruct H' as ([H1 T1] & [H2 T2] & [H3 T3] & [H4 T4] & [H5 T5] & [H6 T6] & [H7 T7]
                  & [H8 T8] & [H9 T9] & [H10 T10] & [H11 T11]).
  destruct (inspire_blocks_of_absent_attributes insp bu Hnss)
    as (A2 & A3 & A4 & A5 & A6 & A8 & A9 & A10 & A11).
  subst m. repeat split.
  - intros Hn. rewrite (A2 Hn) in H2. injection H2 as <-.
    items "conditionOfConstruction". reflexivity.
  - intros Hc Hr. rewrite (A3 Hc) in H3. rewrite (A4 Hr) in H4.
    injection H3 as <-. injection H4 as <-.
    items "dateOfConstruction". reflexivity.
  - intros Hn. rewrite (A5 Hn) in H5. injection H5 as <-.
    items "externalReference". reflexivity.
  - intros Hn. rewrite (A6 Hn) in H6. injection H6 as <-.
    items "heightAboveGround". reflexivity.
  - intros Hn. rewrite (A8 Hn) in H8. injection H8 as <-.
    items "buildingNature". reflexivity.
  - intros Hn. rewrite (A9 Hn) in H9. injection H9 as <-.
    items "currentUse". reflexivity.
  - intros Hn. rewrite (A10 Hn) in H10. injection H10 as <-.
    items "numberOfBuildingUnits". reflexivity.
  - intros Hn. rewrite (A11 Hn) in H11. injection H11 as <-.
    items "numberOfFloorsAboveGround". reflexivity.
  - exists b3, b4. split; [exact H3|]. split; [exact H4|]. split.
    + items "dateOfConstruction".
      rewrite (filter_all_tagged_same _ _ T3), (filter_all_tagged_same _ _ T4).
      rewrite app_nil_r. reflexivity.
    + split; [intros Hn; rewrite (A3 Hn) in H3; congruence|].
      split; [intros Hn; rewrite (A4 Hn) in H4; congruence|].
      split; intros Hn.
      * unfold Inspire.date_of_construction in H3. rewrite Hnss in H3.
        destruct (Building.find bu "DATE_C_BEGINNING") eqn:E; [|congruence].
        crunch H3; injection H3 as <-; reflexivity.
      * unfold Inspire.date_of_renovation in H4. rewrite Hnss in H4.
        destruct (Building.find bu "DATE_R_BEGINNING") eqn:E; [|congruence].
        crunch H4; injection H4 as <-; reflexivity.
Qed.

Lemma optional_items_follow_their_attribute_witness :
  exists insp m,
    Inspire.init "2024-05-01T12:00:00" = Ok insp
    /\ Inspire.translate_building insp Sample.plain = Ok m
    /\ inspire_items "conditionOfConstruction" m
       = [mkElement (bu_base "conditionOfConstruction") [] None []]
    /\ inspire_items "dateOfConstruction" m = []
    /\ inspire_items "externalReference" m = []
    /\ inspire_items "heightAboveGround" m = []
    /\ inspire_items "buildingNature" m = []
    /\ inspire_items "currentUse" m = []
    /\ inspire_items "numberOfBuildingUnits" m = []
    /\ inspire_items "numberOfFloorsAboveGround" m = []
    /\ exists m' renovation,
        Inspire.translate_building insp Sample.renovating = Ok m'
        /\ Building.find Sample.renovating "DATE_C_BEGINNING" = None
        /\ inspire_items "dateOfConstruction" m' = renovation
        /\ length renovation = 1.
Proof.
  assert (exists insp, Inspire.init "2024-05-01T12:00:00" = Ok insp) as [insp Hinsp]
    by (eexists; vm_compute; reflexivity).
  assert (exists m, Inspire.translate_building insp Sample.plain = Ok m) as [m Hm].
  { vm_compute in Hinsp. injection Hinsp as <-. eexists. vm_compute. reflexivity. }
  assert (exists m', Inspire.translate_building insp Sample.renovating = Ok m') as [m' Hm'].
  { vm_compute in Hinsp. injection Hinsp as <-. eexists. vm_compute. reflexivity. }
  exists insp, m.
  destruct (optional_items_follow_their_attribute _ insp Sample.plain m Hinsp Hm)
    as (T1 & T2 & T3 & T4 & T5 & T6 & T7 & T8 & _).
  destruct (optional_items_follow_their_attribute _ insp Sample.renovating m' Hinsp Hm')
    as (_ & _ & _ & _ & _ & _ & _ & _ & D).
  destruct D as (construction & renovation & _ & _ & Hitems & Hc & _ & _ & Hr).
  split; [exact Hinsp|]. split; [exact Hm|].
  split; [apply T1; reflexivity|].
  split; [apply T2; reflexivity|].
  split; [apply T3; reflexivity|].
  split; [apply T4; reflexivity|].
  split; [apply T5; reflexivity|].
  split; [apply T6; reflexivity|].
  split; [apply T7; reflexivity|].
  split; [apply T8; reflexivity|].
  exists m', renovation. split; [exact Hm'|]. split; [reflexivity|]. split.
  - rewrite Hitems, (Hc eq_refl). reflexivity.
  - apply Hr. discriminate.
Defined.

(** C8 as stated fails: a building without the attribute
    CONDITION has a [conditionOfConstruction] element in its output. *)
Lemma condition_element_without_condition :
  exists insp m,
    Inspire.init "2024-05-01T12:00:00" = Ok insp
    /\ Building.find Sample.plain "CONDITION" = None
    /\ Inspire.translate_building insp Sample.plain = Ok m
    /\ length (inspire_items "conditionOfConstruction" m) = 1.
Proof.
  do 2 eexists.
  split; [vm_compute; reflexivity|].
  split; [reflexivity|].
  split; [vm_compute; reflexivity|].
  reflexivity.
Qed.

Lemma Inspire_init_dicts ts insp :
  Inspire.init ts = Ok insp ->
  Inspire.nss insp = Inspire.solver
  /\ Inspire.condition_of_construction_dict insp
     = [("functional",
         "http://inspire.ec.europa.eu/codelist/ConditionOfConstructionValue/functional")]
  /\ Inspire.elevation_reference_dict insp
     = [("generalroof",
         "http://inspire.ec.europa.eu/codelist/ElevationReferenceValue/generalRoof")]
  /\ Inspire.height_status_dict insp
     = [("stimata", "http://inspire.ec.europa.eu/codelist/HeightStatusValue/estimated")]
  /\ Inspire.current_use_dict insp
     = [("ausiliario", "http://inspire.ec.europa.eu/codelist/CurrentUseValue/ancillary");
        ("negozio", "http://inspire.ec.europa.eu/codelist/CurrentUseValue/trade");
        ("residenziale", "http://inspire.ec.europa.eu/codelist/CurrentUseValue/residential");
        ("magazzino", "http://inspire.ec.europa.eu/codelist/CurrentUseValue/trade");
        ("laboratorio", "http://inspire.ec.europa.eu/codelist/CurrentUseValue/industrial")].
Proof.
  unfold Inspire.init. intros H. crunch H. injection H as <-. repeat split.
Qed.

(** ** The height above ground of INSPIRE *)



(** ** Splitting the current use *)

Lemma free_of_app chars s t :
  free_of chars (s ++ t) = free_of chars s && free_of chars t.
Proof.
  induction s as [|c s IH]; cbn; [reflexivity|]. rewrite IH. apply andb_assoc.
Qed.

Lemma free_of_sub chars chars' s :
  (forall c, Py.mem_char c chars' = true -> Py.mem_char c chars = true) ->
  free_of chars s = true -> free_of chars' s = true.
Proof.
  intros Hsub. induction s as [|c s IH]; cbn; [reflexivity|].
  intros H. apply andb_true_iff in H. destruct H as [Hc Hs].
  rewrite (IH Hs), andb_true_r.
  destruct (Py.mem_char c chars') eqn:E; [|reflexivity].
  rewrite (Hsub _ E) in Hc. discriminate.
Qed.

Lemma mem_char_one c d : Py.mem_char c (String d EmptyString) = Ascii.eqb c d.
Proof. cbn. apply orb_false_r. Qed.

Lemma split_free s : free_of "," s = true -> Py.split "," s = [s].
Proof.
  induction s as [|c s IH]; cbn [free_of Py.split]; [reflexivity|].
  rewrite mem_char_one. intros H. apply andb_true_iff in H. destruct H as [Hc Hs].
  apply negb_true_iff in Hc. rewrite Hc, (IH Hs). reflexivity.
Qed.

Lemma split_app s rest :
  free_of "," s = true -> Py.split "," (s ++ String "," rest) = s :: Py.split "," rest.
Proof.
  induction s as [|c s IH]; cbn [free_of Py.split String.append].
  - reflexivity.
  - rewrite mem_char_one. intros H. apply andb_true_iff in H. destruct H as [Hc Hs].
    apply negb_true_iff in Hc. rewrite Hc, (IH Hs). reflexivity.
Qed.

Lemma split_concat parts :
  parts <> [] -> Forall (fun s => free_of "," s = true) parts ->
  Py.split "," (String.concat "," parts) = parts.
Proof.
  intros Hne Hall. induction Hall as [|s parts Hs Hall IH]; [congruence|].
  destruct parts as [|s' parts].
  - cbn. apply split_free. exact Hs.
  - change (String.concat "," (s :: s' :: parts))
      with (s ++ String "," (String.concat "," (s' :: parts))).
    rewrite (split_app _ _ Hs), IH; [reflexivity | discriminate].
Qed.

Lemma partition_app t r :
  free_of "(" t = true -> Py.partition "(" (t ++ String "(" r) = (t, "(", r).
Proof.
  induction t as [|c t IH]; cbn [free_of Py.partition String.append].
  - reflexivity.
  - rewrite mem_char_one. intros H. apply andb_true_iff in H. destruct H as [Hc Ht].
    apply negb_true_iff in Hc. rewrite Hc, (IH Ht). reflexivity.
Qed.

Lemma lstrip_free chars p :
  free_of chars p = true -> Py.lstrip (fun c => Py.mem_char c chars) p = p.
Proof.
  destruct p as [|c p]; cbn; [reflexivity|].
  intros H. apply andb_true_iff in H. destruct H as [Hc _].
  apply negb_true_iff in Hc. rewrite Hc. reflexivity.
Qed.

Lemma rstrip_suffix p :
  free_of "%)" p = true ->
  Py.rstrip (fun c => Py.mem_char c "%)") (p ++ "%)") = p.
Proof.
  induction p as [|c p IH]; [reflexivity|].
  cbn [free_of String.append Py.rstrip]. intros H.
  apply andb_true_iff in H. destruct H as [Hc Hp].
  apply negb_true_iff in Hc. rewrite (IH Hp), Hc.
  destruct p; reflexivity.
Qed.

Lemma strip_percent p :
  free_of "%)" p = true -> Py.strip_chars "%)" (p ++ "%)") = p.
Proof.
  intros H. unfold Py.strip_chars. rewrite (rstrip_suffix _ H). apply lstrip_free, H.
Qed.

(** What the code reads from a plain entry. *)
Lemma use_entry_read t p :
  plain_entry (t, p) -> use_term (use_entry t p) = t /\ use_percent (use_entry t p) = p.
Proof.
  intros [Ht Hp]. cbn [fst snd] in Ht, Hp.
  assert (Ht' : free_of "(" t = true).
  { revert Ht. apply free_of_sub. intros c. cbn. rewrite !orb_false_r.
    intros ->. apply orb_true_r. }
  assert (Hp' : free_of "%)" p = true).
  { revert Hp. apply free_of_sub. intros c. cbn. rewrite !orb_false_r.
    intros ->. apply orb_true_r. }
  unfold use_term, use_percent, use_entry.
  change (t ++ "(" ++ p ++ "%)") with (t ++ String "(" (p ++ "%)")).
  rewrite (partition_app _ _ Ht'). cbn [fst snd].
  split; [reflexivity | apply strip_percent, Hp'].
Qed.

Lemma use_entry_free t p : plain_entry (t, p) -> free_of "," (use_entry t p) = true.
Proof.
  intros [Ht Hp]. cbn [fst snd] in Ht, Hp.
  unfold use_entry. rewrite !free_of_app.
  apply andb_true_iff. split; [|apply andb_true_iff; split; [reflexivity|]].
  - revert Ht. apply free_of_sub. intros c. cbn. rewrite !orb_false_r.
    intros ->. reflexivity.
  - apply andb_true_iff. split; [|reflexivity].
    revert Hp. apply free_of_sub. intros c. cbn. rewrite !orb_false_r.
    intros ->. reflexivity.
Qed.

(** The block of one entry. *)
Lemma current_use_block_eq self use :
  Inspire.nss self = Inspire.solver ->
  Inspire.current_use_block self use
  = match Py.get (use_term use) (Inspire.current_use_dict self) with
    | Some uri => Ok (inspire_use uri (use_percent use))
    | None => Raise (KeyError (Some (use_term use)))
    end.
Proof.
  intros Hnss. unfold Inspire.current_use_block, use_term, use_percent.
  destruct (Py.partition "(" use) as [[curr_use sep] percent]. cbn [fst snd].
  rewrite Hnss. unfold Py.getitem.
  destruct (Py.get curr_use (Inspire.current_use_dict self)); [|reflexivity].
  unfold SubElement, href. tags. reflexivity.
Qed.

(** One block for each entry, in order, when every term is in the code-list. *)
Lemma current_use_blocks_Ok self uses blocks :
  Inspire.nss self = Inspire.solver ->
  Inspire.current_use_blocks self uses = Ok blocks ->
  Forall2 (fun use block =>
             exists uri,
               Py.get (use_term use) (Inspire.current_use_dict self) = Some uri
               /\ block = inspire_use uri (use_percent use))
          uses blocks.
Proof.
  intros Hnss. revert blocks. induction uses as [|use uses IH]; cbn; intros blocks H.
  - injection H as <-. constructor.
  - bind_inv H. bind_inv H. injection H as <-.
    constructor; [|exact (IH _ Ha0)].
    rewrite (current_use_block_eq _ _ Hnss) in Ha.
    destruct (Py.get (use_term use) (Inspire.current_use_dict self)) as [uri|];
      [|discriminate].
    injection Ha as <-. exists uri. split; reflexivity.
Qed.

Lemma current_use_blocks_resolved self uses uris :
  Inspire.nss self = Inspire.solver ->
  Forall2 (fun use uri => Py.get (use_term use) (Inspire.current_use_dict self) = Some uri)
          uses uris ->
  Inspire.current_use_blocks self uses
  = Ok (map (fun p => inspire_use (snd p) (use_percent (fst p))) (combine uses uris)).
Proof.
  intros Hnss. induction 1 as [|use uri uses uris Hget _ IH]; cbn; [reflexivity|].
  rewrite (current_use_block_eq _ _ Hnss), Hget, IH. reflexivity.
Qed.

Lemma current_use_blocks_unresolved self uses :
  Inspire.nss self = Inspire.solver ->
  Exists (fun use => Py.get (use_term use) (Inspire.current_use_dict self) = None) uses ->
  exists use,
    In use uses
    /\ Py.get (use_term use) (Inspire.current_use_dict self) = None
    /\ Inspire.current_use_blocks self uses = Raise (KeyError (Some (use_term use))).
Proof.
  intros Hnss. induction uses as [|use uses IH]; intros Hex.
  - inversion Hex.
  - cbn [Inspire.current_use_blocks]. rewrite (current_use_block_eq _ _ Hnss).
    destruct (Py.get (use_term use) (Inspire.current_use_dict self)) as [uri|] eqn:E.
    + assert (Hex' : Exists (fun use => Py.get (use_term use)
                                          (Inspire.current_use_dict self) = None) uses).
      { inversion Hex; subst; [congruence | assumption]. }
      destruct (IH Hex') as (u & Hin & Hget & Hraise).
      exists u. split; [right; exact Hin|]. split; [exact Hget|].
      cbn [bind]. rewrite Hraise. reflexivity.
    + exists use. split; [left; reflexivity|]. split; [exact E | reflexivity].
Qed.

Lemma current_use_blocks_entries self entries uris :
  Inspire.nss self = Inspire.solver ->
  Forall plain_entry entries ->
  Forall2 (fun p uri => Py.get (fst p) (Inspire.current_use_dict self) = Some uri)
          entries uris ->
  Inspire.current_use_blocks self (map (fun p => use_entry (fst p) (snd p)) entries)
  = Ok (map (fun q => inspire_use (snd q) (snd (fst q))) (combine entries uris)).
Proof.
  intros Hnss Hplain H. induction H as [|[t p] uri entries uris Hget _ IH];
    cbn [map combine Inspire.current_use_blocks fst snd]; [reflexivity|].
  inversion Hplain as [|? ? Hp Hrest]; subst.
  destruct (use_entry_read t p Hp) as [Ht Hpc].
  rewrite (current_use_block_eq _ _ Hnss), Ht, Hpc. cbn [fst] in Hget.
  rewrite Hget. cbn [bind]. rewrite (IH Hrest). reflexivity.
Qed.

(** C5.  For a building with the multi-use attribute, the text is split on
    commas and every entry gives one block, in order: the term before the
    first [(] resolved by the current-use code-list, and the rest of the
    entry stripped of [%] and [)] as percentage text; a term that is not in
    the code-list makes the block fail with the [KeyError] of that term.
    For a text made of entries [term(percent%)] joined by commas, the blocks
    carry the resolved terms and the percents of the entries. *)
Theorem current_use_one_block_per_entry :
  forall (ts : string) (insp : Inspire.t) (bu : Building.t) (e : Element) (use_m : string),
    Inspire.init ts = Ok insp ->
    Building.find bu "USE_M" = Some e ->
    text e = Some use_m ->
    let codes := Inspire.current_use_dict insp in
    (forall blocks,
        Inspire.current_use insp bu = Ok blocks ->
        Forall2 (fun use block =>
                   exists uri,
                     Py.get (use_term use) codes = Some uri
                     /\ block = inspire_use uri (use_percent use))
                (Py.split "," use_m) blocks)
    /\ (forall uris,
           Forall2 (fun use uri => Py.get (use_term use) codes = Some uri)
                   (Py.split "," use_m) uris ->
           Inspire.current_use insp bu
           = Ok (map (fun p => inspire_use (snd p) (use_percent (fst p)))
                   (combine (Py.split "," use_m) uris)))
    /\ (Exists (fun use => Py.get (use_term use) codes = None) (Py.split "," use_m) ->
        exists use,
          In use (Py.split "," use_m)
          /\ Py.get (use_term use) codes = None
          /\ Inspire.current_use insp bu = Raise (KeyError (Some (use_term use))))
    /\ (forall entries uris,
           entries <> [] ->
           Forall plain_entry entries ->
           use_m = String.concat "," (map (fun p => use_entry (fst p) (snd p)) entries) ->
           Forall2 (fun p uri => Py.get (fst p) codes = Some uri) entries uris ->
           Inspire.current_use insp bu
           = Ok (map (fun q => inspire_use (snd q) (snd (fst q))) (combine entries uris))).
Proof.
  intros ts insp bu e use_m Hinit He Ht codes.
  destruct (Inspire_init_Ok _ _ Hinit) as [Hnss _].
  assert (Hcu : Inspire.current_use insp bu
                = Inspire.current_use_blocks insp (Py.split "," use_m)).
  { unfold Inspire.current_use. rewrite He. cbn [str_text_of]. rewrite Ht. reflexivity. }
  rewrite Hcu. repeat split.
  - intros blocks H. exact (current_use_blocks_Ok _ _ _ Hnss H).
  - intros uris H. exact (current_use_blocks_resolved _ _ _ Hnss H).
  - intros H. exact (current_use_blocks_unresolved _ _ Hnss H).
  - intros entries uris Hne Hplain -> Hres.
    rewrite split_concat.
    + exact (current_use_blocks_entries _ _ _ Hnss Hplain Hres).
    + destruct entries; [congruence | discriminate].
    + apply Forall_map. revert Hplain. apply Forall_impl.
      intros [t p] Hp. apply use_entry_free. exact Hp.
Qed.

Lemma current_use_one_block_per_entry_witness :
  exists insp,
    Inspire.init "2024-05-01T12:00:00" = Ok insp
    /\ option_map text (Building.find Sample.mixed_use "USE_M")
       = Some (Some "residenziale(80%),negozio(20%)")
    /\ Inspire.current_use insp Sample.mixed_use
       = Ok [inspire_use "http://inspire.ec.europa.eu/codelist/CurrentUseValue/residential"
               "80";
             inspire_use "http://inspire.ec.europa.eu/codelist/CurrentUseValue/trade" "20"].
Proof.
  assert (exists insp, Inspire.init "2024-05-01T12:00:00" = Ok insp) as [insp Hinsp]
    by (eexists; vm_compute; reflexivity).
  exists insp. split; [exact Hinsp|]. split; [reflexivity|].
  destruct (Inspire_init_dicts _ _ Hinsp) as (_ & _ & _ & _ & Hcodes).
  destruct (current_use_one_block_per_entry _ insp Sample.mixed_use
              (Sample.field "USE_M" "residenziale(80%),negozio(20%)")
              "residenziale(80%),negozio(20%)" Hinsp eq_refl eq_refl)
    as (_ & _ & _ & T).
  apply (T [("residenziale", "80"); ("negozio", "20")]
           ["http://inspire.ec.europa.eu/codelist/CurrentUseValue/residential";
            "http://inspire.ec.europa.eu/codelist/CurrentUseValue/trade"]).
  - discriminate.
  - repeat constructor.
  - reflexivity.
  - rewrite Hcodes. repeat constructor.
Defined.

(** ** The energy demand of CityGML *)

Lemma all_some_map (ys : list string) : Py.all_some (map Some ys) = Some ys.
Proof. induction ys as [|y ys IH]; cbn; [reflexivity | now rewrite IH]. Qed.

Lemma sorted_some (ys : list string) :
  Py.sorted (map Some ys) = Ok (map Some (Py.sort ys)).
Proof.
  destruct ys as [|a [|b r]]; try reflexivity.
  unfold Py.sorted. cbn [map].
  change (Some a :: Some b :: map Some r) with (map Some (a :: b :: r)).
  rewrite all_some_map. reflexivity.
Qed.

Lemma first_map {A B : Type} (f : A -> B) (l : list A) (x : A) :
  Py.first l = Ok x -> Py.first (map f l) = Ok (f x).
Proof. destruct l; cbn; [discriminate | now intros [= ->]]. Qed.

Lemma last_map {A B : Type} (f : A -> B) (l : list A) (x : A) :
  Py.last l = Ok x -> Py.last (map f l) = Ok (f x).
Proof.
  unfold Py.last. rewrite <- map_rev.
  destruct (List.rev l); cbn; [discriminate | now intros [= ->]].
Qed.

(** The dict of the years: a year that occurs once has its value. *)
Lemma get_set_same {V : Type} (k : option string) (v : V) d :
  Py.assoc_get Py.eqb k (Py.assoc_set Py.eqb k v d) = Some v.
Proof.
  induction d as [|[k' v'] d IH]; cbn.
  - rewrite (proj2 (eqb_eq k k) eq_refl). reflexivity.
  - destruct (Py.eqb k k') eqn:E; cbn; rewrite E; [reflexivity | exact IH].
Qed.

Lemma get_set_other {V : Type} (k k0 : option string) (v : V) d :
  k <> k0 ->
  Py.assoc_get Py.eqb k (Py.assoc_set Py.eqb k0 v d) = Py.assoc_get Py.eqb k d.
Proof.
  intros Hne.
  assert (Hk : Py.eqb k k0 = false).
  { destruct (Py.eqb k k0) eqn:E; [|reflexivity]. apply eqb_eq in E. contradiction. }
  induction d as [|[k' v'] d IH]; cbn.
  - rewrite Hk. reflexivity.
  - destruct (Py.eqb k0 k') eqn:E; cbn.
    + apply eqb_eq in E. subst k'. rewrite Hk. reflexivity.
    + rewrite IH. reflexivity.
Qed.

Lemma get_fold_other {V : Type} (k : option string) (items : list (option string * V)) :
  forall d,
    ~ In k (map fst items) ->
    Py.assoc_get Py.eqb k
      (fold_left (fun d kv => Py.assoc_set Py.eqb (fst kv) (snd kv) d) items d)
    = Py.assoc_get Py.eqb k d.
Proof.
  induction items as [|[k0 v0] items IH]; intros d Hnotin; cbn; [reflexivity|].
  rewrite IH; [|intros Hin; apply Hnotin; right; exact Hin].
  apply get_set_other. intros ->. apply Hnotin. left. reflexivity.
Qed.

Lemma get_of_items {V : Type} (items : list (option string * V)) k v :
  NoDup (map fst items) -> In (k, v) items ->
  Py.assoc_get Py.eqb k (Py.assoc_of_items Py.eqb items) = Some v.
Proof.
  unfold Py.assoc_of_items. generalize (@nil (option string * V)).
  induction items as [|[k0 v0] items IH]; intros d Hnd Hin; [destruct Hin|].
  cbn [map fst] in Hnd. inversion Hnd as [|? ? Hnotin Hnd']; subst.
  cbn [fold_left fst snd]. destruct Hin as [[= -> ->]|Hin].
  - rewrite (get_fold_other _ _ _ Hnotin). apply get_set_same.
  - apply IH; assumption.
Qed.

Lemma formatted_values_Ok year_values (ps : list (string * option string)) :
  (forall p, In p ps ->
             Py.assoc_get Py.eqb (Some (fst p)) year_values = Some (snd p)) ->
  CityGML.formatted_values year_values (map (fun p => Some (fst p)) ps)
  = Ok (map (fun p => Py.str (snd p) ++ " ") ps).
Proof.
  induction ps as [|p ps IH]; intros H; cbn; [reflexivity|].
  rewrite (H p (or_introl eq_refl)). cbn [bind].
  rewrite IH; [reflexivity|]. intros q Hq. apply H. right. exact Hq.
Qed.

(** Sorting the pairs by year sorts the years. *)
Lemma insert_by_year_fst p l :
  map fst (insert_by_year p l) = Py.insert (fst p) (map fst l).
Proof.
  induction l as [|q l IH]; cbn; [reflexivity|].
  destruct (String.leb (fst p) (fst q)); cbn; [reflexivity | now rewrite IH].
Qed.

Lemma sort_by_year_fst l : map fst (sort_by_year l) = Py.sort (map fst l).
Proof.
  induction l as [|p l IH]; cbn; [reflexivity|].
  rewrite insert_by_year_fst, IH. reflexivity.
Qed.

Lemma insert_by_year_In p q l : In q (insert_by_year p l) <-> q = p \/ In q l.
Proof.
  induction l as [|r l IH]; cbn.
  - intuition congruence.
  - destruct (String.leb (fst p) (fst r)); cbn; [intuition congruence|].
    rewrite IH. intuition congruence.
Qed.

Lemma sort_by_year_In q l : In q (sort_by_year l) <-> In q l.
Proof.
  induction l as [|p l IH]; cbn; [reflexivity|].
  rewrite insert_by_year_In, IH. intuition congruence.
Qed.

Lemma combine_years (ps : list (string * option string)) :
  combine (map Some (map fst ps)) (map snd ps) = map (fun p => (Some (fst p), snd p)) ps.
Proof. induction ps as [|p ps IH]; cbn; [reflexivity | now rewrite IH]. Qed.

Lemma NoDup_years (ps : list (string * option string)) :
  NoDup (map fst ps) -> NoDup (map (fun p => Some (fst p)) ps).
Proof.
  induction ps as [|p ps IH]; cbn; intros H; [constructor|].
  inversion H as [|? ? Hnotin Hnd]; subst. constructor; [|exact (IH Hnd)].
  intros Hin. apply Hnotin. apply in_map_iff in Hin. destruct Hin as (q & [= Hq] & Hin).
  rewrite <- Hq. apply in_map. exact Hin.
Qed.

(** The demand element of a list of (year, value) pairs whose first and
    last year in sorted order are the numerals of [a] and [b]: the check of
    the years, and what is built when it passes and no year is repeated. *)
Lemma demand_element_check self (ps : list (string * option string)) uom carrier y0 y1 a b :
  CityGML.nss self = CityGML.solver ->
  Py.first (Py.sort (map fst ps)) = Ok y0 ->
  Py.last (Py.sort (map fst ps)) = Ok y1 ->
  Py.int_of_string y0 = Some a ->
  Py.int_of_string y1 = Some b ->
  Z.of_nat (length ps) <> (b - a + 1)%Z ->
  CityGML.demand_element self (map Some (map fst ps)) uom (map snd ps) carrier
  = Raise (UnboundLocalError (YearsNotConsecutive (map Some (Py.sort (map fst ps))))).
Proof.
  intros Hnss H0 H1 Ha Hb Hlen.
  unfold CityGML.demand_element. rewrite Hnss. unfold SubElement. tags.
  cbn [bind]. rewrite sorted_some. cbn [bind].
  rewrite (first_map Some _ _ H0), (last_map Some _ _ H1). cbn [bind Py.int].
  rewrite Ha, Hb. cbn [bind]. rewrite !length_map.
  destruct (Z.eqb_spec (Z.of_nat (length ps)) (b - a + 1)); [contradiction | reflexivity].
Qed.

Lemma demand_element_run self (ps : list (string * option string)) uom carrier y0 y1 a b :
  CityGML.nss self = CityGML.solver ->
  NoDup (map fst ps) ->
  Py.first (Py.sort (map fst ps)) = Ok y0 ->
  Py.last (Py.sort (map fst ps)) = Ok y1 ->
  Py.int_of_string y0 = Some a ->
  Py.int_of_string y1 = Some b ->
  Z.of_nat (length ps) = (b - a + 1)%Z ->
  CityGML.demand_element self (map Some (map fst ps)) uom (map snd ps) carrier
  = Ok (citygml_demand (Some y0) (Some y1) (Py.str_of_nat (length ps)) uom
          (Py.strip (Py.join (map (fun p => Py.str (snd p) ++ " ") (sort_by_year ps))))
          carrier).
Proof.
  intros Hnss Hnd H0 H1 Ha Hb Hlen.
  unfold CityGML.demand_element. rewrite Hnss. unfold SubElement. tags.
  cbn [bind]. rewrite sorted_some. cbn [bind].
  rewrite (first_map Some _ _ H0), (last_map Some _ _ H1). cbn [bind Py.int].
  rewrite Ha, Hb. cbn [bind]. rewrite !length_map.
  rewrite Hlen, Z.eqb_refl. cbn [negb].
  rewrite <- sort_by_year_fst, (map_map fst Some (sort_by_year ps)).
  rewrite formatted_values_Ok; [reflexivity|].
  intros p Hp. apply (proj1 (sort_by_year_In _ _)) in Hp.
  apply get_of_items.
  - rewrite combine_years, map_map. cbn [fst]. apply NoDup_years, Hnd.
  - rewrite combine_years. apply in_map_iff. exists p. split; [reflexivity | exact Hp].
Qed.

(** The text of the values: the formatted values joined, then stripped. *)
Lemma append_empty (s : string) : s ++ "" = s.
Proof. induction s as [|c s IH]; cbn; [reflexivity | now rewrite IH]. Qed.

Lemma append_assoc3 (s t u : string) : (s ++ t) ++ u = s ++ t ++ u.
Proof. induction s as [|c s IH]; cbn; [reflexivity | now rewrite IH]. Qed.

Lemma join_cons (x : string) (xs : list string) : Py.join (x :: xs) = x ++ Py.join xs.
Proof.
  unfold Py.join. destruct xs as [|y ys]; cbn; [now rewrite append_empty | reflexivity].
Qed.

Lemma join_spaced (vs : list string) :
  vs <> [] ->
  Py.join (map (fun v => v ++ " ") vs) = String.concat " " vs ++ " ".
Proof.
  induction vs as [|v vs IH]; [congruence|]. intros _.
  cbn [map]. rewrite join_cons. destruct vs as [|w ws].
  - cbn. now rewrite append_empty.
  - rewrite IH by discriminate.
    change (String.concat " " (v :: w :: ws)) with (v ++ " " ++ String.concat " " (w :: ws)).
    rewrite !append_assoc3. reflexivity.
Qed.

Lemma rstrip_app p (s t : string) :
  Py.rstrip p (s ++ t)
  = match Py.rstrip p t with
    | EmptyString => Py.rstrip p s
    | r => s ++ r
    end.
Proof.
  induction s as [|c s IH].
  - cbn. destruct (Py.rstrip p t); reflexivity.
  - cbn [String.append Py.rstrip]. rewrite IH.
    destruct (Py.rstrip p t) as [|a r]; [reflexivity|].
    destruct s; reflexivity.
Qed.

Lemma rstrip_none_of p (v : string) : none_of p v = true -> Py.rstrip p v = v.
Proof.
  induction v as [|c v IH]; cbn; [reflexivity|].
  intros H. apply andb_true_iff in H. destruct H as [Hc Hv].
  apply negb_true_iff in Hc. rewrite (IH Hv), Hc. destruct v; reflexivity.
Qed.

Lemma lstrip_none_of p (v rest : string) :
  v <> "" -> none_of p v = true -> Py.lstrip p (v ++ rest) = v ++ rest.
Proof.
  destruct v as [|c v]; [congruence|]. intros _ H. cbn in *.
  apply andb_true_iff in H. destruct H as [Hc _].
  apply negb_true_iff in Hc. rewrite Hc. reflexivity.
Qed.

Lemma rstrip_no_space (v : string) : no_space v = true -> Py.rstrip Py.is_space v = v.
Proof. apply rstrip_none_of. Qed.

Lemma lstrip_no_space (v rest : string) :
  v <> "" -> no_space v = true -> Py.lstrip Py.is_space (v ++ rest) = v ++ rest.
Proof. apply lstrip_none_of. Qed.

Lemma rstrip_concat (vs : list string) :
  vs <> [] -> Forall (fun v => v <> "" /\ no_space v = true) vs ->
  Py.rstrip Py.is_space (String.concat " " vs) = String.concat " " vs
  /\ String.concat " " vs <> "".
Proof.
  intros Hne Hall. induction Hall as [|v vs [Hv Hs] Hall IH]; [congruence|].
  destruct vs as [|w ws].
  - cbn. split; [apply rstrip_no_space, Hs | exact Hv].
  - destruct (IH ltac:(discriminate)) as [IH1 IH2].
    change (String.concat " " (v :: w :: ws)) with (v ++ " " ++ String.concat " " (w :: ws)).
    split.
    + rewrite rstrip_app.
      assert (E : Py.rstrip Py.is_space (" " ++ String.concat " " (w :: ws))
                  = " " ++ String.concat " " (w :: ws)).
      { rewrite rstrip_app, IH1.
        destruct (String.concat " " (w :: ws)); [congruence | reflexivity]. }
      rewrite E. reflexivity.
    + destruct v; [congruence | discriminate].
Qed.

Lemma concat_starts (v : string) (vs : list string) :
  exists rest, String.concat " " (v :: vs) = v ++ rest.
Proof.
  destruct vs as [|w ws]; cbn.
  - exists "". now rewrite append_empty.
  - eexists. reflexivity.
Qed.

(** On ASCII text [strip] strips the ASCII white space. *)
Lemma ascii_byte c : (128 <=? nat_of_ascii c)%nat = false -> nat_of_ascii c < 128.
Proof. intros H. apply Nat.leb_gt in H. exact H. Qed.

Lemma is_space2_ascii a b : nat_of_ascii a < 128 -> Py.is_space2 a b = false.
Proof.
  intros H. unfold Py.is_space2. cbv zeta.
  replace (nat_of_ascii a =? 194)%nat with false; [reflexivity|].
  symmetry. apply Nat.eqb_neq. lia.
Qed.

Lemma is_space3_ascii a b c : nat_of_ascii a < 128 -> Py.is_space3 a b c = false.
Proof.
  intros H. unfold Py.is_space3. cbv zeta.
  replace (nat_of_ascii a =? 225)%nat with false by (symmetry; apply Nat.eqb_neq; lia).
  replace (nat_of_ascii a =? 226)%nat with false by (symmetry; apply Nat.eqb_neq; lia).
  replace (nat_of_ascii a =? 227)%nat with false by (symmetry; apply Nat.eqb_neq; lia).
  reflexivity.
Qed.

Lemma rstrip_space_ascii (s : string) :
  is_ascii s = true -> Py.rstrip_space s = Py.rstrip Py.is_space s.
Proof.
  induction s as [|a s IH]; cbn [Py.rstrip_space Py.rstrip is_ascii none_of];
    [reflexivity|].
  intros H. apply andb_true_iff in H. destruct H as [Ha Hs].
  apply negb_true_iff, ascii_byte in Ha. rewrite (IH Hs).
  destruct (Py.rstrip Py.is_space s) as [|b [|c [|d r]]]; cbn [Py.is_space_char].
  - destruct (Py.is_space a); reflexivity.
  - rewrite (is_space2_ascii _ _ Ha). reflexivity.
  - rewrite (is_space3_ascii _ _ _ Ha). reflexivity.
  - reflexivity.
Qed.

Lemma lstrip_space_clean (v rest : string) :
  v <> "" -> no_space v = true -> is_ascii v = true ->
  Py.lstrip_space (v ++ rest) = v ++ rest.
Proof.
  destruct v as [|a v]; [congruence|]. intros _ Hs Ha.
  cbn [no_space none_of is_ascii] in Hs, Ha. unfold no_space in Hs. cbn [none_of] in Hs.
  apply andb_true_iff in Hs. destruct Hs as [Hs _]. apply negb_true_iff in Hs.
  apply andb_true_iff in Ha. destruct Ha as [Ha _]. apply negb_true_iff, ascii_byte in Ha.
  cbn [String.append Py.lstrip_space]. rewrite Hs.
  destruct (v ++ rest) as [|b [|c r]]; try reflexivity.
  - rewrite (is_space2_ascii _ _ Ha). reflexivity.
  - rewrite (is_space2_ascii _ _ Ha), (is_space3_ascii _ _ _ Ha). reflexivity.
Qed.

Lemma is_ascii_app (s t : string) : is_ascii (s ++ t) = is_ascii s && is_ascii t.
Proof.
  unfold is_ascii. induction s as [|c s IH]; cbn [String.append none_of]; [reflexivity|].
  rewrite IH, andb_assoc. reflexivity.
Qed.

Lemma is_ascii_concat (vs : list string) :
  Forall (fun v => is_ascii v = true) vs -> is_ascii (String.concat " " vs) = true.
Proof.
  induction 1 as [|v vs Hv Hall IH]; [reflexivity|].
  destruct vs as [|w ws]; [exact Hv|].
  change (String.concat " " (v :: w :: ws)) with (v ++ " " ++ String.concat " " (w :: ws)).
  rewrite !is_ascii_app, Hv, IH. reflexivity.
Qed.

Lemma strip_joined (vs : list string) :
  vs <> [] ->
  Forall (fun v => v <> "" /\ no_space v = true /\ is_ascii v = true) vs ->
  Py.strip (Py.join (map (fun v => v ++ " ") vs)) = String.concat " " vs.
Proof.
  intros Hne Hall.
  assert (Hclean : Forall (fun v => v <> "" /\ no_space v = true) vs)
    by (revert Hall; apply Forall_impl; tauto).
  assert (Hascii : Forall (fun v => is_ascii v = true) vs)
    by (revert Hall; apply Forall_impl; tauto).
  rewrite (join_spaced _ Hne). unfold Py.strip.
  rewrite rstrip_space_ascii
    by (rewrite is_ascii_app, (is_ascii_concat _ Hascii); reflexivity).
  rewrite rstrip_app. cbn [Py.rstrip].
  change (Py.is_space " ") with true. cbv iota.
  destruct (rstrip_concat _ Hne Hclean) as [-> _].
  destruct vs as [|v vs]; [congruence|].
  destruct (concat_starts v vs) as [rest ->].
  inversion Hall as [|? ? (Hv & Hs & Ha) _]; subst.
  apply lstrip_space_clean; assumption.
Qed.

(** [Py.sort] sorts: its result is in ascending order of the texts and has
    the elements of its argument. *)
Lemma insert_Permutation x l : Permutation (x :: l) (Py.insert x l).
Proof.
  induction l as [|y l IH]; cbn; [reflexivity|].
  destruct (String.leb x y); [reflexivity|].
  rewrite perm_swap. constructor. exact IH.
Qed.

Lemma sort_Permutation l : Permutation l (Py.sort l).
Proof.
  induction l as [|x l IH]; cbn; [constructor|].
  rewrite <- insert_Permutation. constructor. exact IH.
Qed.

Lemma insert_HdRel x y l : text_le y x -> HdRel text_le y l -> HdRel text_le y (Py.insert x l).
Proof.
  intros Hyx Hl. destruct l as [|z l]; cbn; [constructor; exact Hyx|].
  destruct (String.leb x z); constructor; [exact Hyx|].
  inversion Hl; assumption.
Qed.

Lemma insert_Sorted x l : Sorted text_le l -> Sorted text_le (Py.insert x l).
Proof.
  induction 1 as [|y l Hs IH Hhd]; cbn; [repeat constructor|].
  destruct (String.leb x y) eqn:E.
  - constructor; [constructor; assumption | constructor; exact E].
  - constructor; [exact IH|].
    apply insert_HdRel; [|exact Hhd].
    destruct (String.leb_total x y) as [H|H]; [congruence | exact H].
Qed.

Lemma sort_Sorted l : Sorted text_le (Py.sort l).
Proof.
  induction l as [|x l IH]; cbn; [constructor | apply insert_Sorted, IH].
Qed.

(** Years of four digits: their numbers, and their order. *)
Lemma digit_bounds c :
  Py.is_digit c = true -> (48 <= nat_of_ascii c <= 57)%nat.
Proof.
  unfold Py.is_digit. intros H. apply andb_true_iff in H. destruct H as [H1 H2].
  apply Nat.leb_le in H1, H2. lia.
Qed.

Lemma digit_not_c_space c : Py.is_digit c = true -> Py.is_c_space c = false.
Proof.
  intros H. apply digit_bounds in H. unfold Py.is_c_space.
  destruct (Nat.leb_spec 9 (nat_of_ascii c)), (Nat.leb_spec (nat_of_ascii c) 13),
    (Nat.eqb_spec (nat_of_ascii c) 32);
    cbn; try reflexivity; lia.
Qed.

Lemma digit_not_char c d :
  Py.is_digit c = true -> (nat_of_ascii d < 48)%nat -> Ascii.eqb c d = false.
Proof.
  intros H Hd. apply digit_bounds in H. apply Ascii.eqb_neq. intros ->. lia.
Qed.

Lemma digit_value_bounds c : Py.is_digit c = true -> (0 <= Py.digit_value c <= 9)%Z.
Proof. intros H. apply digit_bounds in H. unfold Py.digit_value. lia. Qed.

Lemma digit_compare c d :
  Py.is_digit c = true -> Py.is_digit d = true ->
  Ascii.compare c d = Z.compare (Py.digit_value c) (Py.digit_value d).
Proof.
  intros Hc Hd. apply digit_bounds in Hc, Hd.
  unfold Ascii.compare, Py.digit_value, nat_of_ascii in *.
  destruct (N.compare_spec (N_of_ascii c) (N_of_ascii d));
    destruct (Z.compare_spec (Z.of_nat (N.to_nat (N_of_ascii c) - 48))
                (Z.of_nat (N.to_nat (N_of_ascii d) - 48)));
    try reflexivity; lia.
Qed.

Lemma year_none_of_c_space s :
  is_year s = true -> s <> "" /\ none_of Py.is_c_space s = true.
Proof.
  destruct s as [|a [|b [|c [|d [|]]]]]; try discriminate. cbn [is_year none_of].
  intros H. do 3 (apply andb_true_iff in H; destruct H as [H ?]).
  split; [discriminate|].
  rewrite !digit_not_c_space by assumption. reflexivity.
Qed.

Lemma year_int s : is_year s = true -> Py.int_of_string s = Some (year_number s).
Proof.
  intros H. unfold Py.int_of_string.
  destruct (year_none_of_c_space _ H) as [Hne Hnone].
  rewrite (rstrip_none_of _ _ Hnone).
  rewrite <- (append_empty s) at 1. rewrite (lstrip_none_of _ _ _ Hne Hnone), append_empty.
  destruct s as [|a [|b [|c [|d [|]]]]]; try discriminate. cbn [is_year] in H.
  do 3 (apply andb_true_iff in H; destruct H as [H ?]).
  rewrite (digit_not_char a "+"), (digit_not_char a "-") by (assumption || (cbn; lia)).
  cbn [Py.digits]. repeat match goal with Hd : Py.is_digit _ = true |- _ => rewrite Hd; clear Hd end.
  cbn [year_number]. f_equal. lia.
Qed.

Lemma year_le s t :
  is_year s = true -> is_year t = true -> text_le s t ->
  (year_number s <= year_number t)%Z.
Proof.
  intros Hs Ht.
  destruct s as [|a [|b [|c [|d [|]]]]]; try discriminate.
  destruct t as [|a' [|b' [|c' [|d' [|]]]]]; try discriminate.
  cbn [is_year] in Hs, Ht.
  do 3 (apply andb_true_iff in Hs; destruct Hs as [Hs ?]).
  do 3 (apply andb_true_iff in Ht; destruct Ht as [Ht ?]).
  unfold text_le, String.leb. cbn [String.compare year_number].
  rewrite (digit_compare a a'), (digit_compare b b'), (digit_compare c c'),
    (digit_compare d d') by assumption.
  repeat match goal with
    | Hd : Py.is_digit ?x = true |- _ => apply digit_value_bounds in Hd
    end.
  destruct (Z.compare_spec (Py.digit_value a) (Py.digit_value a'));
    destruct (Z.compare_spec (Py.digit_value b) (Py.digit_value b'));
    destruct (Z.compare_spec (Py.digit_value c) (Py.digit_value c'));
    destruct (Z.compare_spec (Py.digit_value d) (Py.digit_value d'));
    intros Hle; try discriminate; lia.
Qed.

Lemma Sorted_year_numbers l :
  Forall (fun y => is_year y = true) l -> Sorted text_le l ->
  Sorted Z.le (map year_number l).
Proof.
  intros Hall Hs. induction Hs as [|y l Hs IH Hhd]; cbn; [constructor|].
  inversion Hall as [|? ? Hy Hl]; subst.
  constructor; [exact (IH Hl)|].
  destruct Hhd as [|z l Hyz]; cbn; constructor.
  inversion Hl; subst. apply year_le; assumption.
Qed.

Lemma last_snoc {A : Type} (l : list A) (x : A) :
  Py.last l = Ok x -> exists l', l = (l' ++ [x])%list.
Proof.
  unfold Py.last. destruct (List.rev l) as [|y r] eqn:E; [discriminate|].
  intros [= ->]. exists (List.rev r).
  rewrite <- (rev_involutive l), E. reflexivity.
Qed.

Lemma Sorted_bounds (l : list Z) (x0 x1 : Z) :
  Sorted Z.le l -> Py.first l = Ok x0 -> Py.last l = Ok x1 ->
  forall x, In x l -> (x0 <= x <= x1)%Z.
Proof.
  intros Hs H0 H1 x Hx.
  apply Sorted_StronglySorted in Hs; [|intros u v w; apply Z.le_trans].
  split.
  - destruct l as [|y l]; [discriminate|]. cbn in H0. injection H0 as ->.
    destruct Hx as [->|Hx]; [lia|].
    inversion Hs as [|? ? _ Hall]; subst. rewrite Forall_forall in Hall. auto.
  - destruct (last_snoc _ _ H1) as [l' ->]. clear H0 H1.
    induction l' as [|y l' IH]; cbn in *.
    + destruct Hx as [->|[]]. lia.
    + inversion Hs as [|? ? Hs' Hall]; subst.
      destruct Hx as [->|Hx]; [|auto].
      rewrite Forall_forall in Hall. apply Hall. apply in_or_app. right. left. reflexivity.
Qed.

Lemma make_demand_reads self bu expected source_attr year_attr uom_attr value_attr
  carrier src u :
  str_text_of (Building.find bu source_attr) = Ok src ->
  Py.lower src = expected ->
  str_text_of (Building.find bu uom_attr) = Ok u ->
  CityGML.demand_of self bu expected source_attr year_attr uom_attr value_attr carrier
  = CityGML.demand_element self (map text (Building.find_all bu year_attr)) (Py.lower u)
      (map text (Building.find_all bu value_attr)) carrier.
Proof.
  intros Hs He Hu. unfold CityGML.demand_of. rewrite Hs. cbn [bind].
  rewrite He, String.eqb_refl. cbn [negb]. rewrite Hu. reflexivity.
Qed.

(** The demand of years that are not repeated.  A demand is built for a
    carrier when the building has at least one
    value of it, and [make_demand] hands the years, the unit and the values
    of the carrier to the construction of the demand element.  For (year, value)
    pairs whose first and last year in sorted order are numerals: the
    construction fails with the error of non-consecutive years when the
    number of years differs from last minus first plus one; otherwise, no
    year being repeated, it gives the demand element whose extent goes from
    the first to the last sorted year, and whose values text is made of the
    values in the order of their years, which for clean values is these
    values joined by single spaces.  For years of four digits the sorted order is the
    order of the numbers: the extent begins at the least and ends at the
    greatest year. *)
Theorem energy_demand_of_consecutive_years :
  forall (cgml : CityGML.t),
    CityGML.init = Ok cgml ->
    (forall bu attribute carrier,
        (Building.find_all bu attribute = [] ->
         CityGML.demand cgml bu attribute carrier = Ok [])
        /\ (Building.find_all bu attribute <> [] ->
            CityGML.demand cgml bu attribute carrier
            = (e <- CityGML.make_demand cgml bu carrier ;; Ok [e])))
    /\ (forall bu src u,
        str_text_of (Building.find bu "ENERGYAMOUNT_E_SOURCE_E") = Ok src ->
        Py.lower src = "electricity" ->
        str_text_of (Building.find bu "CONSUMONORM_UOM_E") = Ok u ->
        CityGML.make_demand cgml bu "electricity"
        = CityGML.demand_element cgml
            (map text (Building.find_all bu "ENERGYAMOUNT_E_YEAR_ONLY_E")) (Py.lower u)
            (map text (Building.find_all bu "CONSUMONORM_VALORE_E")) "Electricity")
    /\ (forall bu src u,
           str_text_of (Building.find bu "ENERGYAMOUNT_E_SOURCE_T") = Ok src ->
           Py.lower src = "thermal" ->
           str_text_of (Building.find bu "CONSUMONORM_UOM_T") = Ok u ->
           CityGML.make_demand cgml bu "thermal"
           = CityGML.demand_element cgml
               (map text (Building.find_all bu "ENERGYAMOUNT_E_YEAR_ONLY_T")) (Py.lower u)
               (map text (Building.find_all bu "CONSUMONORM_VALORE_T")) "HotWater")
    /\ (forall (ps : list (string * option string)) (uom carrier y0 y1 : string) (a b : Z),
           Py.first (Py.sort (map fst ps)) = Ok y0 ->
           Py.last (Py.sort (map fst ps)) = Ok y1 ->
           Py.int_of_string y0 = Some a ->
           Py.int_of_string y1 = Some b ->
           let years := map Some (map fst ps) in
           let energy_values := map snd ps in
           let sorted_years := Py.sort (map fst ps) in
           let values_text :=
             Py.strip (Py.join (map (fun p => Py.str (snd p) ++ " ") (sort_by_year ps))) in
           Sorted text_le sorted_years
           /\ Permutation (map fst ps) sorted_years
           /\ map fst (sort_by_year ps) = sorted_years
           /\ (Z.of_nat (length ps) <> (b - a + 1)%Z ->
               CityGML.demand_element cgml years uom energy_values carrier
               = Raise (UnboundLocalError (YearsNotConsecutive (map Some sorted_years))))
           /\ (NoDup (map fst ps) ->
               Z.of_nat (length ps) = (b - a + 1)%Z ->
               CityGML.demand_element cgml years uom energy_values carrier
               = Ok (citygml_demand (Some y0) (Some y1) (Py.str_of_nat (length ps)) uom
                       values_text carrier))
           /\ (Forall clean_value (map snd ps) ->
               values_text
               = String.concat " " (map (fun p => Py.str (snd p)) (sort_by_year ps)))
           /\ (Forall (fun y => is_year y = true) (map fst ps) ->
               a = year_number y0 /\ b = year_number y1
               /\ Sorted Z.le (map year_number sorted_years)
               /\ forall y, In y (map fst ps) -> (a <= year_number y <= b)%Z)).
Proof.
  intros cgml Hinit. destruct (CityGML_init_Ok _ Hinit) as [Hnss _].
  split; [|split; [|split]].
  - intros bu attribute carrier. unfold CityGML.demand.
    destruct (Building.find_all bu attribute) as [|x l]; split; intros H;
      try congruence; reflexivity.
  - intros bu src u Hs He Hu. unfold CityGML.make_demand. cbn [String.eqb Ascii.eqb].
    change ("electricity" =? "electricity") with true. cbv iota.
    apply (make_demand_reads _ _ _ _ _ _ _ _ _ _ Hs He Hu).
  - intros bu src u Hs He Hu. unfold CityGML.make_demand.
    change ("thermal" =? "electricity") with false.
    change ("thermal" =? "thermal") with true. cbv iota.
    apply (make_demand_reads _ _ _ _ _ _ _ _ _ _ Hs He Hu).
  - intros ps uom carrier y0 y1 a b H0 H1 Ha Hb years energy_values sorted_years
      values_text.
    assert (Hne : ps <> []).
    { intros ->. cbn in H0. discriminate. }
    split; [apply sort_Sorted|].
    split; [apply sort_Permutation|].
    split; [apply sort_by_year_fst|].
    split; [|split; [|split]].
    + intros Hlen.
      exact (demand_element_check cgml ps uom carrier y0 y1 a b Hnss H0 H1 Ha Hb Hlen).
    + intros Hnd Hlen.
      exact (demand_element_run cgml ps uom carrier y0 y1 a b Hnss Hnd H0 H1 Ha Hb Hlen).
    + intros Hclean. unfold values_text.
      rewrite <- (map_map (fun p => Py.str (snd p)) (fun v => v ++ " ")).
      apply strip_joined.
      * destruct ps as [|p ps]; [congruence|]. cbn [sort_by_year].
        intros E. apply map_eq_nil in E.
        assert (Hin : In p (insert_by_year p (sort_by_year ps)))
          by (apply insert_by_year_In; left; reflexivity).
        rewrite E in Hin. destruct Hin.
      * apply Forall_map. apply Forall_forall. intros p Hp.
        apply (proj1 (sort_by_year_In _ _)) in Hp.
        rewrite Forall_forall in Hclean. apply (Hclean (snd p)).
        apply in_map. exact Hp.
    + intros Hyears.
      assert (Hsorted : Forall (fun y => is_year y = true) sorted_years).
      { apply Forall_forall. intros y Hy. rewrite Forall_forall in Hyears.
        apply Hyears. apply (Permutation_in _ (Permutation_sym (sort_Permutation _))).
        exact Hy. }
      assert (Hy0 : is_year y0 = true).
      { rewrite Forall_forall in Hsorted. apply Hsorted. unfold sorted_years.
        destruct (Py.sort (map fst ps)); [discriminate|].
        cbn in H0. injection H0 as ->. left. reflexivity. }
      assert (Hy1 : is_year y1 = true).
      { rewrite Forall_forall in Hsorted. apply Hsorted. unfold sorted_years.
        destruct (last_snoc _ _ H1) as [l' ->]. apply in_or_app. right. left. reflexivity. }
      rewrite (year_int _ Hy0) in Ha. rewrite (year_int _ Hy1) in Hb.
      injection Ha as <-. injection Hb as <-.
      split; [reflexivity|]. split; [reflexivity|].
      pose proof (Sorted_year_numbers _ Hsorted (sort_Sorted _)) as Hnum.
      split; [exact Hnum|].
      intros y Hy.
      apply (Sorted_bounds _ _ _ Hnum (first_map year_number _ _ H0)
               (last_map year_number _ _ H1)).
      apply in_map. apply (Permutation_in _ (sort_Permutation _)). exact Hy.
Qed.

Lemma energy_demand_of_consecutive_years_witness :
  exists cgml,
    CityGML.init = Ok cgml
    /\ CityGML.demand_element cgml [Some "2015"; Some "2016"; Some "2017"] "kwh"
         [Some "10"; Some "12"; Some "11"] "Electricity"
       = Ok (citygml_demand (Some "2015") (Some "2017") "3" "kwh" "10 12 11" "Electricity")
    /\ CityGML.demand_element cgml [Some "2015"; Some "2017"] "kwh"
         [Some "10"; Some "11"] "Electricity"
       = Raise (UnboundLocalError (YearsNotConsecutive [Some "2015"; Some "2017"]))
    /\ CityGML.make_demand cgml Sample.metered "electricity"
       = Ok (citygml_demand (Some "2015") (Some "2017") "3" "kwh" "10 12 11" "Electricity").
Proof.
  assert (exists cgml, CityGML.init = Ok cgml) as [cgml Hcgml]
    by (eexists; vm_compute; reflexivity).
  exists cgml. split; [exact Hcgml|].
  destruct (energy_demand_of_consecutive_years cgml Hcgml) as (_ & TE & _ & TS).
  assert (N3 : NoDup ["2015"; "2016"; "2017"]).
  { repeat constructor; cbn; intuition discriminate. }
  assert (N3' : NoDup ["2016"; "2015"; "2017"]).
  { repeat constructor; cbn; intuition discriminate. }
  split; [|split].
  - destruct (TS [("2015", Some "10"); ("2016", Some "12"); ("2017", Some "11")]
                "kwh" "Electricity" "2015" "2017" 2015%Z 2017%Z
                eq_refl eq_refl eq_refl eq_refl)
      as (_ & _ & _ & _ & Hok & _).
    exact (Hok N3 eq_refl).
  - destruct (TS [("2015", Some "10"); ("2017", Some "11")]
                "kwh" "Electricity" "2015" "2017" 2015%Z 2017%Z
                eq_refl eq_refl eq_refl eq_refl)
      as (_ & _ & _ & Hfail & _).
    apply Hfail. discriminate.
  - rewrite (TE Sample.metered "Electricity" "kWh" eq_refl eq_refl eq_refl).
    destruct (TS [("2016", Some "12"); ("2015", Some "10"); ("2017", Some "11")]
                "kwh" "Electricity" "2015" "2017" 2015%Z 2017%Z
                eq_refl eq_refl eq_refl eq_refl)
      as (_ & _ & _ & _ & Hok & _).
    exact (Hok N3' eq_refl).
Defined.

(** ** Years that are repeated *)

Lemma formatted_values_total year_values (l : list (option string)) :
  (forall y, In y l -> Py.assoc_get Py.eqb y year_values <> None) ->
  exists texts, CityGML.formatted_values year_values l = Ok texts.
Proof.
  induction l as [|y l IH]; intros H; cbn [CityGML.formatted_values].
  - exists []. reflexivity.
  - destruct (Py.assoc_get Py.eqb y year_values) as [v|] eqn:E;
      [|destruct (H y (or_introl eq_refl) E)].
    destruct IH as [texts ->]; [intros z Hz; apply H; right; exact Hz|].
    eexists. reflexivity.
Qed.

Lemma get_of_items_some {V : Type} (items : list (option string * V)) k :
  In k (map fst items) ->
  Py.assoc_get Py.eqb k (Py.assoc_of_items Py.eqb items) <> None.
Proof.
  intros H. unfold Py.assoc_of_items.
  generalize (@nil (option string * V)). revert H.
  induction items as [|[k0 v0] items IH]; intros H d; [destruct H|].
  cbn [fold_left fst snd].
  destruct (in_dec text_eq_dec k (map fst items)) as [Hin|Hnotin].
  - apply IH. exact Hin.
  - rewrite (get_fold_other _ _ _ Hnotin).
    destruct H as [H|H]; [|contradiction]. cbn in H. subst k0.
    rewrite get_set_same. discriminate.
Qed.

Lemma year_lt_text y z :
  is_year y = true -> is_year z = true -> (year_number y < year_number z)%Z ->
  String.leb y z = true /\ String.leb z y = false /\ y <> z.
Proof.
  intros Hy Hz Hlt.
  assert (Hzy : String.leb z y = false).
  { destruct (String.leb z y) eqn:E; [|reflexivity].
    pose proof (year_le z y Hz Hy E). lia. }
  split; [|split].
  - destruct (String.leb_total y z) as [H|H]; [exact H | congruence].
  - exact Hzy.
  - intros ->. lia.
Qed.

(** C4, where the code leaves it.  The check of the years counts the
    entries of the list, a repeated year as often as it occurs, and the
    values are kept one for each year: every list of years whose number of
    entries is last minus first plus one is accepted, with or without a gap.
    So the years [y], [y + 2], [y] are not refused, although the year
    between them is missing: the demand is built with the extent from [y]
    to [y + 2], the first value of [y] is lost and its second value is
    written twice. *)
Theorem repeated_year_hides_a_gap :
  forall (cgml : CityGML.t),
    CityGML.init = Ok cgml ->
    (forall (ps : list (string * option string)) (uom carrier y0 y1 : string) (a b : Z),
        Py.first (Py.sort (map fst ps)) = Ok y0 ->
        Py.last (Py.sort (map fst ps)) = Ok y1 ->
        Py.int_of_string y0 = Some a ->
        Py.int_of_string y1 = Some b ->
        Z.of_nat (length ps) = (b - a + 1)%Z ->
        exists values_text,
          CityGML.demand_element cgml (map Some (map fst ps)) uom (map snd ps) carrier
          = Ok (citygml_demand (Some y0) (Some y1) (Py.str_of_nat (length ps)) uom
                  values_text carrier))
    /\ (forall (y z uom carrier : string) (v1 v2 v3 : option string),
           is_year y = true ->
           is_year z = true ->
           year_number z = (year_number y + 2)%Z ->
           clean_value v2 ->
           clean_value v3 ->
           CityGML.demand_element cgml [Some y; Some z; Some y] uom [v1; v2; v3] carrier
           = Ok (citygml_demand (Some y) (Some z) "3" uom
                   (Py.str v3 ++ " " ++ Py.str v3 ++ " " ++ Py.str v2) carrier)).
Proof.
  intros cgml Hinit. destruct (CityGML_init_Ok _ Hinit) as [Hnss _]. split.
  - intros ps uom carrier y0 y1 a b H0 H1 Ha Hb Hlen.
    destruct (formatted_values_total
                (Py.assoc_of_items Py.eqb (combine (map Some (map fst ps)) (map snd ps)))
                (map Some (Py.sort (map fst ps)))) as [texts Htexts].
    { intros k Hk. apply get_of_items_some.
      rewrite combine_years, map_map. cbn [fst].
      apply in_map_iff in Hk. destruct Hk as (x & <- & Hx).
      apply (Permutation_in _ (Permutation_sym (sort_Permutation _))) in Hx.
      apply in_map_iff in Hx. destruct Hx as (p & <- & Hp).
      apply in_map_iff. exists p. split; [reflexivity | exact Hp]. }
    exists (Py.strip (Py.join texts)).
    unfold CityGML.demand_element. rewrite Hnss. unfold SubElement. tags.
    cbn [bind]. rewrite sorted_some. cbn [bind].
    rewrite (first_map Some _ _ H0), (last_map Some _ _ H1). cbn [bind Py.int].
    rewrite Ha, Hb. cbn [bind]. rewrite !length_map.
    rewrite Hlen, Z.eqb_refl. cbn [negb]. rewrite Htexts. reflexivity.
  - intros y z uom carrier v1 v2 v3 Hy Hz Hnum Hc2 Hc3.
    destruct (year_lt_text y z Hy Hz ltac:(lia)) as (Hyz & Hzy & Hne).
    assert (Hsort : Py.sort [y; z; y] = [y; y; z]).
    { cbn [Py.sort Py.insert]. rewrite Hzy. cbn [Py.insert].
      destruct (String.leb_total y y) as [->| ->]; reflexivity. }
    assert (Ezy : String.eqb z y = false) by (apply String.eqb_neq; congruence).
    unfold CityGML.demand_element. rewrite Hnss. unfold SubElement. tags.
    cbn [bind].
    change [Some y; Some z; Some y] with (map Some [y; z; y]).
    rewrite sorted_some, Hsort. cbn [bind map Py.first Py.last List.rev app Py.int].
    rewrite (year_int _ Hy), (year_int _ Hz). cbn [bind length].
    replace (Z.of_nat 3 =? year_number z - year_number y + 1)%Z with true
      by (symmetry; apply Z.eqb_eq; lia).
    cbn [negb combine Py.assoc_of_items fold_left fst snd Py.assoc_set Py.eqb].
    rewrite Ezy. cbn [Py.assoc_set Py.eqb]. rewrite String.eqb_refl.
    cbn [CityGML.formatted_values Py.assoc_get Py.eqb].
    rewrite !String.eqb_refl, ?Ezy. cbn [bind]. rewrite ?String.eqb_refl. cbn [bind].
    change [Py.str v3 ++ " "; Py.str v3 ++ " "; Py.str v2 ++ " "]
      with (map (fun v => v ++ " ") [Py.str v3; Py.str v3; Py.str v2]).
    rewrite strip_joined; [reflexivity | discriminate |].
    repeat constructor; (apply Hc2 || apply Hc3).
Qed.

Lemma repeated_year_hides_a_gap_witness :
  exists cgml,
    CityGML.init = Ok cgml
    /\ CityGML.demand_element cgml [Some "2015"; Some "2017"; Some "2015"] "kwh"
         [Some "10"; Some "11"; Some "13"] "Electricity"
       = Ok (citygml_demand (Some "2015") (Some "2017") "3" "kwh" "13 13 11" "Electricity")
    /\ map text (Building.find_all Sample.metered_twice "ENERGYAMOUNT_E_YEAR_ONLY_E")
       = [Some "2015"; Some "2017"; Some "2015"]
    /\ map text (Building.find_all Sample.metered_twice "CONSUMONORM_VALORE_E")
       = [Some "10"; Some "11"; Some "13"]
    /\ CityGML.make_demand cgml Sample.metered_twice "electricity"
       = Ok (citygml_demand (Some "2015") (Some "2017") "3" "kwh" "13 13 11" "Electricity").
Proof.
  assert (exists cgml, CityGML.init = Ok cgml) as [cgml Hcgml]
    by (eexists; vm_compute; reflexivity).
  exists cgml. split; [exact Hcgml|].
  destruct (repeated_year_hides_a_gap cgml Hcgml) as [_ T].
  assert (E : CityGML.demand_element cgml [Some "2015"; Some "2017"; Some "2015"] "kwh"
                [Some "10"; Some "11"; Some "13"] "Electricity"
              = Ok (citygml_demand (Some "2015") (Some "2017") "3" "kwh" "13 13 11"
                      "Electricity")).
  { apply (T "2015" "2017" "kwh" "Electricity" (Some "10") (Some "11") (Some "13"));
      try reflexivity; (split; [discriminate | split; reflexivity]). }
  split; [exact E|]. split; [reflexivity|]. split; [reflexivity|].
  rewrite <- E.
  apply (make_demand_reads cgml Sample.metered_twice "electricity"
           "ENERGYAMOUNT_E_SOURCE_E" "ENERGYAMOUNT_E_YEAR_ONLY_E" "CONSUMONORM_UOM_E"
           "CONSUMONORM_VALORE_E" "Electricity" "Electricity" "kWh");
    reflexivity.
Defined.

(** * Further properties of the code *)

(** ** Qualified names *)

Lemma rpartition_free s :
  free_of ":" s = true -> Py.rpartition ":" s = ("", "", s).
Proof.
  induction s as [|c s IH]; cbn [free_of Py.rpartition]; [reflexivity|].
  rewrite mem_char_one. intros H. apply andb_true_iff in H. destruct H as [Hc Hs].
  apply negb_true_iff in Hc. rewrite (IH Hs), Hc. reflexivity.
Qed.

Lemma rpartition_app prefix local :
  free_of ":" local = true ->
  Py.rpartition ":" (prefix ++ String ":" local) = (prefix, ":", local).
Proof.
  intros Hl. induction prefix as [|c p IH]; cbn [String.append Py.rpartition].
  - rewrite (rpartition_free _ Hl). reflexivity.
  - rewrite IH. reflexivity.
Qed.

(** [solve] splits a name at its last colon: the part before it, which may
    itself hold colons, is looked up as prefix; a prefix that is not in the
    table is the [KeyError] of that prefix, and so is the empty prefix of a
    name without colon. *)
Theorem solve_splits_at_last_colon :
  forall (nss : NameSpaceSolver.t) (prefix local : string),
    free_of ":" local = true ->
    (forall uri,
        Py.get prefix (NameSpaceSolver.dict nss) = Some uri ->
        NameSpaceSolver.solve nss (prefix ++ ":" ++ local)
        = Ok ("{" ++ uri ++ "}" ++ local))
    /\ (Py.get prefix (NameSpaceSolver.dict nss) = None ->
        NameSpaceSolver.solve nss (prefix ++ ":" ++ local)
        = Raise (KeyError (Some prefix)))
    /\ (Py.get "" (NameSpaceSolver.dict nss) = None ->
        NameSpaceSolver.solve nss local = Raise (KeyError (Some ""))).
Proof.
  intros nss prefix local Hl. unfold NameSpaceSolver.solve, Py.getitem.
  change (prefix ++ ":" ++ local) with (prefix ++ String ":" local).
  rewrite (rpartition_app _ _ Hl), (rpartition_free _ Hl).
  repeat split.
  - intros uri ->. reflexivity.
  - intros ->. reflexivity.
  - intros ->. reflexivity.
Qed.

Lemma solve_splits_at_last_colon_witness :
  NameSpaceSolver.solve Inspire.solver "bu-base:end"
  = Ok "{http://inspire.ec.europa.eu/schemas/bu-base/4.0}end"
  /\ NameSpaceSolver.solve Inspire.solver "energy:demands" = Raise (KeyError (Some "energy"))
  /\ NameSpaceSolver.solve Inspire.solver "gml:base:x" = Raise (KeyError (Some "gml:base"))
  /\ NameSpaceSolver.solve Inspire.solver "Building" = Raise (KeyError (Some "")).
Proof.
  destruct (solve_splits_at_last_colon Inspire.solver "bu-base" "end" eq_refl) as (H1 & _ & _).
  destruct (solve_splits_at_last_colon Inspire.solver "energy" "demands" eq_refl)
    as (_ & H2 & _).
  destruct (solve_splits_at_last_colon Inspire.solver "gml:base" "x" eq_refl) as (_ & H3 & _).
  destruct (solve_splits_at_last_colon Inspire.solver "" "Building" eq_refl) as (_ & _ & H4).
  split; [exact (H1 _ eq_refl)|]. split; [exact (H2 eq_refl)|].
  split; [exact (H3 eq_refl) | exact (H4 eq_refl)].
Defined.

(** ** The two queries of a building *)

Lemma first_match_hd p ns (l : list Element) :
  Building.first_match p ns l
  = hd_error (flat_map (fun element =>
                          match ET.find p ns element with
                          | Some x => [x]
                          | None => []
                          end) l).
Proof.
  induction l as [|f l IH]; cbn; [reflexivity|].
  destruct (ET.find p ns f); [reflexivity | exact IH].
Qed.

Lemma matches_length p ns (l : list Element) :
  length (flat_map (fun element =>
                      match ET.find p ns element with
                      | Some x => [x]
                      | None => []
                      end) l) <= length l.
Proof.
  induction l as [|f l IH]; cbn; [lia|].
  rewrite length_app. destruct (ET.find p ns f); cbn; lia.
Qed.

(** [find] gives the first element of what [find(..., _all=True)] gives: the
    attribute of the first fragment that has it.  The list of all holds at
    most one element for each fragment, those that [ET.find] finds in the
    fragments, and it is empty exactly when [find] gives [None]. *)
Theorem find_is_first_of_find_all :
  forall (bu : Building.t) (attribute : string),
    Building.find bu attribute = hd_error (Building.find_all bu attribute)
    /\ length (Building.find_all bu attribute) <= length (Building.feature_list bu)
    /\ (Building.find bu attribute = None <-> Building.find_all bu attribute = [])
    /\ (forall x,
           In x (Building.find_all bu attribute)
           <-> exists f,
               In f (Building.feature_list bu)
               /\ ET.find (Building.path attribute) (Building.namespaces bu) f = Some x).
Proof.
  intros bu attribute. unfold Building.find, Building.find_all.
  split; [apply first_match_hd|]. split; [apply matches_length|]. split.
  - rewrite first_match_hd.
    destruct (flat_map _ (Building.feature_list bu)); cbn; split; congruence.
  - intros x. rewrite in_flat_map. split; intros (f & Hf & Hx); exists f; split; trivial.
    + destruct (ET.find _ _ f) as [y|]; [|destruct Hx].
      destruct Hx as [->|[]]. reflexivity.
    + rewrite Hx. left. reflexivity.
Qed.

(** ** The records as a partition of the feature members *)

Lemma list_sum_cons (x : nat) (l : list nat) : list_sum (x :: l) = x + list_sum l.
Proof. reflexivity. Qed.

Lemma list_sum_zero {A : Type} (l : list A) : list_sum (map (fun _ => 0) l) = 0.
Proof. induction l as [|x l IH]; cbn [map]; [reflexivity | rewrite list_sum_cons; exact IH]. Qed.

Lemma list_sum_plus {A : Type} (f g : A -> nat) (l : list A) :
  list_sum (map (fun x => f x + g x) l) = list_sum (map f l) + list_sum (map g l).
Proof.
  induction l as [|x l IH]; cbn [map]; [reflexivity|].
  rewrite !list_sum_cons, IH. lia.
Qed.

Lemma indicator_sum (k : option string) (ids : list (option string)) :
  NoDup ids ->
  list_sum (map (fun u => if Py.eqb k u then 1 else 0) ids) = if in_dec text_eq_dec k ids then 1 else 0.
Proof.
  induction 1 as [|u ids Hnotin Hnd IH]; cbn [map]; [reflexivity|].
  rewrite list_sum_cons, IH. destruct (Py.eqb k u) eqn:E.
  - apply eqb_eq in E. subst u.
    destruct (in_dec text_eq_dec k ids) as [Hin|_]; [contradiction|].
    destruct (in_dec text_eq_dec k (k :: ids)) as [_|Hn]; [reflexivity|].
    destruct Hn. left. reflexivity.
  - assert (Hne : u <> k).
    { intros ->. rewrite (proj2 (eqb_eq k k) eq_refl) in E. discriminate. }
    destruct (in_dec text_eq_dec k ids) as [Hin|Hn];
      destruct (in_dec text_eq_dec k (u :: ids)) as [Hin'|Hn']; try reflexivity.
    + destruct Hn'. right. exact Hin.
    + destruct Hin' as [->|Hin']; [congruence | contradiction].
Qed.

Lemma count_by_key (key : Element -> option string) (ids : list (option string))
  (l : list Element) :
  NoDup ids ->
  (forall f, In f l -> In (key f) ids) ->
  length l
  = list_sum (map (fun u => length (filter (fun f => Py.eqb (key f) u) l)) ids).
Proof.
  intros Hnd. induction l as [|f l IH]; intros Hkey; cbn [filter length].
  - now rewrite list_sum_zero.
  - rewrite (map_ext _ (fun u => (if Py.eqb (key f) u then 1 else 0)
                                 + length (filter (fun f => Py.eqb (key f) u) l))).
    + rewrite list_sum_plus, (indicator_sum _ _ Hnd), <- IH.
      * destruct (in_dec text_eq_dec (key f) ids) as [_|Hn]; [reflexivity|].
        destruct Hn. apply Hkey. left. reflexivity.
      * intros g Hg. apply Hkey. right. exact Hg.
    + intros u. destruct (Py.eqb (key f) u); reflexivity.
Qed.

Lemma feature_uuid_listed (f : Element) (members : list Element) :
  In f members -> has_uuid CitiEnGov.the_namespaces f ->
  In (feature_uuid CitiEnGov.the_namespaces f)
     (flat_map (fun g => map text (ET.findall CitiEnGov.feature_uuid_path
                                     CitiEnGov.the_namespaces g)) members).
Proof.
  intros Hin Hu. apply in_flat_map. exists f. split; [exact Hin|].
  unfold has_uuid, feature_uuid, ET.find in *.
  destruct (ET.findall CitiEnGov.feature_uuid_path CitiEnGov.the_namespaces f) as [|e l];
    [contradiction|].
  left. reflexivity.
Qed.

(** The records of a constructed document divide its feature members: the
    identifier of every feature member is one of [building_UUIDs], the
    member is a fragment of the record of that identifier and of no other,
    and the fragment lists of all records together have as many elements as
    the document has feature members. *)
Theorem records_divide_feature_members :
  forall (order : SetOrder) (doc : Element) (ceg : CitiEnGov.t),
    CitiEnGov.init order doc = Ok ceg ->
    let ns := CitiEnGov.namespaces ceg in
    (forall f,
        In f (CitiEnGov.feature_members ceg) ->
        In (feature_uuid ns f) (CitiEnGov.building_UUIDs ceg)
        /\ forall u, In f (Building.feature_list (record_of ceg u)) <-> u = feature_uuid ns f)
    /\ length (CitiEnGov.feature_members ceg)
       = list_sum (map (fun u => length (Building.feature_list (record_of ceg u)))
                     (CitiEnGov.building_UUIDs ceg)).
Proof.
  intros order doc ceg Hinit ns.
  destruct (init_Ok _ _ _ Hinit) as (Hns & Hfm & Hids & _ & Hall).
  assert (Hlisted : forall f, In f (CitiEnGov.feature_members ceg) ->
                              In (feature_uuid ns f) (CitiEnGov.building_UUIDs ceg)).
  { intros f Hf. rewrite Hids. apply list_set_In.
    rewrite list_of_uuids_members, <- Hfm. unfold ns. rewrite Hns.
    apply feature_uuid_listed; [exact Hf|].
    rewrite Forall_forall in Hall. rewrite <- Hns. apply Hall. exact Hf. }
  split.
  - intros f Hf. split; [exact (Hlisted f Hf)|].
    intros u. cbn [record_of Building.feature_list]. unfold features_of.
    rewrite filter_In, eqb_eq. fold ns. split; [intros [_ H]; now symmetry | intros ->; auto].
  - cbn [record_of Building.feature_list]. unfold features_of. fold ns.
    apply count_by_key; [|exact Hlisted].
    rewrite Hids. apply list_set_NoDup.
Qed.

Lemma records_divide_feature_members_witness :
  exists ceg,
    CitiEnGov.init nodup_order Sample.two_buildings = Ok ceg
    /\ length (CitiEnGov.feature_members ceg) = 4
    /\ map (fun u => length (Building.feature_list (record_of ceg u)))
         (CitiEnGov.building_UUIDs ceg) = [1; 3].
Proof.
  assert (exists ceg, CitiEnGov.init nodup_order Sample.two_buildings = Ok ceg) as [ceg Hceg]
    by (eexists; vm_compute; reflexivity).
  exists ceg. split; [exact Hceg|].
  destruct (records_divide_feature_members nodup_order Sample.two_buildings ceg Hceg)
    as [_ Hsum].
  assert (Hmap : map (fun u => length (Building.feature_list (record_of ceg u)))
                   (CitiEnGov.building_UUIDs ceg) = [1; 3]).
  { vm_compute in Hceg. injection Hceg as <-. vm_compute. reflexivity. }
  rewrite Hmap in Hsum. split; [exact Hsum | exact Hmap].
Defined.

(** ** A document is read once *)

Lemma for_each_Ok_state {S : Type} (body : Building.t -> S -> result S) fuel :
  forall self s s' self',
    CitiEnGov.for_each fuel self body s = Some (Ok s', self') ->
    length (CitiEnGov.building_UUIDs self') < CitiEnGov.UUID_index self'.
Proof.
  induction fuel as [|fuel IH]; intros self s s' self' H; [discriminate|].
  cbn [CitiEnGov.for_each] in H. unfold CitiEnGov.next in H.
  destruct (nth_error (CitiEnGov.building_UUIDs self) (CitiEnGov.UUID_index self))
    as [uuid|] eqn:E.
  - destruct (CitiEnGov.get_building self uuid) as [b|e]; [|discriminate].
    destruct (body b s) as [s1|e]; [|discriminate].
    exact (IH _ _ _ _ H).
  - injection H as _ <-. cbn. apply nth_error_None in E. lia.
Qed.

Lemma for_each_exhausted {S : Type} (body : Building.t -> S -> result S) fuel self s :
  length (CitiEnGov.building_UUIDs self) <= CitiEnGov.UUID_index self ->
  exists self', CitiEnGov.for_each (Datatypes.S fuel) self body s = Some (Ok s, self').
Proof.
  intros H. cbn [CitiEnGov.for_each]. unfold CitiEnGov.next.
  apply nth_error_None in H. rewrite H. eexists. reflexivity.
Qed.

(** The cursor of the document is not reset: after a loop that has ended
    without exception, another loop over the same document is given no
    building, and a translation leaves its translator as it was. *)
Theorem document_is_read_once :
  forall (S : Type) (body : Building.t -> S -> result S) (fuel : nat)
         (ceg ceg' : CitiEnGov.t) (s s' : S),
    CitiEnGov.for_each fuel ceg body s = Some (Ok s', ceg') ->
    (exists c, CitiEnGov.buildings ceg' = Some (Ok [], c))
    /\ (forall insp, exists c, Inspire.translate insp ceg' = Some (Ok insp, c))
    /\ (forall cgml, exists c, CityGML.translate cgml ceg' = Some (Ok cgml, c)).
Proof.
  intros S body fuel ceg ceg' s s' H.
  apply for_each_Ok_state in H.
  unfold CitiEnGov.buildings, Inspire.translate, CityGML.translate, CitiEnGov.calls.
  repeat split; intros; apply for_each_exhausted; lia.
Qed.

Lemma document_is_read_once_witness :
  exists ceg insp insp' ceg' c,
    CitiEnGov.init nodup_order Sample.two_buildings = Ok ceg
    /\ Inspire.init "2024-05-01T12:00:00" = Ok insp
    /\ Inspire.translate insp ceg = Some (Ok insp', ceg')
    /\ length (children (Inspire.root insp')) = 2
    /\ Inspire.translate insp' ceg' = Some (Ok insp', c).
Proof.
  assert (exists ceg, CitiEnGov.init nodup_order Sample.two_buildings = Ok ceg) as [ceg Hceg]
    by (eexists; vm_compute; reflexivity).
  assert (exists insp, Inspire.init "2024-05-01T12:00:00" = Ok insp) as [insp Hinsp]
    by (eexists; vm_compute; reflexivity).
  assert (exists insp' ceg', Inspire.translate insp ceg = Some (Ok insp', ceg')
                             /\ length (children (Inspire.root insp')) = 2)
    as (insp' & ceg' & HI & Hlen).
  { vm_compute in Hceg, Hinsp. injection Hceg as <-. injection Hinsp as <-.
    do 2 eexists. split; [vm_compute; reflexivity | reflexivity]. }
  destruct (document_is_read_once _ _ _ _ _ _ _ HI) as (_ & T & _).
  destruct (T insp') as [c Hc].
  exists ceg, insp, insp', ceg', c. repeat split; assumption.
Defined.

(** ** A translation as a whole *)

(** A loop whose body translates the building with [tb] and stores the
    member with [upd], where the member does not depend on what is stored. *)
Section Loop.
Variables (S : Type) (tb : S -> Building.t -> result Element) (upd : S -> Element -> S).
Hypothesis tb_upd : forall s m b, tb (upd s m) b = tb s b.

Let body (b : Building.t) (s : S) : result S := m <- tb s b ;; Ok (upd s m).

Lemma loop_Ok bs :
  forall s, Forall (fun b => exists m, tb s b = Ok m) bs <-> exists s', run_body body bs s = Ok s'.
Proof.
  induction bs as [|b bs IH]; intros s; cbn [run_body].
  - split; [eauto | constructor].
  - unfold body at 1. split.
    + intros H. inversion H as [|? ? [m Hm] Hrest]; subst. rewrite Hm. cbn [bind].
      apply IH. revert Hrest. apply Forall_impl. intros b' [m' Hm'].
      exists m'. now rewrite tb_upd.
    + intros [s' H]. destruct (tb s b) as [m|e] eqn:E; [|discriminate].
      cbn [bind] in H. constructor; [eauto|].
      assert (Hrest : Forall (fun b' => exists m', tb (upd s m) b' = Ok m') bs)
        by (apply IH; eauto).
      revert Hrest. apply Forall_impl. intros b' [m' Hm'].
      exists m'. now rewrite tb_upd in Hm'.
Qed.

Lemma loop_Raise bs e :
  forall s,
    run_body body bs s = Raise e
    <-> exists pre b post,
        bs = (pre ++ b :: post)%list
        /\ Forall (fun b' => exists m, tb s b' = Ok m) pre
        /\ tb s b = Raise e.
Proof.
  induction bs as [|b bs IH]; intros s; cbn [run_body].
  - split; [discriminate|]. intros (pre & b & post & H & _). destruct pre; discriminate.
  - unfold body at 1. split.
    + destruct (tb s b) as [m|e'] eqn:E; cbn [bind].
      * intros H. apply IH in H. destruct H as (pre & b' & post & -> & Hpre & Hb').
        exists (b :: pre), b', post. split; [reflexivity|]. split.
        -- constructor; [eauto|]. revert Hpre. apply Forall_impl.
           intros x [m' Hm']. exists m'. now rewrite tb_upd in Hm'.
        -- now rewrite tb_upd in Hb'.
      * intros [= ->]. exists [], b, bs. repeat split; [constructor | exact E].
    + intros (pre & b' & post & Heq & Hpre & Hb').
      destruct pre as [|x pre]; cbn in Heq; injection Heq as -> ->.
      * rewrite Hb'. reflexivity.
      * inversion Hpre as [|? ? [m Hm] Hrest]; subst. rewrite Hm. cbn [bind].
        apply IH. exists pre, b', post. split; [reflexivity|]. split.
        -- revert Hrest. apply Forall_impl. intros y [m' Hm']. exists m'. now rewrite tb_upd.
        -- now rewrite tb_upd.
Qed.

End Loop.

Lemma split_map {A B : Type} (f : A -> B) (l : list A) pre b post :
  map f l = (pre ++ b :: post)%list ->
  exists pre' a post', l = (pre' ++ a :: post')%list /\ pre = map f pre' /\ b = f a.
Proof.
  revert pre. induction l as [|x l IH]; intros pre H.
  - destruct pre; discriminate.
  - destruct pre as [|y pre]; cbn in H; injection H as H1 H2.
    + exists [], x, l. repeat split; congruence.
    + destruct (IH _ H2) as (pre' & a & post' & -> & -> & ->).
      exists (x :: pre'), a, post'. repeat split. cbn. congruence.
Qed.

(** A translation stops at the first building that cannot be translated:
    it succeeds exactly when every record of the document translates, and it
    raises [e] exactly when the translation of some record raises [e] and
    all records before it translate.  No member is skipped. *)
Theorem translate_stops_at_first_failure :
  forall (order : SetOrder) (doc : Element) (ceg : CitiEnGov.t),
    CitiEnGov.init order doc = Ok ceg ->
    let ids := CitiEnGov.building_UUIDs ceg in
    (forall insp,
        let ok u := exists m, Inspire.translate_building insp (record_of ceg u) = Ok m in
        ((exists insp' ceg', Inspire.translate insp ceg = Some (Ok insp', ceg'))
         <-> Forall ok ids)
        /\ forall e,
            (exists ceg', Inspire.translate insp ceg = Some (Raise e, ceg'))
            <-> exists pre u post,
                ids = (pre ++ u :: post)%list
                /\ Forall ok pre
                /\ Inspire.translate_building insp (record_of ceg u) = Raise e)
    /\ (forall cgml,
           let ok u := exists m, CityGML.translate_building cgml (record_of ceg u) = Ok m in
           ((exists cgml' ceg', CityGML.translate cgml ceg = Some (Ok cgml', ceg'))
            <-> Forall ok ids)
           /\ forall e,
               (exists ceg', CityGML.translate cgml ceg = Some (Raise e, ceg'))
               <-> exists pre u post,
                   ids = (pre ++ u :: post)%list
                   /\ Forall ok pre
                   /\ CityGML.translate_building cgml (record_of ceg u) = Raise e).
Proof.
  intros order doc ceg Hinit ids.
  destruct (init_Ok _ _ _ Hinit) as (_ & _ & _ & _ & Hall).
  pose proof (records_init _ _ _ Hinit) as Hrec.
  split.
  - intros insp ok.
    destruct (for_each_run Inspire.translate_step (CitiEnGov.calls ceg) ceg insp Hall
                (le_n _)) as [ceg1 Hrun].
    unfold Inspire.translate. rewrite Hrun, Hrec. unfold Inspire.translate_step.
    pose proof (loop_Ok _ Inspire.translate_building
                  (fun s m => Inspire.with_root s (append (Inspire.root s) m))
                  (fun s m b => Inspire_translate_building_with_root s _ b)
                  (map (record_of ceg) ids) insp) as HOk.
    split.
    + rewrite Forall_map in HOk. fold ids. unfold ok. rewrite HOk.
      split; [intros (i' & c' & [= H _]); eauto | intros [s' ->]; eauto].
    + intros e.
      pose proof (loop_Raise _ Inspire.translate_building
                    (fun s m => Inspire.with_root s (append (Inspire.root s) m))
                    (fun s m b => Inspire_translate_building_with_root s _ b)
                    (map (record_of ceg) ids) e insp) as HR.
      split.
      * intros (c' & [= H _]). apply HR in H.
        destruct H as (pre & b & post & Heq & Hpre & Hb).
        destruct (split_map _ _ _ _ _ Heq) as (pre' & u & post' & Hids & -> & ->).
        exists pre', u, post'. split; [exact Hids|]. split; [|exact Hb].
        rewrite Forall_map in Hpre. exact Hpre.
      * intros (pre & u & post & Hids & Hpre & Hu).
        exists ceg1. f_equal. f_equal. apply HR.
        exists (map (record_of ceg) pre), (record_of ceg u), (map (record_of ceg) post).
        split; [fold ids; rewrite Hids, map_app; reflexivity|].
        split; [rewrite Forall_map; exact Hpre | exact Hu].
  - intros cgml ok.
    destruct (for_each_run CityGML.translate_step (CitiEnGov.calls ceg) ceg cgml Hall
                (le_n _)) as [ceg1 Hrun].
    unfold CityGML.translate. rewrite Hrun, Hrec. unfold CityGML.translate_step.
    pose proof (loop_Ok _ CityGML.translate_building
                  (fun s m => CityGML.with_root s (append (CityGML.root s) m))
                  (fun s m b => CityGML_translate_building_with_root s _ b)
                  (map (record_of ceg) ids) cgml) as HOk.
    split.
    + rewrite Forall_map in HOk. fold ids. unfold ok. rewrite HOk.
      split; [intros (i' & c' & [= H _]); eauto | intros [s' ->]; eauto].
    + intros e.
      pose proof (loop_Raise _ CityGML.translate_building
                    (fun s m => CityGML.with_root s (append (CityGML.root s) m))
                    (fun s m b => CityGML_translate_building_with_root s _ b)
                    (map (record_of ceg) ids) e cgml) as HR.
      split.
      * intros (c' & [= H _]). apply HR in H.
        destruct H as (pre & b & post & Heq & Hpre & Hb).
        destruct (split_map _ _ _ _ _ Heq) as (pre' & u & post' & Hids & -> & ->).
        exists pre', u, post'. split; [exact Hids|]. split; [|exact Hb].
        rewrite Forall_map in Hpre. exact Hpre.
      * intros (pre & u & post & Hids & Hpre & Hu).
        exists ceg1. f_equal. f_equal. apply HR.
        exists (map (record_of ceg) pre), (record_of ceg u), (map (record_of ceg) post).
        split; [fold ids; rewrite Hids, map_app; reflexivity|].
        split; [rewrite Forall_map; exact Hpre | exact Hu].
Qed.

Lemma translate_stops_at_first_failure_witness :
  exists ceg insp cgml,
    CitiEnGov.init nodup_order Sample.second_undated = Ok ceg
    /\ CitiEnGov.building_UUIDs ceg = [Some "b-1"; Some "b-2"]
    /\ Inspire.init "2024-05-01T12:00:00" = Ok insp
    /\ (exists ceg', Inspire.translate insp ceg = Some (Raise AttributeError, ceg'))
    /\ CityGML.init = Ok cgml
    /\ (exists cgml' ceg', CityGML.translate cgml ceg = Some (Ok cgml', ceg')).
Proof.
  assert (exists ceg, CitiEnGov.init nodup_order Sample.second_undated = Ok ceg) as [ceg Hceg]
    by (eexists; vm_compute; reflexivity).
  assert (exists insp, Inspire.init "2024-05-01T12:00:00" = Ok insp) as [insp Hinsp]
    by (eexists; vm_compute; reflexivity).
  assert (exists cgml, CityGML.init = Ok cgml) as [cgml Hcgml]
    by (eexists; vm_compute; reflexivity).
  destruct (translate_stops_at_first_failure nodup_order Sample.second_undated ceg Hceg)
    as [TI TC].
  cbv zeta in TI, TC.
  destruct (TI insp) as [_ TIe]. destruct (TC cgml) as [TCok _].
  exists ceg, insp, cgml.
  vm_compute in Hceg, Hinsp, Hcgml.
  injection Hceg as <-. injection Hinsp as <-. injection Hcgml as <-.
  split; [reflexivity|]. split; [reflexivity|]. split; [reflexivity|].
  split; [|split; [reflexivity|]].
  - apply TIe. exists [Some "b-1"], (Some "b-2"), [].
    split; [reflexivity|]. split.
    + constructor; [|constructor]. eexists. vm_compute. reflexivity.
    + vm_compute. reflexivity.
  - apply TCok. constructor; [|constructor; [|constructor]];
      eexists; vm_compute; reflexivity.
Defined.

Lemma for_each_related {S : Type} (R : S -> S -> Prop)
  (body : Building.t -> S -> result S) :
  (forall s, R s s) ->
  (forall a b c, R a b -> R b c -> R a c) ->
  (forall b s s1, body b s = Ok s1 -> R s s1) ->
  forall fuel self s s' self',
    CitiEnGov.for_each fuel self body s = Some (Ok s', self') -> R s s'.
Proof.
  intros Hrefl Htrans Hbody.
  induction fuel as [|fuel IH]; intros self s s' self' H; [discriminate|].
  cbn [CitiEnGov.for_each] in H.
  destruct (CitiEnGov.next self) as [[b| |e] self1]; [| |discriminate].
  - destruct (body b s) as [s1|e] eqn:E; [|discriminate].
    exact (Htrans _ _ _ (Hbody _ _ _ E) (IH _ _ _ _ H)).
  - injection H as <- _. apply Hrefl.
Qed.

Lemma extend_nil (r : Element) : extend r [] = r.
Proof. destruct r. unfold extend. cbn. now rewrite app_nil_r. Qed.

Lemma extend_extend (r : Element) (l1 l2 : list Element) :
  extend (extend r l1) l2 = extend r (l1 ++ l2).
Proof. destruct r. unfold extend. cbn. now rewrite app_assoc. Qed.

(** A translation only appends: the translator it leaves is the one it was
    given, code-lists and root name and attributes included, with new
    members after the children the root had.  A translator that has been
    used keeps the members of its earlier translations. *)
Theorem translate_only_appends :
  (forall insp ceg insp' ceg',
      Inspire.translate insp ceg = Some (Ok insp', ceg') ->
      exists ms, insp' = Inspire.with_root insp (extend (Inspire.root insp) ms))
  /\ (forall cgml ceg cgml' ceg',
         CityGML.translate cgml ceg = Some (Ok cgml', ceg') ->
         exists ms, cgml' = CityGML.with_root cgml (extend (CityGML.root cgml) ms)).
Proof.
  split.
  - intros insp ceg insp' ceg'. unfold Inspire.translate.
    apply (for_each_related
             (fun s s' => exists ms, s' = Inspire.with_root s (extend (Inspire.root s) ms))).
    + intros s. exists []. rewrite extend_nil. destruct s. reflexivity.
    + intros a b c [l1 ->] [l2 ->]. exists (l1 ++ l2)%list.
      cbn. rewrite extend_extend. reflexivity.
    + intros b s s1 H. unfold Inspire.translate_step in H. bind_inv H.
      injection H as <-. exists [a]. reflexivity.
  - intros cgml ceg cgml' ceg'. unfold CityGML.translate.
    apply (for_each_related
             (fun s s' => exists ms, s' = CityGML.with_root s (extend (CityGML.root s) ms))).
    + intros s. exists []. rewrite extend_nil. destruct s. reflexivity.
    + intros a b c [l1 ->] [l2 ->]. exists (l1 ++ l2)%list.
      cbn. rewrite extend_extend. reflexivity.
    + intros b s s1 H. unfold CityGML.translate_step in H. bind_inv H.
      injection H as <-. exists [a]. reflexivity.
Qed.

Lemma translate_only_appends_witness :
  exists ceg insp insp1 insp2 c1 c2,
    CitiEnGov.init nodup_order Sample.two_buildings = Ok ceg
    /\ Inspire.init "2024-05-01T12:00:00" = Ok insp
    /\ Inspire.translate insp ceg = Some (Ok insp1, c1)
    /\ Inspire.translate insp1 ceg = Some (Ok insp2, c2)
    /\ length (children (Inspire.root insp1)) = 2
    /\ length (children (Inspire.root insp2)) = 4
    /\ firstn 2 (children (Inspire.root insp2)) = children (Inspire.root insp1).
Proof.
  assert (exists ceg, CitiEnGov.init nodup_order Sample.two_buildings = Ok ceg) as [ceg Hceg]
    by (eexists; vm_compute; reflexivity).
  assert (exists insp, Inspire.init "2024-05-01T12:00:00" = Ok insp) as [insp Hinsp]
    by (eexists; vm_compute; reflexivity).
  assert (exists insp1 c1, Inspire.translate insp ceg = Some (Ok insp1, c1)
                           /\ length (children (Inspire.root insp1)) = 2)
    as (insp1 & c1 & H1 & L1).
  { vm_compute in Hceg, Hinsp. injection Hceg as <-. injection Hinsp as <-.
    do 2 eexists. split; [vm_compute; reflexivity | reflexivity]. }
  assert (exists insp2 c2, Inspire.translate insp1 ceg = Some (Ok insp2, c2)
                           /\ length (children (Inspire.root insp2)) = 4)
    as (insp2 & c2 & H2 & L2).
  { vm_compute in Hceg, Hinsp. injection Hceg as <-. injection Hinsp as <-.
    vm_compute in H1. injection H1 as <- _.
    do 2 eexists. split; [vm_compute; reflexivity | reflexivity]. }
  exists ceg, insp, insp1, insp2, c1, c2.
  destruct translate_only_appends as [T _].
  destruct (T _ _ _ _ H2) as [ms Hms].
  repeat split; try assumption.
  rewrite Hms. cbn [Inspire.root Inspire.with_root extend children].
  rewrite <- L1. rewrite firstn_app, Nat.sub_diag, firstn_all. cbn. apply app_nil_r.
Defined.

(** ** Code-lists and lower-cased terms *)

Lemma lower_char_not_upper c : Py.is_upper (Py.lower_char c) = false.
Proof.
  unfold Py.lower_char. destruct (Py.is_upper c) eqn:E; [|exact E].
  unfold Py.is_upper in *. apply andb_true_iff in E. destruct E as [H1 H2].
  apply Nat.leb_le in H1, H2.
  rewrite nat_ascii_embedding by lia.
  apply andb_false_iff. right. apply Nat.leb_gt. lia.
Qed.

Lemma lower_none_upper t : none_of Py.is_upper (Py.lower t) = true.
Proof.
  induction t as [|c t IH]; cbn [Py.lower none_of]; [reflexivity|].
  rewrite lower_char_not_upper, IH. reflexivity.
Qed.

(** A key with a capital letter is never the lower-cased term. *)
Lemma eqb_lower_key t k :
  none_of Py.is_upper k = false -> String.eqb (Py.lower t) k = false.
Proof.
  intros Hk. destruct (String.eqb (Py.lower t) k) eqn:E; [|reflexivity].
  apply String.eqb_eq in E. rewrite <- E, lower_none_upper in Hk. discriminate.
Qed.

Lemma CityGML_init_dicts cgml :
  CityGML.init = Ok cgml ->
  CityGML.nss cgml = CityGML.solver
  /\ CityGML.usage_dict cgml
     = [("school", "2070"); ("residential", "1000"); ("residenziale", "1000");
        ("commercio", "1150"); ("ausiliario", "2700")]
  /\ CityGML.roof_type_dict cgml = []
  /\ CityGML.height_reference_dict cgml
     = [("bottomOfConstruction", "bottomOfConstruction");
        ("entrancePoint", "entrancePoint");
        ("generalEave", "generalEave");
        ("generalroof", "generalRoof");
        ("generalRoofEdge", "generalRoofEdge");
        ("highestEave", "highestEave");
        ("highestPoint", "highestPoint");
        ("highestRoofEdge", "highestRoofEdge");
        ("lowestEave", "lowestEave");
        ("lowestFloorAboveGround", "lowestFloorAboveGround");
        ("lowestRoofEdge", "lowestRoofEdge");
        ("topOfConstruction", "topOfConstruction");
        ("topThermalBoundary", "topThermalBoundary");
        ("bottomThermalBoundary", "topThermalBoundary")]
  /\ CityGML.building_type_dict cgml
     = [("ApartmentBlock", "ApartmentBlock");
        ("MultiFamilyHouse", "MultiFamilyHouse");
        ("RowHouse", "RowHouse");
        ("SingleFamilyHouse", "SingleFamilyHouse")].
Proof.
  unfold CityGML.init. intros H. crunch H. injection H as <-. repeat split.
Qed.

Lemma Inspire_init_nature ts insp :
  Inspire.init ts = Ok insp -> Inspire.building_nature_dict insp = [].
Proof. unfold Inspire.init. intros H. crunch H. injection H as <-. reflexivity. Qed.

(** The building-nature code-list of INSPIRE is empty: for a building with
    the attribute BUILDINGTYPE the block raises the [KeyError] of the
    lower-cased type (an [AttributeError] when the element has no text), and
    the building has no translation. *)
Theorem inspire_building_type_not_translated :
  forall (ts : string) (insp : Inspire.t) (bu : Building.t) (e : Element),
    Inspire.init ts = Ok insp ->
    Building.find bu "BUILDINGTYPE" = Some e ->
    (forall t, text e = Some t ->
               Inspire.building_nature insp bu = Raise (KeyError (Some (Py.lower t))))
    /\ (text e = None -> Inspire.building_nature insp bu = Raise AttributeError)
    /\ forall m, Inspire.translate_building insp bu <> Ok m.
Proof.
  intros ts insp bu e Hinit He.
  destruct (Inspire_init_Ok _ _ Hinit) as [Hnss _].
  pose proof (Inspire_init_nature _ _ Hinit) as Hdict.
  assert (Hblock : forall l, Inspire.building_nature insp bu <> Ok l).
  { intros l H. unfold Inspire.building_nature in H. rewrite He, Hdict in H.
    cbn [str_text_of] in H. destruct (text e); discriminate. }
  repeat split.
  - intros t Ht. unfold Inspire.building_nature. rewrite He, Hdict. cbn [str_text_of].
    rewrite Ht. reflexivity.
  - intros Ht. unfold Inspire.building_nature. rewrite He. cbn [str_text_of].
    rewrite Ht. reflexivity.
  - intros m H.
    destruct (InspireBuilding.inspire_member_blocks _ _ _ Hnss H)
      as (b1 & b2 & b3 & b4 & b5 & b6 & b7 & b8 & b9 & b10 & b11 & b12 & H').
    decompose [and] H'. eapply Hblock; eauto.
Qed.

Lemma inspire_building_type_not_translated_witness :
  exists insp,
    Inspire.init "2024-05-01T12:00:00" = Ok insp
    /\ Inspire.building_nature insp Sample.typed = Raise (KeyError (Some "rowhouse"))
    /\ Inspire.translate_building insp Sample.typed = Raise (KeyError (Some "rowhouse")).
Proof.
  assert (exists insp, Inspire.init "2024-05-01T12:00:00" = Ok insp) as [insp Hinsp]
    by (eexists; vm_compute; reflexivity).
  exists insp. split; [exact Hinsp|].
  destruct (inspire_building_type_not_translated _ insp Sample.typed
              (Sample.field "BUILDINGTYPE" "RowHouse") Hinsp eq_refl) as (T & _ & _).
  split; [exact (T "RowHouse" eq_refl)|].
  vm_compute in Hinsp. injection Hinsp as <-. vm_compute. reflexivity.
Defined.

(** In CityGML the roof-type code-list is empty, and the keys of the
    building-type code-list have capital letters while the term is
    lower-cased before the lookup: for a building with the attribute
    ROOF_TYPE or BUILDINGTYPE the block raises the [KeyError] of the
    lower-cased term, whatever the term is, and the building has no
    translation. *)
Theorem citygml_types_not_translated :
  forall (cgml : CityGML.t) (bu : Building.t) (e : Element) (t : string),
    CityGML.init = Ok cgml ->
    text e = Some t ->
    (Building.find bu "ROOF_TYPE" = Some e ->
     CityGML.roof_type cgml bu = Raise (KeyError (Some (Py.lower t)))
     /\ forall m, CityGML.translate_building cgml bu <> Ok m)
    /\ (Building.find bu "BUILDINGTYPE" = Some e ->
        CityGML.building_type cgml bu = Raise (KeyError (Some (Py.lower t)))
        /\ forall m, CityGML.translate_building cgml bu <> Ok m).
Proof.
  intros cgml bu e t Hinit Ht.
  destruct (CityGML_init_dicts _ Hinit) as (Hnss & _ & Hroof & _ & Hbt).
  split; intros He.
  - assert (Hr : CityGML.roof_type cgml bu = Raise (KeyError (Some (Py.lower t)))).
    { unfold CityGML.roof_type. rewrite He, Hroof. cbn [str_text_of]. rewrite Ht.
      reflexivity. }
    split; [exact Hr|]. intros m H. unfold CityGML.translate_building in H.
    do 19 bind_inv H. congruence.
  - assert (Hb : CityGML.building_type cgml bu = Raise (KeyError (Some (Py.lower t)))).
    { unfold CityGML.building_type. rewrite He, Hbt. cbn [str_text_of]. rewrite Ht.
      cbn [bind]. unfold Py.getitem, Py.get. cbn [Py.assoc_get].
      rewrite !eqb_lower_key by reflexivity. reflexivity. }
    split; [exact Hb|]. intros m H. unfold CityGML.translate_building in H.
    do 19 bind_inv H. congruence.
Qed.

Lemma citygml_types_not_translated_witness :
  exists cgml,
    CityGML.init = Ok cgml
    /\ CityGML.translate_building cgml Sample.roofed = Raise (KeyError (Some "flat"))
    /\ CityGML.building_type cgml Sample.typed = Raise (KeyError (Some "rowhouse"))
    /\ CityGML.translate_building cgml Sample.typed = Raise (KeyError (Some "rowhouse")).
Proof.
  assert (exists cgml, CityGML.init = Ok cgml) as [cgml Hcgml]
    by (eexists; vm_compute; reflexivity).
  exists cgml. split; [exact Hcgml|].
  destruct (citygml_types_not_translated cgml Sample.typed
              (Sample.field "BUILDINGTYPE" "RowHouse") "RowHouse" Hcgml eq_refl)
    as [_ T].
  destruct (T eq_refl) as [Hb _].
  vm_compute in Hcgml. injection Hcgml as <-.
  split; [vm_compute; reflexivity|]. split; [exact Hb|]. vm_compute. reflexivity.
Defined.

(** Of the height-reference code-list of CityGML only [generalroof] can be
    found, since the term is lower-cased and the other keys have capital
    letters: the height block is built exactly when the lower-cased
    reference is [generalroof], with the reference [generalRoof]; another
    reference is the [KeyError] of its lower-cased term, and a building with
    a height but no reference is an [AttributeError]. *)
Theorem citygml_height_reference_is_generalroof :
  forall (cgml : CityGML.t) (bu : Building.t) (v : Element),
    CityGML.init = Ok cgml ->
    Building.find bu "HEIGHT_HEIGHT_VAL" = Some v ->
    (Building.find bu "HEIGHT_HEIGHT_REF" = None ->
     CityGML.height_above_ground cgml bu = Raise AttributeError)
    /\ (forall r ref,
           Building.find bu "HEIGHT_HEIGHT_REF" = Some r ->
           text r = Some ref ->
           (Py.lower ref = "generalroof" ->
            CityGML.height_above_ground cgml bu = Ok [citygml_height "generalRoof" (text v)])
           /\ (Py.lower ref <> "generalroof" ->
               CityGML.height_above_ground cgml bu
               = Raise (KeyError (Some (Py.lower ref))))).
Proof.
  intros cgml bu v Hinit Hv.
  destruct (CityGML_init_dicts _ Hinit) as (Hnss & _ & _ & Hdict & _).
  unfold CityGML.height_above_ground. rewrite Hv, Hnss, Hdict. split.
  - intros ->. reflexivity.
  - intros r ref -> Ht. cbn [str_text_of]. rewrite Ht. cbn [bind].
    unfold Py.getitem, Py.get. cbn [Py.assoc_get].
    rewrite !eqb_lower_key by reflexivity. split.
    + intros ->. cbn [String.eqb Ascii.eqb]. unfold SubElement. tags. reflexivity.
    + intros Hne. destruct (String.eqb_spec (Py.lower ref) "generalroof"); [contradiction|].
      rewrite !eqb_lower_key by reflexivity. reflexivity.
Qed.

Lemma citygml_height_reference_is_generalroof_witness :
  exists cgml,
    CityGML.init = Ok cgml
    /\ CityGML.height_above_ground cgml Sample.high_roof
       = Ok [citygml_height "generalRoof" (Some "12.5")]
    /\ CityGML.height_above_ground cgml Sample.high_point
       = Raise (KeyError (Some "highestpoint"))
    /\ CityGML.height_above_ground cgml Sample.high = Raise AttributeError.
Proof.
  assert (exists cgml, CityGML.init = Ok cgml) as [cgml Hcgml]
    by (eexists; vm_compute; reflexivity).
  exists cgml. split; [exact Hcgml|].
  destruct (citygml_height_reference_is_generalroof cgml Sample.high_roof
              (Sample.field "HEIGHT_HEIGHT_VAL" "12.5") Hcgml eq_refl) as [_ T1].
  destruct (citygml_height_reference_is_generalroof cgml Sample.high_point
              (Sample.field "HEIGHT_HEIGHT_VAL" "12.5") Hcgml eq_refl) as [_ T2].
  destruct (citygml_height_reference_is_generalroof cgml Sample.high
              (Sample.field "HEIGHT_HEIGHT_VAL" "12.5") Hcgml eq_refl) as [T3 _].
  split; [|split].
  - apply (T1 (Sample.field "HEIGHT_HEIGHT_REF" "generalRoof") "generalRoof" eq_refl eq_refl).
    reflexivity.
  - apply (T2 (Sample.field "HEIGHT_HEIGHT_REF" "highestPoint") "highestPoint"
              eq_refl eq_refl).
    discriminate.
  - apply T3. reflexivity.
Defined.

(** ** The attributes a translation needs *)

Lemma find_all_nil (bu : Building.t) (attribute : string) :
  Building.find bu attribute = None <-> Building.find_all bu attribute = [].
Proof.
  unfold Building.find, Building.find_all. rewrite first_match_hd.
  destruct (flat_map _ (Building.feature_list bu)); cbn; split; congruence.
Qed.

(** Closes a goal in which the block of [H] reads the absent attribute of [Hb]. *)
Ltac absent Hnss H Hb :=
  match type of H with
  | ?f _ _ = Ok _ => unfold f in H
  | ?f _ _ _ _ = Ok _ => unfold f in H
  end;
  rewrite ?Hb, ?Hnss in H; crunch H; try discriminate H; congruence.

(** A building that INSPIRE translates has the beginning of its lifespan,
    the two parts of its identifier and its geometry; with an external
    reference it has the identifier and the name of the information system,
    and with a height it has the status of the height. *)
Theorem inspire_member_needs_attributes :
  forall (ts : string) (insp : Inspire.t) (bu : Building.t) (m : Element),
    Inspire.init ts = Ok insp ->
    Inspire.translate_building insp bu = Ok m ->
    (forall a, In a inspire_required -> Building.find bu a <> None)
    /\ (forall a b, In (a, b) inspire_dependent ->
                    Building.find bu a <> None -> Building.find bu b <> None).
Proof.
  intros ts insp bu m Hinit H.
  destruct (Inspire_init_Ok _ _ Hinit) as [Hnss _].
  destruct (InspireBuilding.inspire_member_blocks _ _ _ Hnss H)
    as (b1 & b2 & b3 & b4 & b5 & b6 & b7 & b8 & b9 & b10 & b11 & b12 & H').
  destruct H' as (H1 & _ & _ & _ & H5 & H6 & H7 & _ & _ & _ & _ & H12 & _).
  split.
  - intros a Ha Hb. cbn in Ha.
    destruct Ha as [<-|[<-|[<-|[<-|[]]]]].
    + absent Hnss H1 Hb.
    + absent Hnss H7 Hb.
    + absent Hnss H7 Hb.
    + absent Hnss H12 Hb.
  - intros a b Hin Ha Hb. cbn in Hin.
    destruct Hin as [E|[E|[E|[]]]]; injection E as <- <-.
    + absent Hnss H5 Hb.
    + absent Hnss H5 Hb.
    + absent Hnss H6 Hb.
Qed.

Lemma inspire_member_needs_attributes_witness :
  exists insp m,
    Inspire.init "2024-05-01T12:00:00" = Ok insp
    /\ Inspire.translate_building insp Sample.high = Ok m
    /\ Building.find Sample.high "IDENTIFIER_ID_NAME" <> None
    /\ Building.find Sample.high "HEIGHT_HEIGHT_STAT" <> None.
Proof.
  assert (exists insp, Inspire.init "2024-05-01T12:00:00" = Ok insp) as [insp Hinsp]
    by (eexists; vm_compute; reflexivity).
  assert (exists m, Inspire.translate_building insp Sample.high = Ok m) as [m Hm]
    by (vm_compute in Hinsp; injection Hinsp as <-; eexists; vm_compute; reflexivity).
  exists insp, m. split; [exact Hinsp|]. split; [exact Hm|].
  destruct (inspire_member_needs_attributes _ insp Sample.high m Hinsp Hm) as [R D].
  split.
  - apply R. cbn. tauto.
  - apply (D "HEIGHT_HEIGHT_VAL"); [cbn; tauto | discriminate].
Defined.

(** A building that CityGML translates has its geometry, and of each pair of
    attributes that go together the second whenever it has the first: the
    identifier of the information system with an external reference, the
    name with the local identifier, the source, the years and the unit with
    the values of a carrier, the end with the beginning of a renovation, the
    method with the class of the energy performance, the reference with the
    height. *)
Theorem citygml_member_needs_attributes :
  forall (cgml : CityGML.t) (bu : Building.t) (m : Element),
    CityGML.init = Ok cgml ->
    CityGML.translate_building cgml bu = Ok m ->
    Building.find bu geometry_path <> None
    /\ (forall a b, In (a, b) citygml_dependent ->
                    Building.find bu a <> None -> Building.find bu b <> None).
Proof.
  intros cgml bu m Hinit H.
  destruct (CityGML_init_Ok _ Hinit) as [Hnss _].
  unfold CityGML.translate_building in H. do 19 bind_inv H. clear H.
  assert (Hdemand : forall value carrier source years uom kind l,
             CityGML.demand cgml bu value carrier = Ok l ->
             CityGML.make_demand cgml bu carrier
             = CityGML.demand_of cgml bu carrier source years uom value kind ->
             Building.find bu value <> None ->
             Building.find bu source <> None /\ Building.find bu years <> None
             /\ Building.find bu uom <> None).
  { intros value carrier source years uom kind l Hd Hmk Hv.
    unfold CityGML.demand in Hd.
    destruct (Building.find_all bu value) as [|v vs] eqn:Ev;
      [apply find_all_nil in Ev; congruence|].
    cbn [forallb CityGML.is_none andb negb] in Hd. bind_inv Hd. clear Hd.
    rewrite Hmk in Ha18. unfold CityGML.demand_of in Ha18.
    destruct (Building.find bu source) eqn:Es; [|discriminate].
    cbn [str_text_of bind] in Ha18. destruct (text e); [|discriminate].
    cbn [bind] in Ha18.
    destruct (negb (String.eqb (Py.lower s) carrier)); [discriminate|].
    destruct (Building.find bu uom) eqn:Eu; [|discriminate].
    cbn [str_text_of bind] in Ha18. destruct (text e0); [|discriminate].
    cbn [bind] in Ha18.
    repeat split; try discriminate.
    intros Hy. apply find_all_nil in Hy. rewrite Hy in Ha18.
    unfold CityGML.demand_element in Ha18. rewrite Hnss in Ha18. crunch Ha18.
    discriminate. }
  split.
  - intros Hb. absent Hnss Ha10 Hb.
  - intros x y Hin Hfa Hb. cbn in Hin.
    destruct Hin as [E|[E|[E|[E|[E|[E|[E|[E|[E|[E|[E|[]]]]]]]]]]]]; injection E as <- <-.
    + absent Hnss Ha2 Hb.
    + absent Hnss Ha3 Hb.
    + destruct (Hdemand _ _ _ _ _ _ _ Ha4 eq_refl Hfa) as (D1 & D2 & D3); contradiction.
    + destruct (Hdemand _ _ _ _ _ _ _ Ha4 eq_refl Hfa) as (D1 & D2 & D3); contradiction.
    + destruct (Hdemand _ _ _ _ _ _ _ Ha4 eq_refl Hfa) as (D1 & D2 & D3); contradiction.
    + destruct (Hdemand _ _ _ _ _ _ _ Ha5 eq_refl Hfa) as (D1 & D2 & D3); contradiction.
    + destruct (Hdemand _ _ _ _ _ _ _ Ha5 eq_refl Hfa) as (D1 & D2 & D3); contradiction.
    + destruct (Hdemand _ _ _ _ _ _ _ Ha5 eq_refl Hfa) as (D1 & D2 & D3); contradiction.
    + absent Hnss Ha11 Hb.
    + absent Hnss Ha12 Hb.
    + absent Hnss Ha13 Hb.
Qed.

Lemma citygml_member_needs_attributes_witness :
  exists cgml m,
    CityGML.init = Ok cgml
    /\ CityGML.translate_building cgml Sample.metered = Ok m
    /\ Building.find Sample.metered "ENERGYAMOUNT_E_YEAR_ONLY_E" <> None
    /\ Building.find Sample.metered "IDENTIFIER_ID_NAME" <> None.
Proof.
  assert (exists cgml, CityGML.init = Ok cgml) as [cgml Hcgml]
    by (eexists; vm_compute; reflexivity).
  assert (exists m, CityGML.translate_building cgml Sample.metered = Ok m) as [m Hm]
    by (vm_compute in Hcgml; injection Hcgml as <-; eexists; vm_compute; reflexivity).
  exists cgml, m. split; [exact Hcgml|]. split; [exact Hm|].
  destruct (citygml_member_needs_attributes cgml Sample.metered m Hcgml Hm) as [_ D].
  split.
  - apply (D "CONSUMONORM_VALORE_E"); [cbn; tauto | discriminate].
  - apply (D "IDENTIFIER_ID_LOC"); [cbn; tauto | discriminate].
Defined.

(** CityGML needs nothing but the geometry: a building with its geometry and
    none of the attributes that the translator tests is translated to a
    member whose building holds the footprint and nothing else. *)
Theorem citygml_member_of_geometry_alone :
  forall (cgml : CityGML.t) (bu : Building.t) (co : Element),
    CityGML.init = Ok cgml ->
    Building.find bu geometry_path = Some co ->
    (forall a, In a citygml_optional -> Building.find bu a = None) ->
    CityGML.translate_building cgml bu
    = Ok (mkElement "{http://www.opengis.net/citygml/2.0}cityObjectMember" [] None
            [mkElement (bldg "Building") [] None [citygml_geometry co]]).
Proof.
  intros cgml bu co Hinit Hco Hopt.
  destruct (CityGML_init_Ok _ Hinit) as [Hnss _].
  unfold CityGML.translate_building, CityGML.name, CityGML.creation_date,
    CityGML.termination_date, CityGML.external_reference, CityGML.external_reference_id,
    CityGML.demand, CityGML.usage, CityGML.year_of_construction, CityGML.roof_type,
    CityGML.storeys_above_ground, CityGML.lod_0_foot_print, CityGML.refurbishment_measure,
    CityGML.energy_certification, CityGML.height_above_ground, CityGML.typed_value,
    CityGML.building_type.
  rewrite Hco, Hnss.
  rewrite (proj1 (find_all_nil bu "CONSUMONORM_VALORE_E")
             (Hopt "CONSUMONORM_VALORE_E" ltac:(cbn; tauto))).
  rewrite (proj1 (find_all_nil bu "CONSUMONORM_VALORE_T")
             (Hopt "CONSUMONORM_VALORE_T" ltac:(cbn; tauto))).
  repeat match goal with
    | |- context [Building.find bu ?a] => rewrite (Hopt a) by (cbn; tauto)
    end.
  unfold SubElement. tags. reflexivity.
Qed.

Lemma citygml_member_of_geometry_alone_witness :
  exists cgml co,
    CityGML.init = Ok cgml
    /\ Building.find Sample.bare geometry_path = Some co
    /\ CityGML.translate_building cgml Sample.bare
       = Ok (mkElement "{http://www.opengis.net/citygml/2.0}cityObjectMember" [] None
               [mkElement (bldg "Building") [] None [citygml_geometry co]]).
Proof.
  assert (exists cgml, CityGML.init = Ok cgml) as [cgml Hcgml]
    by (eexists; vm_compute; reflexivity).
  assert (exists co, Building.find Sample.bare geometry_path = Some co) as [co Hco]
    by (eexists; vm_compute; reflexivity).
  exists cgml, co. split; [exact Hcgml|]. split; [exact Hco|].
  apply (citygml_member_of_geometry_alone cgml Sample.bare co Hcgml Hco).
  intros a Ha. cbn in Ha.
  repeat (destruct Ha as [<-|Ha]; [vm_compute; reflexivity|]). destruct Ha.
Defined.

(** ** Storeys and refurbishment in CityGML *)

Lemma free_of_none_of chars s : free_of chars s = none_of (fun c => Py.mem_char c chars) s.
Proof. induction s as [|c s IH]; cbn; [reflexivity | now rewrite IH]. Qed.

Lemma join_repeat_comma (h : string) (n : nat) :
  Py.join (repeat (h ++ ",") (S n)) = String.concat "," (repeat h (S n)) ++ ",".
Proof.
  induction n as [|n IH].
  - reflexivity.
  - change (repeat (h ++ ",") (S (S n))) with ((h ++ ",") :: repeat (h ++ ",") (S n)).
    rewrite join_cons, IH.
    change (String.concat "," (repeat h (S (S n))))
      with (h ++ "," ++ String.concat "," (repeat h (S n))).
    rewrite !append_assoc3. reflexivity.
Qed.

Lemma concat_repeat_ends (h : string) (n : nat) :
  exists s, String.concat "," (repeat h (S n)) = s ++ h.
Proof.
  induction n as [|n [s IH]].
  - exists "". reflexivity.
  - exists (h ++ "," ++ s).
    change (String.concat "," (repeat h (S (S n))))
      with (h ++ "," ++ String.concat "," (repeat h (S n))).
    rewrite IH, !append_assoc3. reflexivity.
Qed.

Lemma storey_heights_text_repeat (h : string) (n : Z) :
  free_of "," h = true -> h <> "" ->
  CityGML.storey_heights_text (Some h) n = String.concat "," (repeat h (Z.to_nat n)).
Proof.
  intros Hfree Hne. unfold CityGML.storey_heights_text, Py.rstrip_chars. cbn [Py.str].
  destruct (Z.to_nat n) as [|k]; [reflexivity|].
  rewrite free_of_none_of in Hfree.
  set (p := fun c => Py.mem_char c ",") in *.
  rewrite join_repeat_comma, rstrip_app.
  change (Py.rstrip p ",") with "". cbv iota.
  destruct (concat_repeat_ends h k) as [s ->].
  rewrite rstrip_app, (rstrip_none_of _ _ Hfree). destruct h; [congruence | reflexivity].
Qed.

(** The storeys of CityGML.  The height of a storey is read only when the
    building has a number of floors, and the number of floors is read as a
    number only when the building has a storey height: without a height the
    text of the floors is copied whatever it is; with a height, floors
    without text are a [TypeError] and an ASCII text that is no numeral is a
    [ValueError].  For a numeral [n] and a height without comma, the heights
    text is the height [n] times, joined by commas, which is empty for an
    [n] below one. *)
Theorem storey_heights_repeat_the_height :
  forall (cgml : CityGML.t) (bu : Building.t),
    CityGML.init = Ok cgml ->
    (Building.find bu "FLOORS" = None -> CityGML.storeys_above_ground cgml bu = Ok [])
    /\ forall fl,
        Building.find bu "FLOORS" = Some fl ->
        (Building.find bu "H_FLOOR" = None ->
         CityGML.storeys_above_ground cgml bu = Ok [citygml_storeys (text fl)])
        /\ forall he,
            Building.find bu "H_FLOOR" = Some he ->
            (text fl = None ->
             CityGML.storeys_above_ground cgml bu = Raise TypeError)
            /\ (forall floors,
                   text fl = Some floors ->
                   is_ascii floors = true ->
                   Py.int_of_string floors = None ->
                   CityGML.storeys_above_ground cgml bu = Raise ValueError)
            /\ (forall n h,
                   Py.int (text fl) = Ok n ->
                   text he = Some h ->
                   free_of "," h = true ->
                   h <> "" ->
                   CityGML.storeys_above_ground cgml bu
                   = Ok [citygml_storeys (text fl);
                         citygml_storey_heights
                           (String.concat "," (repeat h (Z.to_nat n)))]).
Proof.
  intros cgml bu Hinit. destruct (CityGML_init_Ok _ Hinit) as [Hnss _].
  unfold CityGML.storeys_above_ground. rewrite Hnss. split; [intros ->; reflexivity|].
  intros fl ->. unfold SubElement. tags. cbn [text_of bind]. split; [intros ->; reflexivity|].
  intros he ->. cbn [text_of bind]. split; [|split].
  - intros ->. reflexivity.
  - intros floors -> _ Hno. cbn [Py.int]. rewrite Hno. reflexivity.
  - intros n h -> Hh Hfree Hne. cbn [bind]. rewrite Hh.
    rewrite (storey_heights_text_repeat _ _ Hfree Hne). reflexivity.
Qed.

Lemma storey_heights_repeat_the_height_witness :
  exists cgml,
    CityGML.init = Ok cgml
    /\ CityGML.storeys_above_ground cgml Sample.storeyed
       = Ok [citygml_storeys (Some "3"); citygml_storey_heights "2.7,2.7,2.7"]
    /\ CityGML.storeys_above_ground cgml Sample.storeyed_in_words = Raise ValueError.
Proof.
  assert (exists cgml, CityGML.init = Ok cgml) as [cgml Hcgml]
    by (eexists; vm_compute; reflexivity).
  exists cgml. split; [exact Hcgml|].
  destruct (storey_heights_repeat_the_height cgml Sample.storeyed Hcgml) as [_ T1].
  destruct (T1 (Sample.field "FLOORS" "3") eq_refl) as [_ T2].
  destruct (T2 (Sample.field "H_FLOOR" "2.7") eq_refl) as (_ & _ & T3).
  destruct (storey_heights_repeat_the_height cgml Sample.storeyed_in_words Hcgml) as [_ U1].
  destruct (U1 (Sample.field "FLOORS" "three") eq_refl) as [_ U2].
  destruct (U2 (Sample.field "H_FLOOR" "2.7") eq_refl) as (_ & U3 & _).
  split.
  - apply (T3 3%Z "2.7"); [reflexivity | reflexivity | reflexivity | discriminate].
  - apply (U3 "three"); reflexivity.
Defined.

(** The refurbishment of CityGML.  For a building with the beginning of a
    renovation the translator reads the end without a test: a building
    without the end is an [AttributeError] and has no translation.  With
    both, the time period of the block holds two elements [beginPosition],
    the second with the text of the end, and no [endPosition]. *)
Theorem refurbishment_end_under_begin_position :
  forall (cgml : CityGML.t) (bu : Building.t) (b : Element),
    CityGML.init = Ok cgml ->
    Building.find bu "DATE_R_BEGINNING" = Some b ->
    (Building.find bu "DATE_R_END" = None ->
     CityGML.refurbishment_measure cgml bu = Raise AttributeError
     /\ forall m, CityGML.translate_building cgml bu <> Ok m)
    /\ (forall e, Building.find bu "DATE_R_END" = Some e ->
                  CityGML.refurbishment_measure cgml bu
                  = Ok [citygml_refurbishment (text b) (text e)]).
Proof.
  intros cgml bu b Hinit Hb. destruct (CityGML_init_Ok _ Hinit) as [Hnss _].
  assert (Hnone : Building.find bu "DATE_R_END" = None ->
                  CityGML.refurbishment_measure cgml bu = Raise AttributeError).
  { intros He. unfold CityGML.refurbishment_measure. rewrite Hb, He, Hnss.
    unfold SubElement. tags. reflexivity. }
  split.
  - intros He. split; [exact (Hnone He)|]. intros m H.
    unfold CityGML.translate_building in H. do 19 bind_inv H.
    rewrite (Hnone He) in Ha11. discriminate.
  - intros e He. unfold CityGML.refurbishment_measure. rewrite Hb, He, Hnss.
    unfold SubElement. tags. reflexivity.
Qed.

Lemma refurbishment_end_under_begin_position_witness :
  exists cgml,
    CityGML.init = Ok cgml
    /\ CityGML.refurbishment_measure cgml Sample.renovating = Raise AttributeError
    /\ CityGML.refurbishment_measure cgml Sample.dated
       = Ok [citygml_refurbishment (Some "1990") (Some "1995")].
Proof.
  assert (exists cgml, CityGML.init = Ok cgml) as [cgml Hcgml]
    by (eexists; vm_compute; reflexivity).
  exists cgml. split; [exact Hcgml|].
  destruct (refurbishment_end_under_begin_position cgml Sample.renovating
              (Sample.field "DATE_R_BEGINNING" "1990") Hcgml eq_refl) as [T _].
  destruct (refurbishment_end_under_begin_position cgml Sample.dated
              (Sample.field "DATE_R_BEGINNING" "1990") Hcgml eq_refl) as [_ U].
  split.
  - apply T. reflexivity.
  - apply (U (Sample.field "DATE_R_END" "1995")). reflexivity.
Defined.

(** ** The energy demand: sources, years and values *)

(** The source of a carrier.  Without a value of the carrier no demand is
    built, whatever else the building has.  With a value, the lower-cased
    source has to be the carrier: another source is the error of the
    expected source, and the building has no translation. *)
Theorem demand_source_must_match :
  forall (cgml : CityGML.t) (bu : Building.t),
    CityGML.init = Ok cgml ->
    (Building.find bu "CONSUMONORM_VALORE_E" = None ->
     CityGML.demand cgml bu "CONSUMONORM_VALORE_E" "electricity" = Ok [])
    /\ (Building.find bu "CONSUMONORM_VALORE_T" = None ->
        CityGML.demand cgml bu "CONSUMONORM_VALORE_T" "thermal" = Ok [])
    /\ (forall s src,
           Building.find bu "CONSUMONORM_VALORE_E" <> None ->
           Building.find bu "ENERGYAMOUNT_E_SOURCE_E" = Some s ->
           text s = Some src ->
           Py.lower src <> "electricity" ->
           CityGML.demand cgml bu "CONSUMONORM_VALORE_E" "electricity"
           = Raise (UnboundLocalError (ExpectedSource "electricity" (Py.lower src)))
           /\ forall m, CityGML.translate_building cgml bu <> Ok m)
    /\ (forall s src,
           Building.find bu "CONSUMONORM_VALORE_T" <> None ->
           Building.find bu "ENERGYAMOUNT_E_SOURCE_T" = Some s ->
           text s = Some src ->
           Py.lower src <> "thermal" ->
           CityGML.demand cgml bu "CONSUMONORM_VALORE_T" "thermal"
           = Raise (UnboundLocalError (ExpectedSource "thermal" (Py.lower src)))
           /\ forall m, CityGML.translate_building cgml bu <> Ok m).
Proof.
  intros cgml bu Hinit.
  assert (Hskip : forall value carrier,
             Building.find bu value = None -> CityGML.demand cgml bu value carrier = Ok []).
  { intros value carrier Hv. unfold CityGML.demand.
    rewrite (proj1 (find_all_nil bu value) Hv). reflexivity. }
  assert (Hraise : forall value carrier source years uom kind s src,
             CityGML.make_demand cgml bu carrier
             = CityGML.demand_of cgml bu carrier source years uom value kind ->
             Building.find bu value <> None ->
             Building.find bu source = Some s ->
             text s = Some src ->
             Py.lower src <> carrier ->
             CityGML.demand cgml bu value carrier
             = Raise (UnboundLocalError (ExpectedSource carrier (Py.lower src)))).
  { intros value carrier source years uom kind s src Hmk Hv Hs Ht Hne.
    unfold CityGML.demand.
    destruct (Building.find_all bu value) as [|v vs] eqn:Ev;
      [apply find_all_nil in Ev; contradiction|].
    cbn [forallb CityGML.is_none andb negb]. rewrite Hmk. unfold CityGML.demand_of.
    rewrite Hs. cbn [str_text_of]. rewrite Ht. cbn [bind].
    destruct (String.eqb_spec (Py.lower src) carrier); [contradiction | reflexivity]. }
  split; [apply Hskip|]. split; [apply Hskip|]. split.
  - intros s src Hv Hs Ht Hne.
    pose proof (Hraise "CONSUMONORM_VALORE_E" "electricity" "ENERGYAMOUNT_E_SOURCE_E"
                  "ENERGYAMOUNT_E_YEAR_ONLY_E" "CONSUMONORM_UOM_E" "Electricity" s src
                  eq_refl Hv Hs Ht Hne) as R.
    split; [exact R|]. intros m H. unfold CityGML.translate_building in H.
    do 19 bind_inv H. congruence.
  - intros s src Hv Hs Ht Hne.
    pose proof (Hraise "CONSUMONORM_VALORE_T" "thermal" "ENERGYAMOUNT_E_SOURCE_T"
                  "ENERGYAMOUNT_E_YEAR_ONLY_T" "CONSUMONORM_UOM_T" "HotWater" s src
                  eq_refl Hv Hs Ht Hne) as R.
    split; [exact R|]. intros m H. unfold CityGML.translate_building in H.
    do 19 bind_inv H. congruence.
Qed.

Lemma demand_source_must_match_witness :
  exists cgml,
    CityGML.init = Ok cgml
    /\ CityGML.demand cgml Sample.mislabelled "CONSUMONORM_VALORE_E" "electricity"
       = Raise (UnboundLocalError (ExpectedSource "electricity" "thermal"))
    /\ CityGML.demand cgml Sample.mislabelled "CONSUMONORM_VALORE_T" "thermal" = Ok [].
Proof.
  assert (exists cgml, CityGML.init = Ok cgml) as [cgml Hcgml]
    by (eexists; vm_compute; reflexivity).
  exists cgml. split; [exact Hcgml|].
  destruct (demand_source_must_match cgml Sample.mislabelled Hcgml) as (_ & T & E & _).
  split.
  - apply (E (Sample.field "ENERGYAMOUNT_E_SOURCE_E" "Thermal") "Thermal");
      [discriminate | reflexivity | reflexivity | discriminate].
  - apply T. reflexivity.
Defined.

Lemma all_some_In_None (l : list (option string)) : In None l -> Py.all_some l = None.
Proof.
  induction l as [|[s|] l IH]; cbn; intros H; [destruct H | | reflexivity].
  destruct H as [H|H]; [discriminate|]. rewrite (IH H). reflexivity.
Qed.

(** The years of a demand that cannot be used: of no year the first one is
    an [IndexError]; a year without text is a [TypeError], of the sorting
    when there are several years and of [int] when it is the only one; a
    first or last year in sorted order that is an ASCII text and no numeral
    is a [ValueError]. *)
Theorem demand_years_must_be_numerals :
  forall (cgml : CityGML.t) (years : list (option string)) (uom : string)
         (energy_values : list (option string)) (carrier : string),
    CityGML.init = Ok cgml ->
    (years = [] ->
     CityGML.demand_element cgml years uom energy_values carrier = Raise IndexError)
    /\ (In None years ->
        CityGML.demand_element cgml years uom energy_values carrier = Raise TypeError)
    /\ (forall ys y0 y1,
           years = map Some ys ->
           Py.first (Py.sort ys) = Ok y0 ->
           Py.last (Py.sort ys) = Ok y1 ->
           (is_ascii y0 = true /\ Py.int_of_string y0 = None)
           \/ (is_ascii y1 = true /\ Py.int_of_string y1 = None) ->
           CityGML.demand_element cgml years uom energy_values carrier = Raise ValueError).
Proof.
  intros cgml years uom energy_values carrier Hinit.
  destruct (CityGML_init_Ok _ Hinit) as [Hnss _].
  unfold CityGML.demand_element. rewrite Hnss. unfold SubElement. tags. cbn [bind].
  split; [intros ->; reflexivity|]. split.
  - intros Hin. destruct years as [|a [|b r]]; [destruct Hin | |].
    + destruct Hin as [->|[]]. reflexivity.
    + unfold Py.sorted. rewrite (all_some_In_None _ Hin). reflexivity.
  - intros ys y0 y1 -> H0 H1 Hno. rewrite sorted_some. cbn [bind].
    rewrite (first_map Some _ _ H0), (last_map Some _ _ H1). cbn [bind Py.int].
    destruct (Py.int_of_string y1); [|reflexivity]. cbn [bind].
    destruct (Py.int_of_string y0); [|reflexivity].
    destruct Hno as [[_ Hno]|[_ Hno]]; discriminate.
Qed.

Lemma demand_years_must_be_numerals_witness :
  exists cgml,
    CityGML.init = Ok cgml
    /\ CityGML.demand_element cgml [] "kwh" [Some "12"] "Electricity" = Raise IndexError
    /\ CityGML.demand_element cgml [Some "2015"; None] "kwh" [Some "12"; Some "13"]
         "Electricity" = Raise TypeError
    /\ CityGML.demand_element cgml [Some "2016"; Some "about 2015"] "kwh"
         [Some "12"; Some "13"] "Electricity" = Raise ValueError.
Proof.
  assert (exists cgml, CityGML.init = Ok cgml) as [cgml Hcgml]
    by (eexists; vm_compute; reflexivity).
  exists cgml. split; [exact Hcgml|].
  destruct (demand_years_must_be_numerals cgml [] "kwh" [Some "12"] "Electricity" Hcgml)
    as (T1 & _ & _).
  destruct (demand_years_must_be_numerals cgml [Some "2015"; None] "kwh"
              [Some "12"; Some "13"] "Electricity" Hcgml) as (_ & T2 & _).
  destruct (demand_years_must_be_numerals cgml [Some "2016"; Some "about 2015"] "kwh"
              [Some "12"; Some "13"] "Electricity" Hcgml) as (_ & _ & T3).
  split; [apply T1; reflexivity|]. split; [apply T2; cbn; tauto|].
  apply (T3 ["2016"; "about 2015"] "2016" "about 2015");
    [reflexivity | reflexivity | reflexivity | right; split; reflexivity].
Defined.

Lemma get_of_items_None {V : Type} (items : list (option string * V)) k :
  ~ In k (map fst items) ->
  Py.assoc_get Py.eqb k (Py.assoc_of_items Py.eqb items) = None.
Proof.
  intros H. unfold Py.assoc_of_items. rewrite (get_fold_other _ _ _ H). reflexivity.
Qed.

Lemma get_fold_some {V : Type} (k : option string) (items : list (option string * V)) :
  forall d,
    Py.assoc_get Py.eqb k d <> None \/ In k (map fst items) ->
    Py.assoc_get Py.eqb k
      (fold_left (fun d kv => Py.assoc_set Py.eqb (fst kv) (snd kv) d) items d)
    <> None.
Proof.
  induction items as [|[k0 v0] items IH]; intros d H; cbn [fold_left fst snd].
  - destruct H as [H|[]]. exact H.
  - apply IH. destruct (Py.eqb k k0) eqn:E.
    + apply eqb_eq in E. subst k0. left. rewrite get_set_same. discriminate.
    + assert (Hne : k <> k0) by (intros ->; rewrite (proj2 (eqb_eq k0 k0) eq_refl) in E;
                                 discriminate).
      destruct H as [H|[H|H]].
      * left. rewrite (get_set_other _ _ _ _ Hne). exact H.
      * cbn in H. congruence.
      * right. exact H.
Qed.

Lemma combine_fst {A B : Type} (l : list A) (l' : list B) :
  map fst (combine l l') = firstn (length l') l.
Proof.
  revert l'. induction l as [|x l IH]; intros [|y l']; cbn; try reflexivity.
  rewrite IH. reflexivity.
Qed.

Lemma combine_surplus {A B : Type} (l : list A) (l' extra : list B) :
  length l <= length l' -> combine l (l' ++ extra) = combine l l'.
Proof.
  revert l'. induction l as [|x l IH]; intros [|y l'] H; cbn in *; try reflexivity; [lia|].
  rewrite IH by lia. reflexivity.
Qed.

Lemma NoDup_app_right {A : Type} (l1 l2 : list A) (x : A) :
  NoDup (l1 ++ l2) -> In x l2 -> ~ In x l1.
Proof.
  induction l1 as [|a l1 IH]; cbn; intros Hnd Hin; [tauto|].
  inversion Hnd as [|? ? Hnotin Hnd']; subst. intros [->|H].
  - apply Hnotin. apply in_or_app. right. exact Hin.
  - exact (IH Hnd' Hin H).
Qed.

Lemma formatted_values_Raise year_values (l : list (option string)) :
  (exists y, In y l /\ Py.assoc_get Py.eqb y year_values = None) ->
  exists y,
    In y l /\ Py.assoc_get Py.eqb y year_values = None
    /\ CityGML.formatted_values year_values l = Raise (KeyError y).
Proof.
  induction l as [|y0 l IH]; intros (y & Hin & Hget); [destruct Hin|].
  cbn [CityGML.formatted_values].
  destruct (Py.assoc_get Py.eqb y0 year_values) as [v|] eqn:E.
  - destruct Hin as [->|Hin]; [congruence|].
    destruct (IH (ex_intro _ y (conj Hin Hget))) as (z & Hz & Hgz & Hraise).
    exists z. split; [right; exact Hz|]. split; [exact Hgz|].
    cbn [bind]. rewrite Hraise. reflexivity.
  - exists y0. split; [left; reflexivity|]. split; [exact E | reflexivity].
Qed.

(** Years and values are paired by their positions in the two lists.  The
    values beyond the number of years are not read.  With fewer values than
    years (the years not repeated and their count the one of consecutive
    years), the values text is not built: the demand is the [KeyError] of a
    year beyond the number of values. *)
Theorem demand_values_paired_by_position :
  forall (cgml : CityGML.t) (years : list (option string)) (uom : string)
         (energy_values : list (option string)) (carrier : string),
    CityGML.init = Ok cgml ->
    (forall surplus,
        length years <= length energy_values ->
        CityGML.demand_element cgml years uom (energy_values ++ surplus)%list carrier
        = CityGML.demand_element cgml years uom energy_values carrier)
    /\ (forall ys y0 y1 a b,
           years = map Some ys ->
           NoDup ys ->
           Py.first (Py.sort ys) = Ok y0 ->
           Py.last (Py.sort ys) = Ok y1 ->
           Py.int_of_string y0 = Some a ->
           Py.int_of_string y1 = Some b ->
           Z.of_nat (length ys) = (b - a + 1)%Z ->
           length energy_values < length ys ->
           exists y,
             In y (skipn (length energy_values) ys)
             /\ CityGML.demand_element cgml years uom energy_values carrier
                = Raise (KeyError (Some y))).
Proof.
  intros cgml years uom energy_values carrier Hinit.
  destruct (CityGML_init_Ok _ Hinit) as [Hnss _]. split.
  - intros surplus Hlen. unfold CityGML.demand_element.
    rewrite (combine_surplus _ _ surplus Hlen). reflexivity.
  - intros ys y0 y1 a b -> Hnd H0 H1 Ha Hb Hcount Hlen.
    set (n := length energy_values) in *.
    set (year_values := Py.assoc_of_items Py.eqb (combine (map Some ys) energy_values)).
    assert (Hkeys : map fst (combine (map Some ys) energy_values)
                    = map Some (firstn n ys)).
    { rewrite combine_fst, firstn_map. reflexivity. }
    assert (Hsplit : NoDup (firstn n ys ++ skipn n ys)) by (rewrite firstn_skipn; exact Hnd).
    assert (Hnone : forall y, In y (skipn n ys) ->
                              Py.assoc_get Py.eqb (Some y) year_values = None).
    { intros y Hy. apply get_of_items_None. rewrite Hkeys. intros Hin.
      apply in_map_iff in Hin. destruct Hin as (z & [= ->] & Hz).
      exact (NoDup_app_right _ _ _ Hsplit Hy Hz). }
    assert (Hsome : forall y, In y (firstn n ys) ->
                              Py.assoc_get Py.eqb (Some y) year_values <> None).
    { intros y Hy. apply get_fold_some. right. rewrite Hkeys. apply in_map. exact Hy. }
    assert (Hex : exists y, In y (map Some (Py.sort ys))
                            /\ Py.assoc_get Py.eqb y year_values = None).
    { destruct (skipn n ys) as [|y r] eqn:E.
      - pose proof (length_skipn n ys) as L. rewrite E in L. cbn in L. lia.
      - exists (Some y). split; [|apply Hnone; left; reflexivity].
        apply in_map. apply (Permutation_in _ (sort_Permutation ys)).
        rewrite <- (firstn_skipn n ys), E. apply in_or_app. right. left. reflexivity. }
    destruct (formatted_values_Raise year_values _ Hex) as (z & Hz & Hgz & Hraise).
    apply in_map_iff in Hz. destruct Hz as (y & <- & Hy).
    exists y. split.
    + apply (Permutation_in _ (Permutation_sym (sort_Permutation ys))) in Hy.
      rewrite <- (firstn_skipn n ys) in Hy. apply in_app_or in Hy.
      destruct Hy as [Hy|Hy]; [|exact Hy]. destruct (Hsome y Hy Hgz).
    + unfold CityGML.demand_element. rewrite Hnss. unfold SubElement. tags.
      cbn [bind]. rewrite sorted_some. cbn [bind].
      rewrite (first_map Some _ _ H0), (last_map Some _ _ H1). cbn [bind Py.int].
      rewrite Ha, Hb. cbn [bind]. rewrite !length_map.
      rewrite Hcount, Z.eqb_refl. cbn [negb].
      fold year_values. rewrite Hraise. reflexivity.
Qed.

Lemma demand_values_paired_by_position_witness :
  exists cgml,
    CityGML.init = Ok cgml
    /\ CityGML.demand_element cgml [Some "2015"; Some "2016"] "kwh"
         [Some "10"; Some "12"; Some "14"] "Electricity"
       = CityGML.demand_element cgml [Some "2015"; Some "2016"] "kwh"
           [Some "10"; Some "12"] "Electricity"
    /\ exists y,
        In y (skipn 1 ["2015"; "2016"])
        /\ CityGML.demand_element cgml [Some "2015"; Some "2016"] "kwh" [Some "10"]
             "Electricity" = Raise (KeyError (Some y)).
Proof.
  assert (exists cgml, CityGML.init = Ok cgml) as [cgml Hcgml]
    by (eexists; vm_compute; reflexivity).
  exists cgml. split; [exact Hcgml|].
  destruct (demand_values_paired_by_position cgml [Some "2015"; Some "2016"] "kwh"
              [Some "10"; Some "12"] "Electricity" Hcgml) as [T _].
  destruct (demand_values_paired_by_position cgml [Some "2015"; Some "2016"] "kwh"
              [Some "10"] "Electricity" Hcgml) as [_ U].
  split.
  - apply (T [Some "14"]). cbn. lia.
  - apply (U ["2015"; "2016"] "2015" "2016" 2015%Z 2016%Z);
      try reflexivity; [|cbn; lia].
    repeat constructor; cbn; intuition discriminate.
Defined.

(** ** The terms of the current use *)

Lemma eqb_none_of p (t k : string) :
  none_of p k = true -> none_of p t = false -> String.eqb t k = false.
Proof.
  intros Hk Ht. destruct (String.eqb_spec t k); [|reflexivity]. congruence.
Qed.

(** The terms of the multi-use attribute are looked up as they are written.
    The keys of the code-list are made of lower-case letters: an entry whose
    term has another character, a capital or a blank after the comma, is
    not resolved, the block is the [KeyError] of an unresolved term and the
    building has no translation. *)
Theorem current_use_terms_as_written :
  forall (ts : string) (insp : Inspire.t) (bu : Building.t) (e : Element) (use_m : string),
    Inspire.init ts = Ok insp ->
    Building.find bu "USE_M" = Some e ->
    text e = Some use_m ->
    (forall use,
        none_of (fun c => negb (is_lower_letter c)) (use_term use) = false ->
        Py.get (use_term use) (Inspire.current_use_dict insp) = None)
    /\ (Exists (fun use => none_of (fun c => negb (is_lower_letter c)) (use_term use) = false)
          (Py.split "," use_m) ->
        (exists use,
            In use (Py.split "," use_m)
            /\ Inspire.current_use insp bu = Raise (KeyError (Some (use_term use))))
        /\ forall m, Inspire.translate_building insp bu <> Ok m).
Proof.
  intros ts insp bu e use_m Hinit He Ht.
  destruct (Inspire_init_dicts _ _ Hinit) as (Hnss & _ & _ & _ & Hdict).
  assert (Hget : forall use,
             none_of (fun c => negb (is_lower_letter c)) (use_term use) = false ->
             Py.get (use_term use) (Inspire.current_use_dict insp) = None).
  { intros use Hbad. rewrite Hdict. unfold Py.get. cbn [Py.assoc_get].
    assert (Hk : forall k, none_of (fun c => negb (is_lower_letter c)) k = true ->
                           String.eqb (use_term use) k = false)
      by (intros k Hk; exact (eqb_none_of _ _ _ Hk Hbad)).
    rewrite !Hk by reflexivity. reflexivity. }
  split; [exact Hget|]. intros Hex.
  assert (Hcu : Inspire.current_use insp bu
                = Inspire.current_use_blocks insp (Py.split "," use_m)).
  { unfold Inspire.current_use. rewrite He. cbn [str_text_of]. rewrite Ht. reflexivity. }
  destruct (current_use_blocks_unresolved insp (Py.split "," use_m) Hnss)
    as (use & Hin & _ & Hraise).
  { revert Hex. apply Exists_impl. exact Hget. }
  split.
  - exists use. split; [exact Hin|]. rewrite Hcu. exact Hraise.
  - intros m H.
    destruct (InspireBuilding.inspire_member_blocks _ _ _ Hnss H)
      as (b1 & b2 & b3 & b4 & b5 & b6 & b7 & b8 & b9 & b10 & b11 & b12 & H').
    decompose [and] H'. congruence.
Qed.

Lemma current_use_terms_as_written_witness :
  exists insp,
    Inspire.init "2024-05-01T12:00:00" = Ok insp
    /\ Py.get "Residenziale" (Inspire.current_use_dict insp) = None
    /\ (exists use,
           In use (Py.split "," "residenziale(80%), negozio(20%)")
           /\ Inspire.current_use insp Sample.spaced_use
              = Raise (KeyError (Some (use_term use)))).
Proof.
  assert (exists insp, Inspire.init "2024-05-01T12:00:00" = Ok insp) as [insp Hinsp]
    by (eexists; vm_compute; reflexivity).
  exists insp. split; [exact Hinsp|].
  destruct (current_use_terms_as_written _ insp Sample.capital_use
              (Sample.field "USE_M" "Residenziale(100%)") "Residenziale(100%)"
              Hinsp eq_refl eq_refl) as [T _].
  destruct (current_use_terms_as_written _ insp Sample.spaced_use
              (Sample.field "USE_M" "residenziale(80%), negozio(20%)")
              "residenziale(80%), negozio(20%)" Hinsp eq_refl eq_refl) as [_ U].
  split.
  - apply (T "Residenziale(100%)"). reflexivity.
  - apply U. apply Exists_cons_tl. apply Exists_cons_hd. reflexivity.
Defined.

(** ** The header of the INSPIRE collection *)

(** The root of the INSPIRE output keeps what [__init__] gave it: after a
    translation it is the feature collection with the time stamp of the
    construction, and its number of returned features reads 1000 whatever
    the number of members is. *)
Theorem collection_header_is_fixed :
  forall (ts : string) (insp insp' : Inspire.t) (ceg ceg' : CitiEnGov.t),
    Inspire.init ts = Ok insp ->
    Inspire.translate insp ceg = Some (Ok insp', ceg') ->
    tag (Inspire.root insp') = "{http://www.opengis.net/wfs/2.0}FeatureCollection"
    /\ Py.get "numberReturned" (attrib (Inspire.root insp')) = Some "1000"
    /\ Py.get "numberMatched" (attrib (Inspire.root insp')) = Some "unknown"
    /\ Py.get "timeStamp" (attrib (Inspire.root insp')) = Some ts
    /\ text (Inspire.root insp') = None.
Proof.
  intros ts insp insp' ceg ceg' Hinit H.
  assert (Hkeep : tag (Inspire.root insp') = tag (Inspire.root insp)
                  /\ attrib (Inspire.root insp') = attrib (Inspire.root insp)
                  /\ text (Inspire.root insp') = text (Inspire.root insp)).
  { revert H. unfold Inspire.translate.
    apply (for_each_related
             (fun s s' => tag (Inspire.root s') = tag (Inspire.root s)
                          /\ attrib (Inspire.root s') = attrib (Inspire.root s)
                          /\ text (Inspire.root s') = text (Inspire.root s))).
    - intros s. repeat split.
    - intros a b c (A1 & A2 & A3) (B1 & B2 & B3). repeat split; congruence.
    - intros b s s1 Hs. unfold Inspire.translate_step in Hs. bind_inv Hs.
      injection Hs as <-. repeat split. }
  destruct Hkeep as (-> & -> & ->).
  unfold Inspire.init in Hinit. crunch Hinit. injection Hinit as <-.
  repeat split.
Qed.

Lemma collection_header_is_fixed_witness :
  exists ceg insp insp' ceg',
    CitiEnGov.init nodup_order Sample.two_buildings = Ok ceg
    /\ Inspire.init "2024-05-01T12:00:00" = Ok insp
    /\ Inspire.translate insp ceg = Some (Ok insp', ceg')
    /\ length (children (Inspire.root insp')) = 2
    /\ Py.get "numberReturned" (attrib (Inspire.root insp')) = Some "1000".
Proof.
  assert (exists ceg, CitiEnGov.init nodup_order Sample.two_buildings = Ok ceg) as [ceg Hceg]
    by (eexists; vm_compute; reflexivity).
  assert (exists insp, Inspire.init "2024-05-01T12:00:00" = Ok insp) as [insp Hinsp]
    by (eexists; vm_compute; reflexivity).
  assert (exists insp1 c1, Inspire.translate insp ceg = Some (Ok insp1, c1)
                           /\ length (children (Inspire.root insp1)) = 2)
    as (insp1 & c1 & H1 & L1).
  { vm_compute in Hceg, Hinsp. injection Hceg as <-. injection Hinsp as <-.
    do 2 eexists. split; [vm_compute; reflexivity | reflexivity]. }
  exists ceg, insp, insp1, c1.
  destruct (collection_header_is_fixed _ insp insp1 ceg c1 Hinsp H1) as (_ & N & _).
  repeat split; assumption.
Defined.

(** ** Dates and conditions *)

(** The year of the lifespan is written into the dates as it is read, with
    no check that it is a year: the creation date of CityGML is the year
    text followed by the first of January, and the time stamp of INSPIRE is
    that date followed by midnight.  For an element without text the year
    text is [None] written out. *)
Theorem lifespan_year_is_spliced :
  forall (ts : string) (insp : Inspire.t) (cgml : CityGML.t) (bu : Building.t) (l : Element),
    Inspire.init ts = Ok insp ->
    CityGML.init = Ok cgml ->
    Building.find bu "LIFESPAN_BEGINNING" = Some l ->
    CityGML.creation_date cgml bu
    = Ok [mkElement "{http://www.opengis.net/citygml/2.0}creationDate" [] 
            (Some (year_text l ++ "-01-01")) []]
    /\ Inspire.begin_lifespan_version insp bu
       = Ok [mkElement (bu_base "beginLifespanVersion") []
               (Some ((year_text l ++ "-01-01") ++ "T00:00:00")) []]
    /\ (text l = None -> year_text l = "None").
Proof.
  intros ts insp cgml bu l Hinsp Hcgml Hl.
  destruct (Inspire_init_Ok _ _ Hinsp) as [Hn1 _].
  destruct (CityGML_init_Ok _ Hcgml) as [Hn2 _].
  unfold CityGML.creation_date, Inspire.begin_lifespan_version.
  rewrite Hl, Hn1, Hn2. unfold SubElement. tags. cbn [text_of bind].
  unfold CityGML.date_of, Inspire.timestamp_of, year_text.
  rewrite append_assoc3. repeat split. intros ->. reflexivity.
Qed.

Lemma lifespan_year_is_spliced_witness :
  exists insp cgml,
    Inspire.init "2024-05-01T12:00:00" = Ok insp
    /\ CityGML.init = Ok cgml
    /\ Inspire.begin_lifespan_version insp Sample.undated_lifespan
       = Ok [mkElement (bu_base "beginLifespanVersion") []
               (Some "None-01-01T00:00:00") []].
Proof.
  assert (exists insp, Inspire.init "2024-05-01T12:00:00" = Ok insp) as [insp Hinsp]
    by (eexists; vm_compute; reflexivity).
  assert (exists cgml, CityGML.init = Ok cgml) as [cgml Hcgml]
    by (eexists; vm_compute; reflexivity).
  exists insp, cgml. split; [exact Hinsp|]. split; [exact Hcgml|].
  destruct (lifespan_year_is_spliced _ insp cgml Sample.undated_lifespan
              (mkElement (Sample.ceg_name "LIFESPAN_BEGINNING") [] None [])
              Hinsp Hcgml eq_refl) as (_ & T & _).
  exact T.
Defined.

(** The condition of construction of INSPIRE has one term.  A condition
    whose lower-cased text is [functional] gives the element with the
    reference of that term; every other condition is the [KeyError] of its
    lower-cased text, and the building has no translation. *)
Theorem condition_is_functional_or_fails :
  forall (ts : string) (insp : Inspire.t) (bu : Building.t) (c : Element) (cond : string),
    Inspire.init ts = Ok insp ->
    Building.find bu "CONDITION" = Some c ->
    text c = Some cond ->
    (Py.lower cond = "functional" ->
     Inspire.condition_of_construction insp bu
     = Ok [mkElement (bu_base "conditionOfConstruction")
             [(xlink_href,
               "http://inspire.ec.europa.eu/codelist/ConditionOfConstructionValue/functional")]
             None []])
    /\ (Py.lower cond <> "functional" ->
        Inspire.condition_of_construction insp bu = Raise (KeyError (Some (Py.lower cond)))
        /\ forall m, Inspire.translate_building insp bu <> Ok m).
Proof.
  intros ts insp bu c cond Hinit Hc Ht.
  destruct (Inspire_init_dicts _ _ Hinit) as (Hnss & Hdict & _).
  assert (Hblock : Inspire.condition_of_construction insp bu
                   = attributes <- (uri <- Py.getitem
                                             (Inspire.condition_of_construction_dict insp)
                                             (Py.lower cond) ;;
                                    href (Inspire.nss insp) uri) ;;
                     e <- SubElement (Inspire.nss insp) "bu-base:conditionOfConstruction"
                            attributes None [] ;;
                     Ok [e]).
  { unfold Inspire.condition_of_construction. rewrite Hc. cbn [str_text_of]. rewrite Ht.
    reflexivity. }
  rewrite Hblock, Hdict, Hnss. unfold Py.getitem, Py.get. cbn [Py.assoc_get]. split.
  - intros ->. cbn [String.eqb Ascii.eqb]. unfold SubElement, href. tags. reflexivity.
  - intros Hne. destruct (String.eqb_spec (Py.lower cond) "functional"); [contradiction|].
    split; [reflexivity|]. intros m H.
    destruct (InspireBuilding.inspire_member_blocks _ _ _ Hnss H)
      as (b1 & b2 & b3 & b4 & b5 & b6 & b7 & b8 & b9 & b10 & b11 & b12 & H').
    destruct H' as (_ & H2 & _).
    rewrite Hblock, Hdict in H2. unfold Py.getitem, Py.get in H2. cbn [Py.assoc_get] in H2.
    destruct (String.eqb_spec (Py.lower cond) "functional"); [contradiction|].
    discriminate.
Qed.

Lemma condition_is_functional_or_fails_witness :
  exists insp,
    Inspire.init "2024-05-01T12:00:00" = Ok insp
    /\ Inspire.condition_of_construction insp Sample.functional
       = Ok [mkElement (bu_base "conditionOfConstruction")
               [(xlink_href,
                 "http://inspire.ec.europa.eu/codelist/ConditionOfConstructionValue/functional")]
               None []]
    /\ Inspire.condition_of_construction insp Sample.ruin = Raise (KeyError (Some "ruin")).
Proof.
  assert (exists insp, Inspire.init "2024-05-01T12:00:00" = Ok insp) as [insp Hinsp]
    by (eexists; vm_compute; reflexivity).
  exists insp. split; [exact Hinsp|].
  destruct (condition_is_functional_or_fails _ insp Sample.functional
              (Sample.field "CONDITION" "Functional") "Functional" Hinsp eq_refl eq_refl)
    as [T _].
  destruct (condition_is_functional_or_fails _ insp Sample.ruin
              (Sample.field "CONDITION" "ruin") "ruin" Hinsp eq_refl eq_refl)
    as [_ U].
  split; [apply T; reflexivity|].
  destruct U as [U _]; [discriminate | exact U].
Defined.
